(** * Sigrid CI client: a shallow embedding of [sigridci.py]

    The development follows the three classes of the script:
    [SystemUploadPacker] (archive construction), [SigridApiClient]
    (location request, upload, polling) and [Report] / [ExitCodeReport]
    (pass/fail gate).

    Modelling conventions.
    - A Python [str] is a Rocq [string] that holds its UTF-8 bytes, so
      that [.encode("utf8")] is the identity; a character of the ASCII
      range is one [ascii], another character takes two to four.
    - A JSON number is a rational [Q]: every finite Python [int] or [float]
      is a rational and Python compares the two kinds exactly.  The float
      [-0.0], which differs from [0.0] in print only, has a value of its
      own.
    - Effects are threaded through a trace of events (log lines, prints,
      sleeps, network requests, the written archive), newest event first.
    - [sys.exit] and an uncaught exception are two ways of leaving a
      computation; [try]/[except] inspects the second one only. *)

From Stdlib Require Import String Ascii List ZArith QArith Bool Lia Arith DecimalString.
From Stdlib Require Import Permutation.
From Stdlib Require Qcanon.
Import ListNotations.
Close Scope Q_scope.
Open Scope string_scope.
Open Scope bool_scope.

(* ===================================================================== *)
(** ** Python primitives *)
(* ===================================================================== *)

Module Py.

(** [s.startswith(p)] is [String.prefix p s]; [p in s] is [contains p s]. *)
Fixpoint contains (p s : string) : bool :=
  match s with
  | EmptyString => prefix p s
  | String _ s' => prefix p s || contains p s'
  end.

(** The propositional reading of [p in s]. *)
Definition Substring (p s : string) : Prop :=
  exists a b, s = a ++ p ++ b.

(** [s.lstrip(chars)] and [s.rstrip(chars)], the set of characters given as
    a predicate. *)
Fixpoint lstrip (p : ascii -> bool) (s : string) : string :=
  match s with
  | EmptyString => EmptyString
  | String c s' => if p c then lstrip p s' else s
  end.

Fixpoint rstrip (p : ascii -> bool) (s : string) : string :=
  match s with
  | EmptyString => EmptyString
  | String c s' =>
      match rstrip p s' with
      | EmptyString => if p c then EmptyString else String c EmptyString
      | r => String c r
      end
  end.

Definition strip (p : ascii -> bool) (s : string) : string :=
  rstrip p (lstrip p s).

(** [str.isspace] on one character.  In the ASCII range, where a
    character is one byte: TAB..CR, FS..US and the space. *)
Definition isspace (c : ascii) : bool :=
  let n := nat_of_ascii c in
  ((9 <=? n)%nat && (n <=? 13)%nat) || ((28 <=? n)%nat && (n <=? 32)%nat).

(** Beyond it, by the UTF-8 bytes of the character: U+0085 and U+00A0
    take two bytes, *)
Definition isspace2 (a b : ascii) : bool :=
  (nat_of_ascii a =? 194)%nat
  && ((nat_of_ascii b =? 133)%nat || (nat_of_ascii b =? 160)%nat).

(** and U+1680, U+2000..U+200A, U+2028, U+2029, U+202F, U+205F and U+3000
    take three. *)
Definition isspace3 (a b c : ascii) : bool :=
  let x := nat_of_ascii a in
  let y := nat_of_ascii b in
  let z := nat_of_ascii c in
  ((x =? 225)%nat && (y =? 154)%nat && (z =? 128)%nat)
  || ((x =? 226)%nat && (y =? 128)%nat
      && (((128 <=? z)%nat && (z <=? 138)%nat)
          || (z =? 168)%nat || (z =? 169)%nat || (z =? 175)%nat))
  || ((x =? 226)%nat && (y =? 129)%nat && (z =? 159)%nat)
  || ((x =? 227)%nat && (y =? 128)%nat && (z =? 128)%nat).

(** [s.lstrip()]: white-space characters are taken from the front, of
    one, two or three bytes each. *)
Fixpoint lstrip_ws (s : string) : string :=
  match s with
  | EmptyString => EmptyString
  | String a s1 =>
      if isspace a then lstrip_ws s1
      else
        match s1 with
        | EmptyString => s
        | String b s2 =>
            if isspace2 a b then lstrip_ws s2
            else
              match s2 with
              | EmptyString => s
              | String c s3 => if isspace3 a b c then lstrip_ws s3 else s
              end
        end
  end.

(** [s.rstrip()]: the longest tail that is white space throughout is cut
    off.  A tail that begins inside a character is not white space: the
    bytes that continue a character begin none. *)
Fixpoint rstrip_ws (s : string) : string :=
  match s with
  | EmptyString => EmptyString
  | String a s1 =>
      if lstrip_ws s =? "" then EmptyString else String a (rstrip_ws s1)
  end.

(** [s.strip()] *)
Definition strip_ws (s : string) : string := rstrip_ws (lstrip_ws s).

(** [s.strip("/")] *)
Definition is_slash (c : ascii) : bool := Ascii.eqb c "/".
Definition strip_slash : string -> string := strip is_slash.

(** [s.replace(a, b)] for one-character [a] and [b]. *)
Fixpoint replace_char (a b : ascii) (s : string) : string :=
  match s with
  | EmptyString => EmptyString
  | String c s' => String (if Ascii.eqb c a then b else c) (replace_char a b s')
  end.

Definition startswith_slash (s : string) : bool :=
  match s with
  | String c _ => is_slash c
  | EmptyString => false
  end.

Fixpoint endswith_slash (s : string) : bool :=
  match s with
  | EmptyString => false
  | String c EmptyString => is_slash c
  | String _ s' => endswith_slash s'
  end.

(** Two path separators in a row somewhere in [s]. *)
Fixpoint double_slash (s : string) : bool :=
  match s with
  | EmptyString => false
  | String c s' => (is_slash c && startswith_slash s') || double_slash s'
  end.

(** [sep.join(parts)] *)
Fixpoint join (sep : string) (parts : list string) : string :=
  match parts with
  | [] => EmptyString
  | [x] => x
  | x :: rest => x ++ sep ++ join sep rest
  end.

(** [posixpath.join(a, b)] *)
Definition path_join (a b : string) : string :=
  if startswith_slash b then b
  else if (a =? "") || endswith_slash a then a ++ b
  else a ++ "/" ++ b.

(** [round(n / d)] for integers [0 <= n], [0 < d]: Python 3 rounds to the
    nearest integer, ties to the even one.  For [d] a power of two and
    [n < 2^53] the float quotient is exact, so this is the value Python
    computes for [round(size / 1024 / 1024)]. *)
Definition round_div (n d : Z) : Z :=
  let q := (n / d)%Z in
  let r := (n mod d)%Z in
  if (2 * r <? d)%Z then q
  else if (d <? 2 * r)%Z then (q + 1)%Z
  else if Z.even q then q else (q + 1)%Z.

(** [s.split(sep)] for a one-character separator. *)
Fixpoint split (sep : ascii) (s : string) : list string :=
  match s with
  | EmptyString => [EmptyString]
  | String c s' =>
      if Ascii.eqb c sep then EmptyString :: split sep s'
      else
        match split sep s' with
        | x :: rest => String c x :: rest
        | [] => [String c EmptyString]
        end
  end.

(** The body of the loop of [posixpath.normpath]; [new_comps] holds the
    components kept so far, the last one first. *)
Definition norm_step (rooted : bool) (new_comps : list string) (comp : string)
    : list string :=
  if (comp =? "") || (comp =? ".") then new_comps
  else if negb (comp =? "..")
          || (negb rooted && match new_comps with [] => true | _ => false end)
          || match new_comps with last :: _ => last =? ".." | [] => false end
  then comp :: new_comps
  else match new_comps with _ :: before => before | [] => [] end.

(** [posixpath.normpath(path)] *)
Definition normpath (path : string) : string :=
  if path =? "" then "."
  else
    let initial_slashes :=
      if prefix "/" path then
        if prefix "//" path && negb (prefix "///" path) then "//" else "/"
      else "" in
    let comps := fold_left (norm_step (prefix "/" path)) (split "/" path) [] in
    let joined := initial_slashes ++ join "/" (rev comps) in
    if joined =? "" then "." else joined.

(** [float(n)] for an integer [0 <= n], given as the integer it equals:
    53 significant bits are kept, the rest is rounded off to the nearest,
    ties to even.  Below [2^53] nothing is lost. *)
Definition float_of_int (n : Z) : Z :=
  let dropped := (Z.log2 n - 52)%Z in
  if (dropped <=? 0)%Z then n
  else (round_div n (2 ^ dropped) * 2 ^ dropped)%Z.

(** Exceptions the script can raise or meet. *)
Inductive exn : Type :=
| HTTPError (code : Z)          (* urllib.error.HTTPError *)
| URLError                      (* urllib.error.URLError, not an HTTPError *)
| JSONDecodeError               (* json.JSONDecodeError *)
| KeyError (key : string)
| TypeError
| AttributeError
| OSError                       (* a file that cannot be opened *)
| Exception (msg : string)      (* raise Exception(...) *)
| ValueError
| IndexError
| OverflowError
| UnicodeDecodeError            (* bytes that are not UTF-8 *)
| IncompleteRead.               (* http.client.IncompleteRead *)

(** How a computation ends: with a value, by [sys.exit(code)], or with an
    exception on its way up. *)
Inductive result (A : Type) : Type :=
| Ret (a : A)
| Exit (code : Z)
| Raise (e : exn).

Arguments Ret {A} a.
Arguments Exit {A} code.
Arguments Raise {A} e.

(** The exit status of the interpreter when the main program ends this
    way: 0 on falling off the end, the argument of [sys.exit], and 1 after
    an uncaught exception. *)
Definition exit_status {A} (r : result A) : Z :=
  match r with
  | Ret _ => 0%Z
  | Exit code => code
  | Raise _ => 1%Z
  end.

End Py.

(* ===================================================================== *)
(** ** [base64] *)
(* ===================================================================== *)

Module Base64.

Definition alphabet : string :=
  "ABCDEFGHIJKLMNOPQRSTUVWXYZabcdefghijklmnopqrstuvwxyz0123456789+/".

(** The character for a six-bit group. *)
Definition digit (n : N) : ascii :=
  match String.get (N.to_nat n) alphabet with
  | Some c => c
  | None => "="%char
  end.

Definition sextet1 (a : N) : N := N.shiftr a 2.
Definition sextet2 (a b : N) : N := N.lor (N.shiftl (N.land a 3) 4) (N.shiftr b 4).
Definition sextet3 (b c : N) : N := N.lor (N.shiftl (N.land b 15) 2) (N.shiftr c 6).
Definition sextet4 (c : N) : N := N.land c 63.

(** [base64.b64encode] on the bytes of [s]: three bytes give four digits,
    a short last group is padded with [=]. *)
Fixpoint encode_bytes (l : list N) : string :=
  match l with
  | [] => EmptyString
  | [a] =>
      String (digit (sextet1 a)) (String (digit (sextet2 a 0)) "==")
  | [a; b] =>
      String (digit (sextet1 a)) (String (digit (sextet2 a b))
        (String (digit (sextet3 b 0)) "="))
  | a :: b :: c :: rest =>
      String (digit (sextet1 a)) (String (digit (sextet2 a b))
        (String (digit (sextet3 b c)) (String (digit (sextet4 c))
          (encode_bytes rest))))
  end.

Definition bytes_of (s : string) : list N :=
  map N_of_ascii (list_ascii_of_string s).

Definition b64encode (s : string) : string := encode_bytes (bytes_of s).

(** [base64.urlsafe_b64encode]: the standard encoding with [+] written
    [-] and [/] written [_]. *)
Definition urlsafe_b64encode (s : string) : string :=
  Py.replace_char "/" "_" (Py.replace_char "+" "-" (b64encode s)).

End Base64.

(* ===================================================================== *)
(** ** [zipfile]: the name of a member *)
(* ===================================================================== *)

Module Zip.

(** [while arcname[0] in (os.sep, os.altsep): arcname = arcname[1:]];
    [None] stands for the [IndexError] of a name that is used up. *)
Fixpoint drop_seps (s : string) : option string :=
  match s with
  | EmptyString => None
  | String c s' => if Py.is_slash c then drop_seps s' else Some s
  end.

(** [ZipInfo.__init__] ends the name at its first null byte. *)
Fixpoint until_nul (s : string) : string :=
  match s with
  | EmptyString => EmptyString
  | String c s' =>
      if Ascii.eqb c zero then EmptyString else String c (until_nul s')
  end.

(** The name of the member [zipFile.write(filename, arcname)] makes:
    [arcname] in normal form, without leading separators, up to a null
    byte.  [None] stands for the [IndexError] of a name of which nothing
    is left, be it in [ZipInfo.from_file] or in [is_dir]. *)
Definition arcname (name : string) : option string :=
  match drop_seps (Py.normpath name) with
  | None => None
  | Some relative =>
      if until_nul relative =? "" then None else Some (until_nul relative)
  end.

End Zip.

(* ===================================================================== *)
(** ** [urllib]: the URL of a request *)
(* ===================================================================== *)

Module Urllib.

Fixpoint endswith_char (c : ascii) (s : string) : bool :=
  match s with
  | EmptyString => false
  | String d EmptyString => Ascii.eqb d c
  | String _ s' => endswith_char c s'
  end.

(** [s[:-1]] *)
Fixpoint drop_last (s : string) : string :=
  match s with
  | EmptyString => EmptyString
  | String _ EmptyString => EmptyString
  | String c s' => String c (drop_last s')
  end.

(** [s[1:]] *)
Definition drop_first (s : string) : string :=
  match s with
  | EmptyString => EmptyString
  | String _ s' => s'
  end.

(** [urllib.parse.unwrap(url)] *)
Definition unwrap (url : string) : string :=
  let u := Py.strip_ws url in
  let u :=
    if prefix "<" u && endswith_char ">" u
    then Py.strip_ws (drop_last (drop_first u)) else u in
  if prefix "URL:" u
  then Py.strip_ws (drop_first (drop_first (drop_first (drop_first u))))
  else u.

(** [s.rpartition(c)[0]] when [c] occurs in [s]. *)
Fixpoint before_last (c : ascii) (s : string) : option string :=
  match s with
  | EmptyString => None
  | String d s' =>
      match before_last c s' with
      | Some front => Some (String d front)
      | None => if Ascii.eqb d c then Some EmptyString else None
      end
  end.

(** [_splittag(url)[0]] *)
Definition splittag (url : string) : string :=
  match before_last "#" url with
  | Some front => front
  | None => url
  end.

(** [_splittype(url)[0] is not None]: the pattern [([^/:]+):] matches at
    the start; [seen] tells that a character went before. *)
Fixpoint has_type (seen : bool) (url : string) : bool :=
  match url with
  | EmptyString => false
  | String c s' =>
      if Ascii.eqb c ":" then seen
      else if Ascii.eqb c "/" then false
      else has_type true s'
  end.

(** [urllib.request.Request(url)] does not raise [ValueError]: the URL
    names a type. *)
Definition accepts (url : string) : bool :=
  has_type false (splittag (unwrap url)).

Definition is_lower (c : ascii) : bool :=
  let n := nat_of_ascii c in (97 <=? n)%nat && (n <=? 122)%nat.

(** The text reaches a colon before any [/] or [#]. *)
Fixpoint scheme_rest (s : string) : bool :=
  match s with
  | EmptyString => false
  | String c s' =>
      if Ascii.eqb c ":" then true
      else negb (Ascii.eqb c "/") && negb (Ascii.eqb c "#") && scheme_rest s'
  end.

(** A URL with its type in front, as [https://sigrid-says.com] has: a
    lower-case letter first, and then a colon before any [/] or [#]. *)
Definition typed (url : string) : bool :=
  match url with
  | EmptyString => false
  | String c s' => is_lower c && scheme_rest s'
  end.

End Urllib.

(* ===================================================================== *)
(** ** JSON values, as [json.loads] builds them *)
(* ===================================================================== *)

#[local] Set Warnings "-register-all".
Inductive json : Type :=
| JNull                                   (* None *)
| JBool (b : bool)
| JNum (q : Q)                            (* int or float *)
| JNegZero                                (* the float -0.0 *)
| JStr (s : string)
| JArr (items : list json)
| JObj (fields : list (string * json)).   (* dict, in insertion order *)

Module Json.

Fixpoint assoc (key : string) (fields : list (string * json)) : option json :=
  match fields with
  | [] => None
  | (k, v) :: rest => if k =? key then Some v else assoc key rest
  end.

(** [v != {}] is false for the empty dict only. *)
Definition is_empty_dict (v : json) : bool :=
  match v with
  | JObj [] => true
  | _ => false
  end.

(** [v == None] *)
Definition is_none (v : json) : bool :=
  match v with
  | JNull => true
  | _ => false
  end.

(** [v == s] for a string [s]. *)
Definition eq_str (v : json) (s : string) : bool :=
  match v with
  | JStr s' => s' =? s
  | _ => false
  end.

(** [d[key]]: a missing key raises [KeyError]; subscripting anything but a
    dict with a string raises [TypeError]. *)
Definition getitem (d : json) (key : string) : Py.result json :=
  match d with
  | JObj fields =>
      match assoc key fields with
      | Some v => Py.Ret v
      | None => Py.Raise (Py.KeyError key)
      end
  | _ => Py.Raise Py.TypeError
  end.

(** [d.get(key, default)]: only a dict has [get]. *)
Definition get (d : json) (key : string) (default : json) : Py.result json :=
  match d with
  | JObj fields =>
      match assoc key fields with
      | Some v => Py.Ret v
      | None => Py.Ret default
      end
  | _ => Py.Raise Py.AttributeError
  end.

Definition chars (s : string) : list json :=
  map (fun c => JStr (String c EmptyString)) (list_ascii_of_string s).

(** [for x in v]: a list gives its items, a dict its keys, a string its
    characters; nothing else is iterable. *)
Definition iter (v : json) : Py.result (list json) :=
  match v with
  | JArr items => Py.Ret items
  | JObj fields => Py.Ret (map (fun kv => JStr (fst kv)) fields)
  | JStr s => Py.Ret (chars s)
  | _ => Py.Raise Py.TypeError
  end.

(** [v >= t] for a float [t]: numbers compare by value, [True] and [False]
    as 1 and 0, anything else raises [TypeError]. *)
Definition ge_num (v : json) (t : Q) : Py.result bool :=
  match v with
  | JNum q => Py.Ret (Qle_bool t q)
  | JNegZero => Py.Ret (Qle_bool t 0)
  | JBool b => Py.Ret (Qle_bool t (if b then 1%Q else 0%Q))
  | _ => Py.Raise Py.TypeError
  end.

End Json.

(* ===================================================================== *)
(** ** The world: events, environment and the effect monad *)
(* ===================================================================== *)

(** [urllib.request.Request] *)
Record request : Type := mkRequest {
  req_method : string;
  req_url : string;
  req_headers : list (string * string);
  req_data : option string        (* the file whose bytes form the body *)
}.

(** What [urllib.request.urlopen] does with a request.  It returns a
    response whose body, read and decoded as UTF-8, is the text [body]; or
    it returns a response whose [read().decode("utf8")] raises (a body
    that ends before its announced length, bytes that are not UTF-8); or
    it raises itself (an [HTTPError] for an error status). *)
Inductive http_result : Type :=
| Response (status : Z) (body : string)
| Unread (status : Z) (e : Py.exn)
| Fails (e : Py.exn).

(** One call [zipFile.write(filePath, uploadPath)]: the file that is read
    and the name that is asked for.  The archive holds the file under
    [Zip.arcname uploadPath]. *)
Record zip_entry : Type := mkEntry {
  filePath : string;
  uploadPath : string
}.

(** What [zipFile.write] meets at a file. *)
Inductive file_state : Type :=
| Readable                    (* the file can be added *)
| NoStat (e : Py.exn)         (* os.stat raises: a dangling link *)
| NoEntry (e : Py.exn)        (* ZipInfo refuses its time stamp *)
| NoCopy (e : Py.exn).        (* the file cannot be opened or read *)

(** A directory tree as [os.walk] sees it: the children of a directory in
    the order [scandir] lists them. *)
Inductive node : Type :=
| File (name : string)
| Dir (name : string) (children : list node).

Inductive event : Type :=
| EvLog (message : string)
| EvPrint (text : string)
| EvSleep (seconds : Z)
| EvRequest (req : request)
| EvZip (outputFile : string) (entries : list zip_entry).

(** Newest event first. *)
Definition trace : Type := list event.

(** Everything the script reads from outside. *)
Record env : Type := mkEnv {
  urlopen : nat -> request -> http_result;  (* the n-th network call *)
  json_loads : string -> option json;       (* None: JSONDecodeError *)
  getsize : list zip_entry -> Z;            (* bytes of the written archive *)
  tree_of : string -> list node;            (* the tree below a directory *)
  timestamp : string;                       (* now, as %Y%m%d-%H%M%S *)
  repr : json -> string;                    (* str(v) of a non-string *)
  state_of : string -> file_state           (* the file at a path *)
}.

Definition is_request (e : event) : bool :=
  match e with
  | EvRequest _ => true
  | _ => false
  end.

(** The number of network calls made so far. *)
Definition ncalls (t : trace) : nat := length (filter is_request t).

(** The sleeps so far, newest first. *)
Fixpoint sleeps (t : trace) : list Z :=
  match t with
  | [] => []
  | EvSleep n :: t' => n :: sleeps t'
  | _ :: t' => sleeps t'
  end.

(** The archive last written under a name. *)
Fixpoint written (name : string) (t : trace) : option (list zip_entry) :=
  match t with
  | [] => None
  | EvZip out entries :: t' => if out =? name then Some entries else written name t'
  | _ :: t' => written name t'
  end.

Definition M (A : Type) : Type := trace -> Py.result A * trace.

Definition ret {A} (a : A) : M A := fun t => (Py.Ret a, t).

Definition bind {A B} (m : M A) (k : A -> M B) : M B :=
  fun t =>
    match m t with
    | (Py.Ret a, t') => k a t'
    | (Py.Exit code, t') => (Py.Exit code, t')
    | (Py.Raise e, t') => (Py.Raise e, t')
    end.

Notation "x <- m ;; k" := (bind m (fun x => k))
  (at level 61, m at next level, right associativity).
Notation "m ;; k" := (bind m (fun _ => k))
  (at level 61, right associativity).

Definition raise {A} (e : Py.exn) : M A := fun t => (Py.Raise e, t).

(** [sys.exit(code)] *)
Definition sys_exit {A} (code : Z) : M A := fun t => (Py.Exit code, t).

(** A pure operation that may raise. *)
Definition lift {A} (r : Py.result A) : M A := fun t => (r, t).

Definition emit (e : event) : M unit := fun t => (Py.Ret tt, e :: t).

(** [log(message)], without its time stamp. *)
Definition log (message : string) : M unit := emit (EvLog message).

Definition print (text : string) : M unit := emit (EvPrint text).

(** [time.sleep(seconds)] *)
Definition sleep (seconds : Z) : M unit := emit (EvSleep seconds).

(** [try: body  except ...: handler].  The handler is chosen by the
    exception; an exception no clause names, and [sys.exit], pass through. *)
Definition try_except {A} (body : M A) (handler : Py.exn -> option (M A)) : M A :=
  fun t =>
    match body t with
    | (Py.Raise e, t') =>
        match handler e with
        | Some h => h t'
        | None => (Py.Raise e, t')
        end
    | other => other
    end.

(** [str(v)], as an f-string formats a value. *)
Definition str (E : env) (v : json) : string :=
  match v with
  | JStr s => s
  | _ => repr E v
  end.

(** ["%d" % n] *)
Definition format_d (n : Z) : string :=
  DecimalString.NilZero.string_of_int (Z.to_int n).

(* ===================================================================== *)
(** ** [class SystemUploadPacker] *)
(* ===================================================================== *)

Module SystemUploadPacker.

Definition DEFAULT_EXCLUDES : list string :=
  [ "coverage/"; "build/"; "dist/"; "node_modules/"; "sigridci/";
    "sigrid-ci-output/"; "target/"; ".idea/"; ".jpg"; ".png" ].

Record t : Type := mk {
  MAX_UPLOAD_SIZE_MB : Z;
  excludePatterns : list string;
  pathPrefix : string
}.

(** [__init__(self, excludePatterns, useRepoHistory, pathPrefix)] *)
Definition init (excludes : list string) (useRepoHistory : bool)
    (prefix : string) : t :=
  {| MAX_UPLOAD_SIZE_MB := 500;
     excludePatterns :=
       (DEFAULT_EXCLUDES
          ++ filter (fun excl => negb (excl =? "")) excludes
          ++ (if negb useRepoHistory then [".git"] else []))%list;
     pathPrefix := Py.strip_slash prefix |}.

(** [getUploadFilePath(self, relativePath)] *)
Definition getUploadFilePath (self : t) (relativePath : string) : string :=
  if pathPrefix self =? "" then relativePath
  else pathPrefix self ++ "/" ++ relativePath.

(** [isExcluded(self, filePath)] *)
Definition isExcluded (self : t) (path : string) : bool :=
  let normalizedPath := Py.replace_char "\" "/" path in
  existsb (fun exclude => Py.contains (Py.strip_ws exclude) normalizedPath)
          (excludePatterns self).

(** One triple of [os.walk]: the directory as a path that starts with the
    walked top, the names of its files, and (not part of what Python
    yields, kept to compute [relpath]) the directory names that lead from
    the top to it. *)
Record walk_item : Type := mkItem {
  root : string;
  below : list string;
  files : list string
}.

Definition files_of (children : list node) : list string :=
  flat_map (fun n => match n with File f => [f] | Dir _ _ => [] end) children.

(** [os.walk(top)], top down: a directory first, then its sub-directories
    in listing order, each under [os.path.join(root, name)]. *)
Fixpoint walk_dir (parent : string) (path : list string) (n : node)
    : list walk_item :=
  match n with
  | File _ => []
  | Dir name children =>
      let here := Py.path_join parent name in
      let path' := (path ++ [name])%list in
      mkItem here path' (files_of children)
        :: flat_map (walk_dir here path') children
  end.

Definition walk (top : string) (children : list node) : list walk_item :=
  mkItem top [] (files_of children) :: flat_map (walk_dir top []) children.

(** [os.path.relpath(os.path.join(root, file), sourceDir)] for a [root]
    reached by walking down from [sourceDir]: the directory names below
    [sourceDir] and the file name, joined by the separator. *)
Definition relpath (item : walk_item) (file : string) : string :=
  Py.join "/" (below item ++ [file])%list.

(** The body of the inner loop of [prepareUpload] for one file. *)
Definition add_file (self : t) (outputFile : string) (item : walk_item)
    (file : string) : list zip_entry :=
  let path := Py.path_join (root item) file in
  if negb (file =? outputFile) && negb (isExcluded self path) then
    let relativePath := relpath item file in
    [mkEntry path (getUploadFilePath self relativePath)]
  else [].

(** The two nested loops of [prepareUpload]: the calls of
    [zipFile.write] they make when none raises, in order. *)
Definition archive_entries (self : t) (sourceDir : string)
    (tree : list node) (outputFile : string) : list zip_entry :=
  flat_map (fun item => flat_map (add_file self outputFile item) (files item))
           (walk sourceDir tree).

(** What [zipFile.write(filePath, uploadPath)] raises, if it does, in the
    order of [ZipInfo.from_file] and [ZipFile.write]: [os.stat] comes
    first, then the name of the member, then the time stamp, then the
    file is opened and copied (a name that ends with the separator makes
    a directory entry, for which the file is not opened). *)
Definition write_error (E : env) (call : zip_entry) : option Py.exn :=
  match state_of E (filePath call) with
  | NoStat e => Some e
  | state =>
      match Zip.drop_seps (Py.normpath (uploadPath call)) with
      | None => Some Py.IndexError
      | Some name =>
          match state with
          | NoEntry e => Some e
          | _ =>
              let filename := Zip.until_nul name in
              if filename =? "" then Some Py.IndexError
              else if Py.endswith_slash filename then None
              else match state with
                   | NoCopy e => Some e
                   | _ => None
                   end
          end
      end
  end.

(** The calls of [zipFile.write] until one raises: the calls that
    returned, and the exception that ended the loops, if any. *)
Fixpoint zip_writes (E : env) (calls : list zip_entry)
    : list zip_entry * option Py.exn :=
  match calls with
  | [] => ([], None)
  | call :: rest =>
      match write_error E call with
      | Some e => ([], Some e)
      | None => (call :: fst (zip_writes E rest), snd (zip_writes E rest))
      end
  end.

(** [max(round(os.path.getsize(outputFile) / 1024 / 1024), 1)]: the size
    becomes a float in the division, and dividing a float by 1024 is
    exact. *)
Definition uploadSizeMB (bytes : Z) : Z :=
  Z.max (Py.round_div (Py.float_of_int bytes) (1024 * 1024)) 1.

(** [prepareUpload(self, sourceDir, outputFile)].  [EvZip] records the
    calls of [zipFile.write] that returned. *)
Definition prepareUpload (E : env) (self : t) (sourceDir outputFile : string)
    : M unit :=
  let calls := archive_entries self sourceDir (tree_of E sourceDir) outputFile in
  let entries := fst (zip_writes E calls) in
  emit (EvZip outputFile entries) ;;
  match snd (zip_writes E calls) with
  | Some e => raise e
  | None =>
      let size := uploadSizeMB (getsize E entries) in
      log ("Upload size is " ++ format_d size ++ " MB") ;;
      if (size >? MAX_UPLOAD_SIZE_MB self)%Z then
        raise (Py.Exception ("Upload exceeds maximum size of "
                               ++ format_d (MAX_UPLOAD_SIZE_MB self) ++ " MB"))
      else ret tt
  end.

End SystemUploadPacker.

(* ===================================================================== *)
(** ** [class SigridApiClient] *)
(* ===================================================================== *)

Module SigridApiClient.

Definition PROTOCOL_VERSION : string := "v1".
Definition POLL_INTERVAL : Z := 60.
Definition POLL_ATTEMPTS : nat := 30.
Definition RETRY_ATTEMPTS : nat := 5.

(** The fields [__init__] sets; the three names are already lower-cased
    and quoted, and [baseURL] is a URL with its type in front ([https:],
    see [Urllib.typed]): [urllib.request.Request] takes every URL that
    begins with it. *)
Record t : Type := mk {
  baseURL : string;
  account : string;
  token : string;
  urlPartnerName : string;
  urlCustomerName : string;
  urlSystemName : string
}.

(** [urllib.request.urlopen(request)]: the request goes out, and the
    answer is the one the environment holds for this call.  A response is
    given by its status and by what [read().decode("utf8")] does. *)
Definition send (E : env) (req : request) : M (Z * Py.result string) :=
  fun t =>
    match urlopen E (ncalls t) req with
    | Response status body => (Py.Ret (status, Py.Ret body), EvRequest req :: t)
    | Unread status e => (Py.Ret (status, Py.Raise e), EvRequest req :: t)
    | Fails e => (Py.Raise e, EvRequest req :: t)
    end.

(** The request [callSigridAPI] builds. *)
Definition api_request (self : t) (api path : string) : request :=
  let url := baseURL self ++ "/rest/" ++ api ++ path in
  mkRequest "GET" url
    [ ("Accept", "application/json");
      ("Authorization",
       "Basic " ++ Base64.urlsafe_b64encode (account self ++ ":" ++ token self)) ]
    None.

(** [callSigridAPI(self, api, path)] *)
Definition callSigridAPI (E : env) (self : t) (api path : string) : M json :=
  response <- send E (api_request self api path) ;;
  if (fst response =? 204)%Z then ret (JObj [])
  else
    responseBody <- lift (snd response) ;;
    if (String.length responseBody =? 0)%nat then
      log "Received empty response" ;; ret (JObj [])
    else
      match json_loads E responseBody with
      | Some v => ret v
      | None => raise Py.JSONDecodeError
      end.

(** [processHttpError(self, e)], on [e.code] *)
Definition processHttpError (code : Z) : M unit :=
  if (code =? 401)%Z || (code =? 403)%Z then
    log "You are not authorized to access Sigrid for this system" ;;
    sys_exit 1
  else if (code =? 404)%Z then
    log "Analysis results not yet available"
  else if (500 <=? code)%Z then
    log ("Sigrid is currently not available (HTTP status " ++ format_d code ++ ")") ;;
    sys_exit 1
  else
    raise (Py.Exception ("Received HTTP status " ++ format_d code)).

Definition uploads_path (self : t) : string :=
  "/" ++ urlPartnerName self ++ "/" ++ urlCustomerName self ++ "/"
      ++ urlSystemName self ++ "/ci/uploads/" ++ PROTOCOL_VERSION.

(** The loop of [obtainUploadLocation] with [attempts] iterations left,
    and what follows the loop.  An iteration yields [Some v] when the
    function returns [v] and [None] when the loop goes on. *)
Fixpoint obtain_loop (E : env) (self : t) (attempts : nat) : M json :=
  match attempts with
  | O =>
      log "Sigrid is currently unavailable" ;;
      sys_exit 1
  | S rest =>
      r <- try_except
             (v <- callSigridAPI E self "inboundresults" (uploads_path self) ;;
              ret (Some v))
             (fun e =>
                match e with
                | Py.HTTPError code =>
                    Some (if (code =? 502)%Z then
                            log "Retrying" ;; sleep POLL_INTERVAL ;; ret None
                          else
                            processHttpError code ;; ret None)
                | _ => None
                end) ;;
      match r with
      | Some v => ret v
      | None => obtain_loop E self rest
      end
  end.

(** [obtainUploadLocation(self)] *)
Definition obtainUploadLocation (E : env) (self : t) : M json :=
  obtain_loop E self RETRY_ATTEMPTS.

(** The request [uploadBinaryFile] builds. *)
Definition upload_request (url upload : string) (size : Z) : request :=
  mkRequest "PUT" url
    [ ("Content-Type", "application/zip");
      ("Content-Length", format_d size);
      ("x-amz-server-side-encryption", "AES256") ]
    (Some upload).

(** [uploadBinaryFile(self, url, upload)].  The file is opened and read
    first; [urllib.request.Request] takes [str(url)] and raises
    [ValueError] when it names no type; no [try] surrounds [urlopen]:
    whatever it raises leaves the function. *)
Definition uploadBinaryFile (E : env) (url : json) (upload : string) : M bool :=
  fun t =>
    match written upload t with
    | None => (Py.Raise Py.OSError, t)
    | Some entries =>
        if Urllib.accepts (str E url) then
          (uploadResponse <- send E (upload_request (str E url) upload
                                       (getsize E entries)) ;;
           let status := fst uploadResponse in
           ret ((status =? 200)%Z || (status =? 201)%Z || (status =? 202)%Z)) t
        else (Py.Raise Py.ValueError, t)
    end.

(** [submitUpload(self, sourceDir, excludePatterns, useRepoHistory, pathPrefix)] *)
Definition submitUpload (E : env) (self : t) (sourceDir : string)
    (excludes : list string) (useRepoHistory : bool) (prefix : string)
    : M json :=
  log "Creating upload" ;;
  let uploadPacker := SystemUploadPacker.init excludes useRepoHistory prefix in
  let upload := "sigrid-upload-" ++ timestamp E ++ ".zip" in
  SystemUploadPacker.prepareUpload E uploadPacker sourceDir upload ;;
  log "Preparing upload" ;;
  uploadLocation <- obtainUploadLocation E self ;;
  uploadUrl <- lift (Json.getitem uploadLocation "uploadUrl") ;;
  analysisId <- lift (Json.getitem uploadLocation "ciRunId") ;;
  log ("Sigrid CI analysis ID: " ++ str E analysisId) ;;
  log "Submitting upload" ;;
  ok <- uploadBinaryFile E uploadUrl upload ;;
  if negb ok then raise (Py.Exception "Uploading file failed")
  else ret analysisId.

Definition results_path (E : env) (self : t) (analysisId : json) : string :=
  "/sigridci/" ++ urlCustomerName self ++ "/" ++ urlSystemName self ++ "/"
      ++ PROTOCOL_VERSION ++ "/ci/results/" ++ str E analysisId.

(** The loop of [fetchAnalysisResults] with [attempts] iterations left,
    and what follows the loop. *)
Fixpoint fetch_loop (E : env) (self : t) (analysisId : json) (attempts : nat)
    : M json :=
  match attempts with
  | O =>
      log "Analysis failed: waiting for analysis results took too long" ;;
      sys_exit 1
  | S rest =>
      r <- try_except
             (response <- callSigridAPI E self "analysis-results"
                            (results_path E self analysisId) ;;
              if negb (Json.is_empty_dict response) then ret (Some response)
              else ret None)
             (fun e =>
                match e with
                | Py.HTTPError code => Some (processHttpError code ;; ret None)
                | Py.JSONDecodeError =>
                    Some (log "Received incomplete analysis results" ;; ret None)
                | _ => None
                end) ;;
      match r with
      | Some response => ret response
      | None =>
          log "Waiting for analysis results" ;;
          sleep POLL_INTERVAL ;;
          fetch_loop E self analysisId rest
      end
  end.

(** [fetchAnalysisResults(self, analysisId)] *)
Definition fetchAnalysisResults (E : env) (self : t) (analysisId : json) : M json :=
  fetch_loop E self analysisId POLL_ATTEMPTS.

(** The two client calls of the main program, in its order: submit, then
    poll for the feedback. *)
Definition submit_and_fetch (E : env) (self : t) (sourceDir : string)
    (excludes : list string) (useRepoHistory : bool) (prefix : string)
    : M json :=
  analysisId <- submitUpload E self sourceDir excludes useRepoHistory prefix ;;
  fetchAnalysisResults E self analysisId.

End SigridApiClient.

(* ===================================================================== *)
(** ** [class Report], [TextReport.printColor], [class ExitCodeReport] *)
(* ===================================================================== *)

Module Report.

(** [isPassed(self, feedback, metric, targetRating)] *)
Definition isPassed (feedback : json) (metric : string) (targetRating : Q)
    : M bool :=
  ratings <- lift (Json.getitem feedback "newCodeRatings") ;;
  value <- lift (Json.get ratings metric JNull) ;;
  if Json.is_none value then ret true
  else lift (Json.ge_num value targetRating).

(** The list comprehension [[rc for rc in candidates if rc["metric"] == metric]] *)
Fixpoint relevant (metric : string) (candidates : list json) : M (list json) :=
  match candidates with
  | [] => ret []
  | rc :: rest =>
      m <- lift (Json.getitem rc "metric") ;;
      kept <- relevant metric rest ;;
      ret (if Json.eq_str m metric then rc :: kept else kept)
  end.

(** The dict the compatibility loop appends for a legacy entry. *)
Definition legacy_candidate (metric : string) (rc : json) : json :=
  JObj [ ("subject", rc); ("category", JStr "introduced"); ("metric", JStr metric) ].

(** [getRefactoringCandidates(self, feedback, metric)] *)
Definition getRefactoringCandidates (feedback : json) (metric : string)
    : M (list json) :=
  refactoringCandidates <- lift (Json.get feedback "refactoringCandidates" (JArr [])) ;;
  items <- lift (Json.iter refactoringCandidates) ;;
  relevantRefactoringCandidates <- relevant metric items ;;
  perType <- lift (Json.getitem feedback "refactoringCandidatesPerType") ;;
  legacy <- lift (Json.get perType metric (JArr [])) ;;
  legacyItems <- lift (Json.iter legacy) ;;
  ret (relevantRefactoringCandidates ++ map (legacy_candidate metric) legacyItems)%list.

End Report.

Module TextReport.

Definition ESC : string := String (ascii_of_nat 27) EmptyString.
Definition NL : string := String (ascii_of_nat 10) EmptyString.

Definition ANSI_BOLD : string := ESC ++ "[1m".
Definition ANSI_GREEN : string := ESC ++ "[92m".
Definition ANSI_YELLOW : string := ESC ++ "[33m".

(** [printColor(self, message, ansiPrefix)] *)
Definition printColor (message ansiPrefix : string) : M unit :=
  print (ansiPrefix ++ message ++ ESC ++ "[0m").

End TextReport.

Module ExitCodeReport.

Definition PASSED_MESSAGE : string :=
  TextReport.NL
    ++ "** SIGRID CI RUN COMPLETE: YOU WROTE MAINTAINABLE CODE AND REACHED THE TARGET **"
    ++ TextReport.NL.

Definition FAILED_MESSAGE : string :=
  TextReport.NL
    ++ "** SIGRID CI RUN COMPLETE: THE CODE YOU WROTE DID NOT MEET THE TARGET FOR MAINTAINABLE CODE **"
    ++ TextReport.NL.

(** [generate(self, feedback, args)], on [args.targetquality] *)
Definition generate (feedback : json) (targetquality : Q) : M unit :=
  passed <- Report.isPassed feedback "MAINTAINABILITY" targetquality ;;
  if passed then
    TextReport.printColor PASSED_MESSAGE
      (TextReport.ANSI_BOLD ++ TextReport.ANSI_GREEN)
  else
    TextReport.printColor FAILED_MESSAGE
      (TextReport.ANSI_BOLD ++ TextReport.ANSI_YELLOW) ;;
    sys_exit 1.

End ExitCodeReport.

(* ===================================================================== *)
(** ** The files of a tree, and sample inputs *)
(* ===================================================================== *)

(** A file of a tree: the directory names that lead to it, and its name. *)
Record tree_file : Type := mkFile {
  dirs : list string;
  fname : string
}.

Fixpoint files_in (path : list string) (n : node) : list tree_file :=
  match n with
  | File f => [mkFile path f]
  | Dir d children => flat_map (files_in (path ++ [d])%list) children
  end.

(** All files of the tree below the walked directory. *)
Definition tree_files (tree : list node) : list tree_file :=
  flat_map (files_in []) tree.

(** The path [os.walk] builds for a directory below [top]. *)
Definition dir_path (top : string) (path : list string) : string :=
  fold_left Py.path_join path top.

(** The joined path of a file, which starts with the walked directory. *)
Definition full_path (top : string) (f : tree_file) : string :=
  Py.path_join (dir_path top (dirs f)) (fname f).

(** The path of a file relative to the walked directory. *)
Definition relative_path (f : tree_file) : string :=
  Py.join "/" (dirs f ++ [fname f])%list.

(** A name the file system can hold: not empty, no separator in it. *)
Definition valid_name (s : string) : bool :=
  negb (s =? "") && negb (Py.contains "/" s).

Fixpoint valid_node (n : node) : bool :=
  match n with
  | File f => valid_name f
  | Dir d children => valid_name d && forallb valid_node children
  end.

Definition valid_tree (tree : list node) : bool := forallb valid_node tree.

(** The separator normalisation of [isExcluded]. *)
Definition normalize (path : string) : string := Py.replace_char "\" "/" path.

(** Some active pattern, trimmed, is a substring of the normalised path. *)
Definition matches_pattern (self : SystemUploadPacker.t) (path : string) : Prop :=
  exists exclude,
    In exclude (SystemUploadPacker.excludePatterns self)
    /\ Py.Substring (Py.strip_ws exclude) (normalize path).

(** The entry [prepareUpload] writes for a file it keeps. *)
Definition entry_of (self : SystemUploadPacker.t) (top : string) (f : tree_file)
    : zip_entry :=
  mkEntry (full_path top f)
          (SystemUploadPacker.getUploadFilePath self (relative_path f)).

(** The entry set as the specification words it: all files of the tree
    minus exactly the files a pattern matches. *)
Definition spec_entry_set (self : SystemUploadPacker.t) (sourceDir : string)
    (tree : list node) (e : zip_entry) : Prop :=
  exists f, In f (tree_files tree)
            /\ ~ matches_pattern self (full_path sourceDir f)
            /\ e = entry_of self sourceDir f.

(** The size test as the specification words it: the archive is larger
    than the cap, in bytes. *)
Definition exceeds_cap (bytes cap_mb : Z) : Prop :=
  (bytes > cap_mb * (1024 * 1024))%Z.

(** The header value as the specification words it: the standard Base64
    alphabet. *)
Definition spec_authorization (account token : string) : string :=
  "Basic " ++ Base64.b64encode (account ++ ":" ++ token).

(** Notions used to state and prove the properties. *)
Module Aux.
Import Py SystemUploadPacker.

(** Induction on trees, with the hypothesis for every child. *)
Fixpoint node_ind' (P : node -> Prop)
    (HFile : forall f, P (File f))
    (HDir : forall d children, Forall P children -> P (Dir d children))
    (n : node) : P n :=
  match n with
  | File f => HFile f
  | Dir d children =>
      HDir d children
        ((fix all (l : list node) : Forall P l :=
            match l with
            | [] => Forall_nil P
            | c :: l' => Forall_cons c (node_ind' P HFile HDir c) (all l')
            end) children)
  end.

(** [file] is listed by some triple of the walk, for the directory
    [r] reached through the names [p]. *)
Definition listed (items : list walk_item) (r : string) (p : list string)
    (file : string) : Prop :=
  exists item, In item items /\ In file (files item)
               /\ root item = r /\ below item = p.

(** What the walk of one sub-directory lists. *)
Definition walk_spec (n : node) : Prop :=
  match n with
  | File _ => True
  | Dir _ _ =>
      forall top path r p file,
        listed (walk_dir (dir_path top path) path n) r p file
        <-> In (mkFile p file) (files_in path n) /\ r = dir_path top p
  end.

(** Every call of [zipFile.write] returns. *)
Definition storable (E : env) (calls : list zip_entry) : Prop :=
  forall call, In call calls -> write_error E call = None.

(** The answers that leave a poll without a result: HTTP 204, an empty
    body, a body that parses to the empty object, HTTP 404, and a body
    that is read and decoded but does not parse. *)
Inductive Transient (E : env) : http_result -> Prop :=
| T_no_content body : Transient E (Response 204 body)
| T_empty_body status : Transient E (Response status "")
| T_empty_object status body :
    json_loads E body = Some (JObj []) -> Transient E (Response status body)
| T_not_found : Transient E (Fails (HTTPError 404))
| T_malformed status body :
    json_loads E body = None -> Transient E (Response status body).

(** An answer that carries [v], a well-formed payload other than the empty
    object. *)
Definition Payload (E : env) (r : http_result) (v : json) : Prop :=
  exists status body,
    r = Response status body /\ status <> 204%Z /\ body <> ""
    /\ json_loads E body = Some v /\ Json.is_empty_dict v = false.

(** The request of a poll. *)
Definition poll_request (E : env) (self : SigridApiClient.t) (analysisId : json)
    : request :=
  SigridApiClient.api_request self "analysis-results"
    (SigridApiClient.results_path E self analysisId).

(** The request for an upload location. *)
Definition location_request (self : SigridApiClient.t) : request :=
  SigridApiClient.api_request self "inboundresults"
    (SigridApiClient.uploads_path self).

(** A computation makes no network call. *)
Definition quiet {A} (m : M A) : Prop :=
  forall t, ncalls (snd (m t)) = ncalls t.

(** Started at or before call [k], a computation either does not get past
    call [k], or stops right after it, by [sys.exit(1)] or with the
    [HTTPError] of that call on its way up. *)
Definition stops_at (k : nat) (code : Z) {A} (m : M A) : Prop :=
  forall t, (ncalls t <= k)%nat ->
    (ncalls (snd (m t)) <= k)%nat
    \/ (ncalls (snd (m t)) = S k
        /\ (fst (m t) = Exit 1 \/ fst (m t) = Raise (HTTPError code))).

(** A current-form candidate: a dict with a [metric] entry. *)
Definition candidate_ok (rc : json) : Prop :=
  exists fields v, rc = JObj fields /\ Json.assoc "metric" fields = Some v.

(** The [metric] entry of a candidate equals the queried metric. *)
Definition metric_is (metric : string) (rc : json) : bool :=
  match rc with
  | JObj fields =>
      match Json.assoc "metric" fields with
      | Some v => Json.eq_str v metric
      | None => false
      end
  | _ => false
  end.

(** The MAINTAINABILITY entry of [newCodeRatings] is present, a number,
    and strictly below the threshold. *)
Definition below_target (ratings : list (string * json)) (target : Q) : Prop :=
  exists q, Json.assoc "MAINTAINABILITY" ratings = Some (JNum q) /\ (q < target)%Q.

End Aux.

Module Samples.

Definition client : SigridApiClient.t :=
  SigridApiClient.mk "https://sigrid-says.com" "dummy" "dummy" "sig" "aap" "noot".

Definition location : json :=
  JObj [ ("uploadUrl", JStr "https://upload.example/target");
         ("ciRunId", JStr "run-1") ].

Definition ratings (q : Q) : json :=
  JObj [ ("newCodeRatings", JObj [ ("MAINTAINABILITY", JNum q) ]) ].

(** A parser that knows three bodies. *)
Definition loads (body : string) : option json :=
  if body =? "{}" then Some (JObj [])
  else if body =? "location" then Some location
  else if body =? "feedback" then Some (ratings (36 # 10))
  else None.

Definition tree : list node :=
  [ File "a.py"; File "b.py"; Dir "node_modules" [ File "c.py" ];
    Dir "src" [ File "main.py"; Dir "img" [ File "logo.png" ] ] ].

Definition base (net : nat -> request -> http_result) (size : Z) : env :=
  mkEnv net loads (fun _ => size) (fun _ => tree) "20240101-120000"
        (fun _ => "?") (fun _ => Readable).

(** A directory with the given tree and files. *)
Definition disk (tree : list node) (states : string -> file_state) : env :=
  mkEnv (fun _ _ => Fails Py.URLError) loads (fun _ => 1000%Z) (fun _ => tree)
        "20240101-120000" (fun _ => "?") states.

(** [src/link] is a link whose target is gone. *)
Definition dangling (path : string) : file_state :=
  if path =? "src/link" then NoStat Py.OSError else Readable.

(** Polling: 404, an empty object, a truncated body, 204, then the
    feedback. *)
Definition net_poll (n : nat) (_ : request) : http_result :=
  match n with
  | 0%nat => Fails (Py.HTTPError 404)
  | 1%nat => Response 200 "{}"
  | 2%nat => Response 200 "{trunc"
  | 3%nat => Response 204 ""
  | _ => Response 200 "feedback"
  end.

(** A pattern of white space only: a space, a tab, then U+00A0 and
    U+2003 in UTF-8. *)
Definition blank : string :=
  String " " (String (ascii_of_nat 9)
    (string_of_list_ascii (map ascii_of_nat [194; 160; 226; 128; 131]%nat))).

(** Polling: an empty object, then a body cut inside a character of more
    than one byte; the feedback would have been next. *)
Definition net_cut (n : nat) (_ : request) : http_result :=
  match n with
  | 0%nat => Response 200 "{}"
  | 1%nat => Unread 200 Py.UnicodeDecodeError
  | _ => Response 200 "feedback"
  end.

(** Polling that never gets an answer. *)
Definition net_never (_ : nat) (_ : request) : http_result :=
  Fails (Py.HTTPError 404).

(** The location request meets a 404, then succeeds. *)
Definition net_location_404 (n : nat) (_ : request) : http_result :=
  match n with
  | 0%nat => Fails (Py.HTTPError 404)
  | _ => Response 200 "location"
  end.

(** The location request succeeds and the upload is refused. *)
Definition net_upload_403 (n : nat) (_ : request) : http_result :=
  match n with
  | 0%nat => Response 200 "location"
  | _ => Fails (Py.HTTPError 403)
  end.

(** A feedback in the current list-shaped form only. *)
Definition feedback_current_only : json :=
  JObj [ ("refactoringCandidates",
          JArr [ JObj [ ("subject", JStr "a/b.java::Duif.vuur()");
                        ("category", JStr "introduced");
                        ("metric", JStr "UNIT_SIZE") ] ]) ].

(** A feedback in both forms. *)
Definition feedback_both : json :=
  JObj [ ("refactoringCandidates",
          JArr [ JObj [ ("subject", JStr "a/b.java::Duif.vuur()");
                        ("category", JStr "introduced");
                        ("metric", JStr "UNIT_SIZE") ] ]);
         ("refactoringCandidatesPerType",
          JObj [ ("UNIT_SIZE", JArr [ JStr "aap" ]) ]) ].

End Samples.

(* ===================================================================== *)
(** ** More Python primitives: text *)
(* ===================================================================== *)

Module PyText.

(** [n * s] for a count that is not negative. *)
Fixpoint repeat_string (n : nat) (s : string) : string :=
  match n with
  | O => EmptyString
  | S n' => s ++ repeat_string n' s
  end.

(** [n * s]: the empty string when [n <= 0]. *)
Definition mul (n : Z) (s : string) : string := repeat_string (Z.to_nat n) s.

(** A byte that continues a character begun before it: 128..191. *)
Definition continues (c : ascii) : bool :=
  let n := nat_of_ascii c in
  (128 <=? n)%nat && (n <=? 191)%nat.

(** [len(s)]: the characters of [s], one for each byte that begins one. *)
Fixpoint len (s : string) : nat :=
  match s with
  | EmptyString => O
  | String c s' => if continues c then len s' else S (len s')
  end.

(** [s.ljust(width)] *)
Definition ljust (width : nat) (s : string) : string :=
  s ++ repeat_string (width - len s) " ".

(** [c in s] for one character. *)
Fixpoint has_char (c : ascii) (s : string) : bool :=
  match s with
  | EmptyString => false
  | String d s' => Ascii.eqb d c || has_char c s'
  end.

(** [s.replace(old, new)] for a one-character [old]. *)
Fixpoint replace1 (old : ascii) (new s : string) : string :=
  match s with
  | EmptyString => EmptyString
  | String c s' =>
      if Ascii.eqb c old then new ++ replace1 old new s'
      else String c (replace1 old new s')
  end.

(** [s.replace(old, new)] for a two-character [old], the characters [a]
    then [b]: occurrences are taken from the left and do not overlap. *)
Fixpoint replace2 (a b : ascii) (new s : string) : string :=
  match s with
  | EmptyString => EmptyString
  | String c s' =>
      match s' with
      | EmptyString => String c EmptyString
      | String d rest =>
          if Ascii.eqb c a && Ascii.eqb d b then new ++ replace2 a b new rest
          else String c (replace2 a b new s')
      end
  end.

(** [round(x)] of a number, [q] being the exact value of the float (or
    int) [x]: to the nearest integer, ties to the even one, the same on
    both sides of zero. *)
Definition round (q : Q) : Z :=
  if (0 <=? Qnum q)%Z then Py.round_div (Qnum q) (Zpos (Qden q))
  else (- Py.round_div (- Qnum q) (Zpos (Qden q)))%Z.

(** The tenths of [abs(x)], rounded to the nearest, ties to even. *)
Definition tenths (q : Q) : Z :=
  Py.round_div (Z.abs (Qnum q) * 10) (Zpos (Qden q)).

(** ["%.1f" % x] for a float [x] other than [-0.0], [q] being its exact
    value: the digits are those of the nearest tenth, and the sign of a
    negative number is kept also where they round to zero. *)
Definition format_1f (q : Q) : string :=
  (if (Qnum q <? 0)%Z then "-" else "")
    ++ format_d (tenths q / 10) ++ "." ++ format_d (tenths q mod 10).

(** [float(x)] for a number [x] of value [q], as ["%.1f"] takes it.  A
    value that is not whole is the value of a float already.  A whole one
    may be an [int]: it is rounded to 53 bits, and from [2^1024] on the
    conversion raises [OverflowError], for which [None] stands. *)
Definition as_float (q : Q) : option Q :=
  let r := Qred q in
  if (Zpos (Qden r) =? 1)%Z then
    let m := Py.float_of_int (Z.abs (Qnum r)) in
    if (2 ^ 1024 <=? m)%Z then None
    else Some (inject_Z (Z.sgn (Qnum r) * m))
  else Some q.

(** The characters [urllib.parse.quote] never escapes. *)
Definition always_safe (c : ascii) : bool :=
  let n := nat_of_ascii c in
  ((65 <=? n)%nat && (n <=? 90)%nat) || ((97 <=? n)%nat && (n <=? 122)%nat)
  || ((48 <=? n)%nat && (n <=? 57)%nat)
  || Ascii.eqb c "_" || Ascii.eqb c "." || Ascii.eqb c "-" || Ascii.eqb c "~".

Definition hex_digit (n : N) : ascii :=
  match String.get (N.to_nat n) "0123456789ABCDEF" with
  | Some c => c
  | None => "0"%char
  end.

(** ['%{:02X}'.format(byte)] *)
Definition percent (c : ascii) : string :=
  let n := N_of_ascii c in
  String "%" (String (hex_digit (N.shiftr n 4))
                (String (hex_digit (N.land n 15)) EmptyString)).

(** [urllib.parse.quote(s, safe)] on the UTF-8 bytes of [s]. *)
Fixpoint quote (safe : ascii -> bool) (s : string) : string :=
  match s with
  | EmptyString => EmptyString
  | String c s' =>
      (if always_safe c || safe c then String c EmptyString else percent c)
        ++ quote safe s'
  end.

(** [urllib.parse.quote_plus(s)] *)
Definition quote_plus (s : string) : string :=
  if has_char " " s then
    Py.replace_char " " "+" (quote (fun c => Ascii.eqb c " ") s)
  else quote (fun _ => false) s.

Definition DQUOTE : ascii := ascii_of_nat 34.
Definition SQUOTE : ascii := ascii_of_nat 39.
Definition NEWLINE : ascii := ascii_of_nat 10.

(** [html.escape(s)], with its default [quote=True]: five replacements,
    the ampersand first. *)
Definition html_escape (s : string) : string :=
  replace1 SQUOTE "&#x27;"
    (replace1 DQUOTE "&quot;"
       (replace1 ">" "&gt;"
          (replace1 "<" "&lt;"
             (replace1 "&" "&amp;" s)))).

End PyText.

(* ===================================================================== *)
(** ** [class Report]: formatting *)
(* ===================================================================== *)

Module ReportFormat.

(** ["%.1f" % v] *)
Definition percent_1f (v : json) : Py.result string :=
  match v with
  | JNum q =>
      match PyText.as_float q with
      | Some x => Py.Ret (PyText.format_1f x)
      | None => Py.Raise Py.OverflowError
      end
  | JNegZero => Py.Ret "-0.0"
  | JBool b => Py.Ret (PyText.format_1f (if b then 1%Q else 0%Q))
  | _ => Py.Raise Py.TypeError
  end.

(** [formatRating(self, ratings, metric)] *)
Definition formatRating (ratings : json) (metric : string) : M string :=
  value <- lift (Json.get ratings metric JNull) ;;
  if Json.is_none value then ret "N/A"
  else
    rating <- lift (Json.getitem ratings metric) ;;
    lift (percent_1f rating).

(** [getSigridUrl(self, args)], on [args.customer] and [args.system] *)
Definition getSigridUrl (customer system : string) : string :=
  "https://sigrid-says.com/" ++ PyText.quote_plus customer ++ "/"
    ++ PyText.quote_plus system.

End ReportFormat.

(* ===================================================================== *)
(** ** [class TextReport]: candidates and colours *)
(* ===================================================================== *)

Module TextReportFormat.

Definition ANSI_RED : string := TextReport.ESC ++ "[91m".
Definition ANSI_BLUE : string := TextReport.ESC ++ "[96m".

(** [rc[key]] where the code goes on to use the value as a string. *)
Definition str_field (rc : json) (key : string) (e : Py.exn) : Py.result string :=
  match Json.getitem rc key with
  | Py.Ret (JStr s) => Py.Ret s
  | Py.Ret _ => Py.Raise e
  | Py.Exit code => Py.Exit code
  | Py.Raise e' => Py.Raise e'
  end.

(** ["\n" + (" " * 21)] *)
Definition HANGING : string :=
  String PyText.NEWLINE (PyText.repeat_string 21 " ").

(** [formatRefactoringCandidate(self, rc)] *)
Definition formatRefactoringCandidate (rc : json) : M string :=
  c <- lift (str_field rc "category" Py.TypeError) ;;
  let category := PyText.ljust 14 ("(" ++ c ++ ")") in
  s <- lift (str_field rc "subject" Py.AttributeError) ;;
  let subject :=
    PyText.replace2 ":" ":" HANGING (PyText.replace1 PyText.NEWLINE HANGING s) in
  ret ("    - " ++ category ++ " " ++ subject).

(** [v < t] for a float [t], as [Json.ge_num] does [v >= t]. *)
Definition lt_num (v : json) (t : Q) : Py.result bool :=
  match v with
  | JNum q => Py.Ret (negb (Qle_bool t q))
  | JNegZero => Py.Ret (negb (Qle_bool t 0))
  | JBool b => Py.Ret (negb (Qle_bool t (if b then 1%Q else 0%Q)))
  | _ => Py.Raise Py.TypeError
  end.

(** [rating != None and rating >= lo] *)
Definition at_least (rating : json) (lo : Q) : M bool :=
  if Json.is_none rating then ret false else lift (Json.ge_num rating lo).

(** [rating != None and rating >= lo and rating < hi] *)
Definition within (rating : json) (lo hi : Q) : M bool :=
  ge <- at_least rating lo ;;
  if ge then lift (lt_num rating hi) else ret false.

(** [printRatingColor(self, message, rating)]: the four entries of the
    dict are computed in order, and the codes of the true ones joined. *)
Definition printRatingColor (message : string) (rating : json) : M unit :=
  green <- at_least rating (35 # 10) ;;
  yellow <- within rating (25 # 10) (35 # 10) ;;
  red <- within rating 0 (25 # 10) ;;
  let blue := Json.is_none rating in
  let prefix :=
    (if green then TextReport.ANSI_GREEN else "")
      ++ (if yellow then TextReport.ANSI_YELLOW else "")
      ++ (if red then ANSI_RED else "")
      ++ (if blue then ANSI_BLUE else "") in
  TextReport.printColor message prefix.

End TextReportFormat.

(* ===================================================================== *)
(** ** [class StaticHtmlReport]: candidates and stars *)
(* ===================================================================== *)

Module StaticHtmlReport.

Definition HTML_STAR_FULL : string := "&#9733;".
Definition HTML_STAR_EMPTY : string := "&#9734;".

(** [formatRefactoringCandidate(self, rc)] *)
Definition formatRefactoringCandidate (rc : json) : M string :=
  s <- lift (TextReportFormat.str_field rc "subject" Py.AttributeError) ;;
  let subjectName :=
    PyText.replace2 ":" ":" "<br />"
      (PyText.replace1 PyText.NEWLINE "<br />" (PyText.html_escape s)) in
  c <- lift (TextReportFormat.str_field rc "category" Py.AttributeError) ;;
  let category := PyText.html_escape c in
  ret ("<span><em>(" ++ category ++ ")</em><div>" ++ subjectName
         ++ "</div></span>").

(** [round(v)] *)
Definition round_num (v : json) : Py.result Z :=
  match v with
  | JNum q => Py.Ret (PyText.round q)
  | JNegZero => Py.Ret 0%Z
  | JBool b => Py.Ret (if b then 1%Z else 0%Z)
  | _ => Py.Raise Py.TypeError
  end.

(** [formatHtmlStars(self, ratings, metric)] *)
Definition formatHtmlStars (ratings : json) (metric : string) : M string :=
  value <- lift (Json.get ratings metric JNull) ;;
  if Json.is_none value then ret "N/A"
  else
    v <- lift (Json.getitem ratings metric) ;;
    rounded <- lift (round_num v) ;;
    let stars := Z.min rounded 5 in
    let fullStars := PyText.mul stars HTML_STAR_FULL in
    let emptyStars := PyText.mul (5 - stars) HTML_STAR_EMPTY in
    rating <- ReportFormat.formatRating ratings metric ;;
    ret ("<strong class=" ++ String PyText.DQUOTE "stars" ++ format_d stars
           ++ String PyText.DQUOTE ">" ++ fullStars ++ emptyStars
           ++ "</strong> &nbsp; " ++ rating).

End StaticHtmlReport.

(* ===================================================================== *)
(** ** [class AzurePullRequestReport] *)
(* ===================================================================== *)

Module AzurePullRequestReport.

Definition AZURE_API_VERSION : string := "6.0".

(** What the report reads from the process and the file system. *)
Record host : Type := mkHost {
  environ : list (string * string);     (* os.environ *)
  path_exists : string -> bool;         (* os.path.exists *)
  read_text : string -> option string;  (* open(f).read(); None: cannot open *)
  dumps : json -> string;               (* json.dumps *)
  error_text : string                   (* e.fp.read(), as the f-string shows it *)
}.

(** The fields of [options] the report reads; [feedbackOnly] stands for
    [options.runMode == RunMode.FEEDBACK_ONLY]. *)
Record options : Type := mkOptions {
  outputDir : string;
  feedbackOnly : bool
}.

Fixpoint lookup (key : string) (vars : list (string * string)) : option string :=
  match vars with
  | [] => None
  | (k, v) :: rest => if k =? key then Some v else lookup key rest
  end.

(** [key in os.environ] *)
Definition in_environ (H : host) (key : string) : bool :=
  match lookup key (environ H) with
  | Some _ => true
  | None => false
  end.

(** [os.environ[key]] *)
Definition getenv (H : host) (key : string) : Py.result string :=
  match lookup key (environ H) with
  | Some v => Py.Ret v
  | None => Py.Raise (Py.KeyError key)
  end.

(** [isSupported(self, options)] *)
Definition isSupported (H : host) (opts : options) : bool :=
  in_environ H "SYSTEM_ACCESSTOKEN"
  && in_environ H "SYSTEM_PULLREQUEST_PULLREQUESTID"
  && feedbackOnly opts.

(** [buildURL(self)] *)
Definition buildURL (H : host) : M string :=
  baseURL <- lift (getenv H "SYSTEM_TEAMFOUNDATIONCOLLECTIONURI") ;;
  project <- lift (getenv H "SYSTEM_TEAMPROJECTID") ;;
  repo <- lift (getenv H "BUILD_REPOSITORY_NAME") ;;
  pr <- lift (getenv H "SYSTEM_PULLREQUEST_PULLREQUESTID") ;;
  ret (baseURL ++ project ++ "/_apis/git/repositories/" ++ repo
         ++ "/pullRequests/" ++ pr ++ "/threads?api-version="
         ++ AZURE_API_VERSION).

(** [callAzure(self, method, body)] *)
Definition callAzure (E : env) (H : host) (method body : string) : M Z :=
  url <- buildURL H ;;
  accessToken <- lift (getenv H "SYSTEM_ACCESSTOKEN") ;;
  response <- SigridApiClient.send E
                (mkRequest method url
                   [ ("Authorization", "Bearer " ++ accessToken);
                     ("Content-Type", "application/json") ]
                   (Some body)) ;;
  ret (fst response).

(** The dict [buildRequestBody] serialises. *)
Definition request_body (analysisId : json) (feedback : string) : json :=
  JObj [ ("comments",
          JArr [ JObj [ ("parentCommentId", JNum 0);
                        ("content", JStr feedback);
                        ("commentType", JStr "text") ] ]);
         ("status", JStr "active");
         ("properties", JObj [ ("sigridRunId", analysisId) ]) ].

(** [buildRequestBody(self, analysisId, feedbackFile)] *)
Definition buildRequestBody (H : host) (analysisId : json)
    (feedbackFile : string) : M string :=
  match read_text H feedbackFile with
  | None => raise Py.OSError
  | Some feedback => ret (dumps H (request_body analysisId feedback))
  end.

(** [generate(self, analysisId, feedback, options)].  [UploadLog.log],
    whose module is not among the sources, is taken to record its
    message. *)
Definition generate (E : env) (H : host) (analysisId feedback : json)
    (opts : options) : M unit :=
  let feedbackFile := outputDir opts ++ "/feedback.md" in
  if negb (isSupported H opts) || negb (path_exists H feedbackFile) then ret tt
  else
    try_except
      (log "Sending feedback to Azure DevOps API" ;;
       body <- buildRequestBody H analysisId feedbackFile ;;
       callAzure E H "POST" body ;;
       log "Published feedback to Azure DevOps")
      (fun e =>
         match e with
         | Py.HTTPError code =>
             Some (log ("Warning: Azure DevOps API error: " ++ format_d code
                          ++ " / " ++ error_text H))
         | _ => None
         end).

End AzurePullRequestReport.

(* ===================================================================== *)
(** ** Further notions and sample inputs *)
(* ===================================================================== *)

Module AuxMore.
Import Py PyText.

(** Every character of [s] satisfies [p]. *)
Fixpoint all_chars (p : ascii -> bool) (s : string) : bool :=
  match s with
  | EmptyString => true
  | String c s' => p c && all_chars p s'
  end.

(** The characters [quote_plus] can produce. *)
Definition url_char (c : ascii) : bool :=
  always_safe c || Ascii.eqb c "+" || Ascii.eqb c "%".

(** [quote_plus], one character at a time. *)
Fixpoint quote_chars (s : string) : string :=
  match s with
  | EmptyString => EmptyString
  | String c s' =>
      (if always_safe c then String c EmptyString
       else if Ascii.eqb c " " then "+"
       else percent c) ++ quote_chars s'
  end.

Definition hex_value (c : ascii) : N :=
  let n := N_of_ascii c in
  if (n <? 58)%N then (n - 48)%N else (n - 55)%N.

(** Reading back what [quote_plus] wrote. *)
Fixpoint unquote_chars (s : string) : string :=
  match s with
  | EmptyString => EmptyString
  | String c s' =>
      if Ascii.eqb c "+" then String " " (unquote_chars s')
      else if Ascii.eqb c "%" then
        match s' with
        | String h (String l rest) =>
            String (ascii_of_N (hex_value h * 16 + hex_value l)) (unquote_chars rest)
        | _ => String c (unquote_chars s')
        end
      else String c (unquote_chars s')
  end.

(** The four characters [html.escape] removes besides the ampersand. *)
Definition markup_free (s : string) : bool :=
  negb (has_char "<" s) && negb (has_char ">" s)
  && negb (has_char DQUOTE s) && negb (has_char SQUOTE s).

(** The active patterns of a packer, by where they come from. *)
Definition active_pattern (excludes : list string) (useRepoHistory : bool)
    (p : string) : Prop :=
  In p SystemUploadPacker.DEFAULT_EXCLUDES
  \/ (In p excludes /\ p <> "")
  \/ (useRepoHistory = false /\ p = ".git").

(** The answers to a location request that are passed on as they are. *)
Definition Answer (E : env) (r : http_result) (v : json) : Prop :=
  match r with
  | Response status body =>
      (status = 204%Z /\ v = JObj [])
      \/ (status <> 204%Z /\ body = "" /\ v = JObj [])
      \/ (status <> 204%Z /\ body <> "" /\ json_loads E body = Some v)
  | Unread _ _ => False
  | Fails _ => False
  end.

(** A status [processHttpError] answers with [sys.exit(1)] as a server
    failure. *)
Definition server_failure (code : Z) : Prop := (500 <= code)%Z.

(** A status [processHttpError] raises as unclassified. *)
Definition unclassified (code : Z) : Prop :=
  (code < 500)%Z /\ code <> 401%Z /\ code <> 403%Z /\ code <> 404%Z.

(** The name [submitUpload] gives the archive, and what it holds. *)
Definition upload_name (E : env) : string :=
  "sigrid-upload-" ++ timestamp E ++ ".zip".

Definition upload_entries (E : env) (sourceDir : string)
    (excludes : list string) (useRepoHistory : bool) (prefix : string)
    : list zip_entry :=
  SystemUploadPacker.archive_entries
    (SystemUploadPacker.init excludes useRepoHistory prefix) sourceDir
    (tree_of E sourceDir) (upload_name E).

(** [status in [200, 201, 202]] *)
Definition upload_accepted (status : Z) : bool :=
  (status =? 200)%Z || (status =? 201)%Z || (status =? 202)%Z.

(** A candidate that is a dict. *)
Definition is_dict (rc : json) : Prop := exists fields, rc = JObj fields.

(** A candidate that is a dict without a [metric] entry. *)
Definition lacks_metric (rc : json) : Prop :=
  exists fields, rc = JObj fields /\ Json.assoc "metric" fields = None.

(** A candidate as the service sends it and as the compatibility loop
    builds it. *)
Definition candidate (subject category metric : string) : json :=
  JObj [ ("subject", JStr subject); ("category", JStr category);
         ("metric", JStr metric) ].

(** A name as a directory lists it: not empty, without separator or null
    byte, and neither [.] nor [..]. *)
Definition real_name (s : string) : bool :=
  valid_name s && negb (s =? ".") && negb (s =? "..")
  && negb (has_char zero s).

Fixpoint real_node (n : node) : bool :=
  match n with
  | File f => real_name f
  | Dir d children => real_name d && forallb real_node children
  end.

Definition real_tree (tree : list node) : bool := forallb real_node tree.

(** The components of a prefix that [normpath] keeps, in order: the empty
    ones and [.] are dropped, and [..] takes back the one before it. *)
Definition kept_components (prefix : string) : list string :=
  rev (fold_left (Py.norm_step false) (Py.split "/" prefix) []).

(** A prefix made of names, which [normpath] leaves as it is. *)
Definition plain_prefix (prefix : string) : bool :=
  forallb real_name (Py.split "/" prefix).

(** Names in one directory are distinct, in every directory of a tree. *)
Definition node_name (n : node) : string :=
  match n with
  | File f => f
  | Dir d _ => d
  end.

Fixpoint distinct (names : list string) : bool :=
  match names with
  | [] => true
  | x :: rest => negb (existsb (String.eqb x) rest) && distinct rest
  end.

Fixpoint unique_node (n : node) : bool :=
  match n with
  | File _ => true
  | Dir _ children =>
      distinct (map node_name children) && forallb unique_node children
  end.

Definition unique_tree (tree : list node) : bool :=
  distinct (map node_name tree) && forallb unique_node tree.

(** The files a walk lists, each as the names that lead to it and its
    own. *)
Definition walk_keys (items : list SystemUploadPacker.walk_item)
    : list (list string) :=
  flat_map (fun item =>
              map (fun file => (SystemUploadPacker.below item ++ [file])%list)
                  (SystemUploadPacker.files item))
           items.

(** What the walk of a sub-directory lists: no file twice, and every file
    below the directory. *)
Definition keys_spec (n : node) : Prop :=
  match n with
  | File _ => True
  | Dir d _ =>
      forall r path,
        unique_node n = true ->
        NoDup (walk_keys (SystemUploadPacker.walk_dir r path n))
        /\ forall key,
             In key (walk_keys (SystemUploadPacker.walk_dir r path n)) ->
             exists rest, key = (path ++ d :: rest)%list
  end.

(** The files a walk lists, each with the triple that lists it, in the
    order the two loops of [prepareUpload] visit them. *)
Definition walk_pairs (items : list SystemUploadPacker.walk_item)
    : list (SystemUploadPacker.walk_item * string) :=
  flat_map (fun item => map (pair item) (SystemUploadPacker.files item)) items.

Definition pair_key (p : SystemUploadPacker.walk_item * string) : list string :=
  (SystemUploadPacker.below (fst p) ++ [snd p])%list.

(** The name [prepareUpload] gives a file in the archive. *)
Definition archive_name (self : SystemUploadPacker.t) (key : list string)
    : string :=
  SystemUploadPacker.getUploadFilePath self (Py.join "/" key).

End AuxMore.

Module SamplesMore.

Definition host : AzurePullRequestReport.host :=
  AzurePullRequestReport.mkHost
    [ ("SYSTEM_ACCESSTOKEN", "secret");
      ("SYSTEM_PULLREQUEST_PULLREQUESTID", "42");
      ("SYSTEM_TEAMFOUNDATIONCOLLECTIONURI", "https://dev.azure.com/org/");
      ("SYSTEM_TEAMPROJECTID", "proj");
      ("BUILD_REPOSITORY_NAME", "repo") ]
    (fun _ => true) (fun _ => Some "# feedback") (fun _ => "body") "b'denied'".

(** The same, without the project id. *)
Definition host_no_project : AzurePullRequestReport.host :=
  AzurePullRequestReport.mkHost
    [ ("SYSTEM_ACCESSTOKEN", "secret");
      ("SYSTEM_PULLREQUEST_PULLREQUESTID", "42");
      ("SYSTEM_TEAMFOUNDATIONCOLLECTIONURI", "https://dev.azure.com/org/");
      ("BUILD_REPOSITORY_NAME", "repo") ]
    (fun _ => true) (fun _ => Some "# feedback") (fun _ => "body") "b'denied'".

Definition opts : AzurePullRequestReport.options :=
  AzurePullRequestReport.mkOptions "sigrid-ci-output" true.

(** Every call is refused. *)
Definition net_403 (_ : nat) (_ : request) : http_result :=
  Fails (Py.HTTPError 403).

(** The n-th call is answered as given. *)
Definition net_of (answers : list http_result) (n : nat) (_ : request)
    : http_result :=
  nth n answers (Fails Py.URLError).

End SamplesMore.

(* ===================================================================== *)
(** ** Facts about the string primitives *)
(* ===================================================================== *)

Module PyFacts.
Import Py.

Lemma append_nil_r (s : string) : s ++ "" = s.
Proof. induction s; simpl; congruence. Qed.

Lemma append_assoc (a b c : string) : (a ++ b) ++ c = a ++ b ++ c.
Proof. induction a; simpl; congruence. Qed.

Lemma prefix_iff (p s : string) :
  prefix p s = true <-> exists b, s = p ++ b.
Proof.
  revert s; induction p as [|c p IH]; intros s; simpl.
  - split; [intros _; exists s; reflexivity | intros _; now destruct s].
  - destruct s as [|d s].
    + split; [discriminate | intros [b Hb]; discriminate].
    + simpl. destruct (ascii_dec c d) as [Heq|Hne].
      * subst d. rewrite IH. split; intros [b Hb]; exists b.
        -- now rewrite Hb.
        -- now injection Hb.
      * split; [discriminate | intros [b Hb]; injection Hb; congruence].
Qed.

(** [p in s] holds exactly when [s] splits around a copy of [p]. *)
Lemma contains_iff (p s : string) :
  contains p s = true <-> Substring p s.
Proof.
  unfold Substring. induction s as [|c s IH].
  - cbn [contains]. rewrite prefix_iff. split.
    + intros [b Hb]. exists "", b. exact Hb.
    + intros [a [b Hab]]. destruct a; [exists b; exact Hab | discriminate].
  - cbn [contains]. rewrite orb_true_iff, prefix_iff, IH. split.
    + intros [[b Hb] | [a [b Hab]]].
      * exists "", b. exact Hb.
      * exists (String c a), b. simpl. now rewrite Hab.
    + intros [a [b Hab]]. destruct a as [|d a].
      * left. exists b. exact Hab.
      * right. exists a, b. simpl in Hab. now injection Hab.
Qed.

Lemma Substring_app_l (p a b : string) : Substring p a -> Substring p (a ++ b).
Proof.
  intros [x [y ->]]. exists x, (y ++ b). now rewrite !append_assoc.
Qed.

Lemma replace_char_app (x y : ascii) (a b : string) :
  replace_char x y (a ++ b) = replace_char x y a ++ replace_char x y b.
Proof. induction a; simpl; congruence. Qed.

Lemma lstrip_no_lead (p : ascii -> bool) (s : string) :
  match lstrip p s with
  | String c _ => p c = false
  | EmptyString => True
  end.
Proof.
  induction s as [|c s IH]; simpl; [exact I |].
  destruct (p c) eqn:Hc; [exact IH | exact Hc].
Qed.

Lemma rstrip_head (p : ascii -> bool) (s : string) :
  match rstrip p s with
  | String c _ => exists s', s = String c s'
  | EmptyString => True
  end.
Proof.
  destruct s as [|c s]; simpl; [exact I |].
  destruct (rstrip p s); [destruct (p c)|]; simpl; eauto.
Qed.

Lemma startswith_slash_strip (s : string) :
  startswith_slash (strip_slash s) = false.
Proof.
  unfold strip_slash, strip.
  pose proof (lstrip_no_lead is_slash s) as Hl.
  pose proof (rstrip_head is_slash (lstrip is_slash s)) as Hr.
  destruct (rstrip is_slash (lstrip is_slash s)) as [|c r]; [reflexivity |].
  destruct Hr as [s' Hs']. rewrite Hs' in Hl. exact Hl.
Qed.

Lemma endswith_slash_rstrip (s : string) :
  endswith_slash (rstrip is_slash s) = false.
Proof.
  induction s as [|c s IH]; simpl; [reflexivity |].
  destruct (rstrip is_slash s) as [|d r] eqn:Hr.
  - destruct (is_slash c) eqn:Hc; simpl; [reflexivity | exact Hc].
  - exact IH.
Qed.

Lemma endswith_slash_strip (s : string) :
  endswith_slash (strip_slash s) = false.
Proof. apply endswith_slash_rstrip. Qed.

(** A relative second argument keeps the first as a prefix. *)
Lemma path_join_prefix (a b : string) :
  startswith_slash b = false -> exists rest, path_join a b = a ++ rest.
Proof.
  intros Hb. unfold path_join. rewrite Hb.
  destruct ((a =? "") || endswith_slash a); eauto.
Qed.

Lemma endswith_slash_cons (c : ascii) (s : string) :
  s <> "" -> endswith_slash (String c s) = endswith_slash s.
Proof. destruct s; [congruence | reflexivity]. Qed.

Lemma startswith_slash_app (a b : string) :
  a <> "" -> startswith_slash (a ++ b) = startswith_slash a.
Proof. destruct a; [congruence | reflexivity]. Qed.

Lemma endswith_slash_app (a b : string) :
  b <> "" -> endswith_slash (a ++ b) = endswith_slash b.
Proof.
  intros Hb. induction a as [|c a IH]; [reflexivity |].
  simpl append. rewrite endswith_slash_cons; [exact IH |].
  destruct a; simpl; [exact Hb | discriminate].
Qed.

Lemma double_slash_cons (c : ascii) (s : string) :
  double_slash (String c s) = (is_slash c && startswith_slash s) || double_slash s.
Proof. reflexivity. Qed.

(** Gluing [a] and [b] with one separator adds no double separator when
    [a] does not end with one and [b] does not start with one. *)
Lemma double_slash_glue (a b : string) :
  endswith_slash a = false -> startswith_slash b = false ->
  double_slash (a ++ "/" ++ b) = double_slash a || double_slash b.
Proof.
  intros Ha Hb. change ("/" ++ b) with (String "/" b).
  induction a as [|c a IH].
  - simpl. now rewrite Hb.
  - destruct a as [|d a].
    + simpl in Ha. simpl. rewrite Ha, Hb. reflexivity.
    + rewrite endswith_slash_cons in Ha by discriminate.
      specialize (IH Ha).
      change (String c (String d a) ++ String "/" b)
        with (String c (String d a ++ String "/" b)).
      rewrite double_slash_cons, IH, (double_slash_cons c (String d a)).
      simpl startswith_slash. now rewrite orb_assoc.
Qed.

End PyFacts.

(* ===================================================================== *)
(** ** The archive: which files, under which names *)
(* ===================================================================== *)

Module WalkFacts.
Import Py PyFacts SystemUploadPacker Aux.

Lemma listed_app (a b : list walk_item) r p file :
  listed (a ++ b) r p file <-> listed a r p file \/ listed b r p file.
Proof.
  unfold listed. split.
  - intros [item [Hin H]]. apply in_app_or in Hin. destruct Hin; eauto.
  - intros [[item [Hin H]] | [item [Hin H]]]; exists item;
      (split; [apply in_or_app; auto | exact H]).
Qed.

Lemma listed_head r0 p0 fs (rest : list walk_item) r p file :
  listed (mkItem r0 p0 fs :: rest) r p file
  <-> (In file fs /\ r0 = r /\ p0 = p) \/ listed rest r p file.
Proof.
  unfold listed. split.
  - intros [item [[<- | Hin] H]]; [left; exact H | right; eauto].
  - intros [H | [item [Hin H]]].
    + exists (mkItem r0 p0 fs). split; [left; reflexivity | exact H].
    + exists item. split; [right; exact Hin | exact H].
Qed.

Lemma dir_path_snoc (top : string) (path : list string) (d : string) :
  path_join (dir_path top path) d = dir_path top (path ++ [d]).
Proof. unfold dir_path. now rewrite fold_left_app. Qed.

Lemma walk_children (children : list node) :
  Forall walk_spec children ->
  forall top path r p file,
    listed (mkItem (dir_path top path) path (files_of children)
              :: flat_map (walk_dir (dir_path top path) path) children) r p file
    <-> In (mkFile p file) (flat_map (files_in path) children)
        /\ r = dir_path top p.
Proof.
  induction 1 as [|c cs Hc Hcs IH]; intros top path r p file.
  - rewrite listed_head. simpl. unfold listed. split.
    + intros [[[] _] | [item [[] _]]].
    + intros [[] _].
  - specialize (IH top path r p file). rewrite listed_head in IH.
    destruct c as [g | d sub].
    + rewrite listed_head. simpl. split.
      * intros [[[<- | Hin] [<- <-]] | Hrest].
        -- split; [left; reflexivity | reflexivity].
        -- destruct (proj1 IH (or_introl (conj Hin (conj eq_refl eq_refl))))
             as [H1 H2].
           split; [right; exact H1 | exact H2].
        -- destruct (proj1 IH (or_intror Hrest)) as [H1 H2].
           split; [right; exact H1 | exact H2].
      * intros [[Heq | Hin] Hr].
        -- injection Heq as <- <-. left. auto.
        -- destruct (proj2 IH (conj Hin Hr)) as [[Hf [<- <-]] | Hrest];
             [left; auto | right; exact Hrest].
    + rewrite listed_head.
      change (flat_map (walk_dir (dir_path top path) path) (Dir d sub :: cs))
        with (walk_dir (dir_path top path) path (Dir d sub)
                ++ flat_map (walk_dir (dir_path top path) path) cs)%list.
      rewrite listed_app.
      change (flat_map (files_in path) (Dir d sub :: cs))
        with (files_in path (Dir d sub) ++ flat_map (files_in path) cs)%list.
      rewrite in_app_iff. rewrite (Hc top path r p file). tauto.
Qed.

Lemma walk_dir_spec (n : node) : walk_spec n.
Proof.
  induction n as [f | d children IH] using node_ind'; [exact I |].
  intros top path r p file.
  cbn [walk_dir files_in]. rewrite dir_path_snoc.
  apply walk_children. exact IH.
Qed.

(** The walk lists every file of the tree once per occurrence, under the
    path built from the walked directory. *)
Lemma walk_lists_tree_files (top : string) (tree : list node) r p file :
  listed (walk top tree) r p file
  <-> In (mkFile p file) (tree_files tree) /\ r = dir_path top p.
Proof.
  assert (Hall : Forall walk_spec tree)
    by (apply Forall_forall; intros n _; apply walk_dir_spec).
  exact (walk_children tree Hall top [] r p file).
Qed.

End WalkFacts.

Module PackerFacts.
Import Py PyFacts SystemUploadPacker Aux WalkFacts.

(** [isExcluded] decides the substring test of the specification. *)
Lemma isExcluded_iff (self : t) (path : string) :
  isExcluded self path = true <-> matches_pattern self path.
Proof.
  unfold isExcluded, matches_pattern, normalize. rewrite existsb_exists.
  split; intros [x [Hin Hx]]; exists x; (split; [exact Hin |]);
    now apply contains_iff.
Qed.

Lemma isExcluded_false_iff (self : t) (path : string) :
  isExcluded self path = false <-> ~ matches_pattern self path.
Proof.
  rewrite <- isExcluded_iff. destruct (isExcluded self path); split; intros H;
    try reflexivity; try discriminate; try (exfalso; apply H; reflexivity).
Qed.

Lemma add_file_iff (self : t) (out : string) (item : walk_item)
    (file : string) (e : zip_entry) :
  In e (add_file self out item file)
  <-> (file =? out) = false
      /\ isExcluded self (path_join (root item) file) = false
      /\ e = mkEntry (path_join (root item) file)
                     (getUploadFilePath self (relpath item file)).
Proof.
  unfold add_file.
  destruct (file =? out); destruct (isExcluded self _); simpl; split;
    try tauto; try (intros [? [? ?]]; discriminate).
  - intros [<- | []]. auto.
  - intros [_ [_ ->]]. auto.
Qed.

(** The entries of the archive, file by file. *)
Lemma archive_entries_iff (self : t) (top : string) (tree : list node)
    (out : string) (e : zip_entry) :
  In e (archive_entries self top tree out)
  <-> exists f, In f (tree_files tree)
                /\ (fname f =? out) = false
                /\ isExcluded self (full_path top f) = false
                /\ e = entry_of self top f.
Proof.
  unfold archive_entries. rewrite in_flat_map. split.
  - intros [item [Hitem He]]. apply in_flat_map in He.
    destruct He as [file [Hfile He]]. apply add_file_iff in He.
    destruct He as [Hout [Hex ->]].
    assert (Hl : listed (walk top tree) (root item) (below item) file)
      by (exists item; auto).
    apply walk_lists_tree_files in Hl. destruct Hl as [Hin Hroot].
    exists (mkFile (below item) file). unfold entry_of, full_path. simpl.
    rewrite <- Hroot. auto.
  - intros [f [Hin [Hout [Hex ->]]]]. destruct f as [p file].
    assert (Hl : listed (walk top tree) (dir_path top p) p file)
      by (apply walk_lists_tree_files; auto).
    destruct Hl as [item [Hitem [Hfile [Hroot Hbelow]]]].
    exists item. split; [exact Hitem |]. apply in_flat_map.
    exists file. split; [exact Hfile |]. apply add_file_iff.
    unfold entry_of, full_path, relative_path, relpath in *. simpl in *.
    rewrite Hroot, Hbelow. auto.
Qed.

(** *** Names without separators *)

Lemma valid_name_facts (s : string) :
  valid_name s = true ->
  s <> "" /\ startswith_slash s = false /\ endswith_slash s = false
  /\ double_slash s = false.
Proof.
  unfold valid_name. rewrite andb_true_iff, !negb_true_iff.
  intros [Hne Hno]. split.
  - intros ->. discriminate.
  - clear Hne. induction s as [|c s IH]; [auto |].
    cbn [contains] in Hno. apply orb_false_iff in Hno.
    destruct Hno as [Hpre Hrest].
    assert (Hc : is_slash c = false).
    { unfold is_slash. destruct (Ascii.eqb_spec c "/") as [-> |]; [| reflexivity].
      simpl in Hpre. now destruct s. }
    destruct s as [|d s].
    + simpl. rewrite Hc. auto.
    + destruct (IH Hrest) as [H1 [H2 H3]].
      rewrite endswith_slash_cons by discriminate.
      rewrite double_slash_cons, H3, Hc. simpl startswith_slash at 1.
      rewrite Hc. auto.
Qed.

Lemma join_valid (l : list string) :
  l <> [] -> Forall (fun s => valid_name s = true) l ->
  join "/" l <> ""
  /\ startswith_slash (join "/" l) = false
  /\ endswith_slash (join "/" l) = false
  /\ double_slash (join "/" l) = false.
Proof.
  intros Hne Hall. induction Hall as [|x l Hx Hl IH]; [congruence |].
  destruct (valid_name_facts x Hx) as [X0 [X1 [X2 X3]]].
  destruct l as [|y l]; [simpl; auto |].
  destruct IH as [J0 [J1 [J2 J3]]]; [discriminate |].
  change (join "/" (x :: y :: l)) with (x ++ "/" ++ join "/" (y :: l)).
  set (J := join "/" (y :: l)) in *.
  split; [destruct x; [congruence | discriminate] |].
  split; [rewrite startswith_slash_app by exact X0; exact X1 |].
  split.
  - rewrite endswith_slash_app by discriminate.
    change ("/" ++ J) with (String "/" J).
    rewrite endswith_slash_cons by exact J0. exact J2.
  - rewrite double_slash_glue by assumption. now rewrite X3, J3.
Qed.

Lemma files_in_valid (n : node) :
  forall path f,
    valid_node n = true ->
    Forall (fun s => valid_name s = true) path ->
    In f (files_in path n) ->
    Forall (fun s => valid_name s = true) (dirs f) /\ valid_name (fname f) = true.
Proof.
  induction n as [g | d children IH] using node_ind'; intros path f Hv Hp Hin.
  - simpl in Hin. destruct Hin as [<- | []]. simpl in *. auto.
  - simpl in Hv. apply andb_true_iff in Hv. destruct Hv as [Hd Hcs].
    simpl in Hin. apply in_flat_map in Hin. destruct Hin as [c [Hc Hf]].
    rewrite Forall_forall in IH. apply (IH c Hc (path ++ [d])%list f).
    + rewrite forallb_forall in Hcs. auto.
    + apply Forall_app. auto.
    + exact Hf.
Qed.

Lemma tree_files_valid (tree : list node) (f : tree_file) :
  valid_tree tree = true -> In f (tree_files tree) ->
  Forall (fun s => valid_name s = true) (dirs f) /\ valid_name (fname f) = true.
Proof.
  unfold valid_tree, tree_files. intros Hv Hin.
  apply in_flat_map in Hin. destruct Hin as [n [Hn Hf]].
  rewrite forallb_forall in Hv. apply (files_in_valid n [] f); auto.
Qed.

(** The joined path of a file starts with the walked directory, as given. *)
Lemma full_path_prefix (top : string) (f : tree_file) :
  Forall (fun s => valid_name s = true) (dirs f) ->
  valid_name (fname f) = true ->
  exists rest, full_path top f = top ++ rest.
Proof.
  destruct f as [p file]. unfold full_path. simpl. intros Hp Hfile.
  assert (Hd : exists rest, dir_path top p = top ++ rest).
  { clear Hfile. revert top. induction Hp as [|d p Hd Hp IH]; intros top.
    - exists "". simpl. now rewrite append_nil_r.
    - change (dir_path top (d :: p)) with (dir_path (path_join top d) p).
      destruct (valid_name_facts d Hd) as [_ [Hs _]].
      destruct (path_join_prefix top d Hs) as [r1 ->].
      destruct (IH (top ++ r1)) as [r2 ->]. exists (r1 ++ r2).
      apply append_assoc. }
  destruct Hd as [r1 ->].
  destruct (valid_name_facts file Hfile) as [_ [Hs _]].
  destruct (path_join_prefix (top ++ r1) file Hs) as [r2 ->].
  exists (r1 ++ r2). apply append_assoc.
Qed.

Lemma relative_path_valid (f : tree_file) :
  Forall (fun s => valid_name s = true) (dirs f) ->
  valid_name (fname f) = true ->
  relative_path f <> ""
  /\ startswith_slash (relative_path f) = false
  /\ endswith_slash (relative_path f) = false
  /\ double_slash (relative_path f) = false.
Proof.
  intros Hd Hf. apply join_valid.
  - destruct (dirs f); discriminate.
  - apply Forall_app. auto.
Qed.

End PackerFacts.

(* ===================================================================== *)
(** ** Characters, components and normal forms *)
(* ===================================================================== *)

Module TextFacts.
Import Py PyText PyFacts.

Lemma has_char_app (c : ascii) (a b : string) :
  has_char c (a ++ b) = has_char c a || has_char c b.
Proof. induction a as [|d a IH]; simpl; [reflexivity | now rewrite IH, orb_assoc]. Qed.

Lemma contains_slash (s : string) : contains "/" s = has_char "/" s.
Proof.
  induction s as [|c s IH]; [reflexivity |].
  cbn [contains has_char]. rewrite IH. f_equal.
  cbn [prefix]. destruct (Ascii.eqb_spec c "/") as [-> | Hne].
  - destruct (ascii_dec "/" "/") as [_ | Hn]; [| congruence].
    now destruct s.
  - destruct (ascii_dec "/" c) as [He | _]; [congruence | reflexivity].
Qed.

Lemma prefix_slash (s : string) : prefix "/" s = startswith_slash s.
Proof.
  destruct s as [|c s]; [reflexivity |]. cbn [prefix startswith_slash].
  unfold is_slash. destruct (Ascii.eqb_spec c "/") as [-> | Hne].
  - destruct (ascii_dec "/" "/") as [_ | Hn]; [| congruence]. now destruct s.
  - destruct (ascii_dec "/" c) as [He | _]; [congruence | reflexivity].
Qed.

Lemma valid_name_chars (s : string) :
  valid_name s = true <-> s <> "" /\ has_char "/" s = false.
Proof.
  unfold valid_name. rewrite andb_true_iff, !negb_true_iff, contains_slash.
  rewrite String.eqb_neq. tauto.
Qed.

End TextFacts.

Module NormFacts.
Import Py PyText PyFacts Aux AuxMore TextFacts PackerFacts.

(** *** [split] and [join] *)

Lemma split_not_nil (c : ascii) (s : string) : split c s <> [].
Proof.
  destruct s as [|d s]; [discriminate |]. cbn [split].
  destruct (Ascii.eqb d c); [discriminate |]. destruct (split c s); discriminate.
Qed.

Lemma split_plain (c : ascii) (s : string) :
  has_char c s = false -> split c s = [s].
Proof.
  induction s as [|d s IH]; [reflexivity |]. cbn [has_char split].
  intros H. apply orb_false_iff in H. destruct H as [Hd Hs].
  rewrite Hd, (IH Hs). reflexivity.
Qed.

Lemma split_app_sep (c : ascii) (a b : string) :
  split c (a ++ String c b) = (split c a ++ split c b)%list.
Proof.
  induction a as [|d a IH].
  - cbn [append split app]. now rewrite Ascii.eqb_refl.
  - cbn [append split]. rewrite IH. destruct (Ascii.eqb d c); [reflexivity |].
    destruct (split c a) as [|x rest] eqn:Ha; [| reflexivity].
    exfalso. exact (split_not_nil c a Ha).
Qed.

Lemma split_free (c : ascii) (s : string) :
  Forall (fun x => has_char c x = false) (split c s).
Proof.
  induction s as [|d s IH]; [repeat constructor |]. cbn [split].
  destruct (Ascii.eqb d c) eqn:Hd; [constructor; [reflexivity | exact IH] |].
  destruct (split c s) as [|x rest]; [repeat constructor; simpl; now rewrite Hd |].
  inversion IH as [|? ? Hx Hrest]; subst. constructor; [| exact Hrest].
  simpl. now rewrite Hd, Hx.
Qed.

(** A character that is not in [s] is in none of its parts. *)
Lemma split_without (c z : ascii) (s : string) :
  has_char z s = false -> Forall (fun x => has_char z x = false) (split c s).
Proof.
  induction s as [|d s IH]; [repeat constructor |]. cbn [has_char split].
  intros H. apply orb_false_iff in H. destruct H as [Hd Hs]. specialize (IH Hs).
  destruct (Ascii.eqb d c); [constructor; [reflexivity | exact IH] |].
  destruct (split c s) as [|x rest]; [repeat constructor; simpl; now rewrite Hd |].
  inversion IH as [|? ? Hx Hrest]; subst. constructor; [| exact Hrest].
  simpl. now rewrite Hd, Hx.
Qed.

Lemma join_cons (x y : string) (l : list string) :
  join "/" (x :: y :: l) = x ++ "/" ++ join "/" (y :: l).
Proof. reflexivity. Qed.

Lemma join_split (s : string) : join "/" (split "/" s) = s.
Proof.
  induction s as [|d s IH]; [reflexivity |]. cbn [split].
  destruct (split "/" s) as [|x rest] eqn:Hs;
    [exfalso; exact (split_not_nil _ _ Hs) |].
  destruct (Ascii.eqb d "/") eqn:Hd.
  - apply Ascii.eqb_eq in Hd. subst d. rewrite join_cons, IH. reflexivity.
  - destruct rest as [|y rest].
    + simpl in IH. simpl. now rewrite IH.
    + rewrite join_cons in IH |- *. rewrite <- IH. reflexivity.
Qed.

Lemma join_app (a b : list string) :
  a <> [] -> b <> [] ->
  join "/" (a ++ b) = join "/" a ++ "/" ++ join "/" b.
Proof.
  intros Ha Hb. induction a as [|x a IH]; [congruence |].
  destruct a as [|y a].
  - destruct b as [|z b]; [congruence | reflexivity].
  - change ((x :: y :: a) ++ b)%list with (x :: y :: (a ++ b))%list.
    rewrite !join_cons. change (y :: (a ++ b))%list with ((y :: a) ++ b)%list.
    rewrite IH by discriminate. now rewrite !append_assoc.
Qed.

Lemma split_join (names : list string) :
  names <> [] -> Forall (fun x => has_char "/" x = false) names ->
  split "/" (join "/" names) = names.
Proof.
  intros Hne Hall. induction Hall as [|x l Hx Hl IH]; [congruence |].
  destruct l as [|y l]; [exact (split_plain _ _ Hx) |].
  rewrite join_cons. change ("/" ++ join "/" (y :: l)) with (String "/" (join "/" (y :: l))).
  rewrite split_app_sep, (split_plain _ _ Hx), IH by discriminate. reflexivity.
Qed.

(** *** The loop of [normpath] *)

Lemma norm_step_name (rooted : bool) (kept : list string) (x : string) :
  x <> "" -> x <> "." -> x <> ".." -> norm_step rooted kept x = x :: kept.
Proof.
  intros H0 H1 H2. unfold norm_step.
  apply String.eqb_neq in H0, H1, H2. now rewrite H0, H1, H2.
Qed.

Lemma real_name_facts (x : string) :
  real_name x = true ->
  valid_name x = true /\ x <> "." /\ x <> ".." /\ has_char zero x = false.
Proof.
  unfold real_name. rewrite !andb_true_iff, !negb_true_iff, !String.eqb_neq.
  tauto.
Qed.

Lemma fold_names (rooted : bool) (names kept : list string) :
  Forall (fun x => real_name x = true) names ->
  fold_left (norm_step rooted) names kept = (rev names ++ kept)%list.
Proof.
  intros H. revert kept. induction H as [|x l Hx Hl IH]; intros kept; [reflexivity |].
  destruct (real_name_facts x Hx) as [Hv [H1 [H2 _]]].
  apply valid_name_chars in Hv. destruct Hv as [H0 _].
  cbn [fold_left]. rewrite (norm_step_name rooted kept x H0 H1 H2), IH.
  cbn [rev]. now rewrite <- app_assoc.
Qed.

(** What the loop keeps are components that are not empty. *)
Lemma fold_norm_keeps (Q : string -> Prop) (rooted : bool)
    (comps kept : list string) :
  (forall x, In x comps -> x <> "" -> Q x) -> Forall Q kept ->
  Forall Q (fold_left (norm_step rooted) comps kept).
Proof.
  revert kept. induction comps as [|x comps IH]; intros kept Hc Hk; [exact Hk |].
  cbn [fold_left]. apply IH; [intros y Hy; apply Hc; now right |].
  unfold norm_step. destruct (x =? "") eqn:H0; [exact Hk |].
  apply String.eqb_neq in H0. cbn [orb].
  destruct (x =? "."); [exact Hk |].
  assert (Hpush : Forall Q (x :: kept))
    by (constructor; [apply Hc; [now left | exact H0] | exact Hk]).
  assert (Hpop : Forall Q match kept with _ :: before => before | [] => [] end)
    by (destruct Hk; [constructor | assumption]).
  destruct (negb (x =? "..") || _ || _); assumption.
Qed.

(** The components kept of a prefix are names that hold no separator,
    and no null byte when the prefix holds none. *)
Lemma kept_components_valid (p : string) :
  Forall (fun x => valid_name x = true) (kept_components p).
Proof.
  unfold kept_components. apply Forall_rev.
  apply fold_norm_keeps; [| constructor].
  intros x Hx H0. apply valid_name_chars. split; [exact H0 |].
  pose proof (split_free "/" p) as Hall. rewrite Forall_forall in Hall. auto.
Qed.

Lemma kept_components_nul (p : string) :
  has_char zero p = false ->
  Forall (fun x => has_char zero x = false) (kept_components p).
Proof.
  intros Hp. unfold kept_components. apply Forall_rev.
  apply fold_norm_keeps; [| constructor].
  intros x Hx _. pose proof (split_without "/" zero p Hp) as Hall.
  rewrite Forall_forall in Hall. auto.
Qed.

Lemma kept_components_plain (p : string) :
  plain_prefix p = true -> kept_components p = split "/" p.
Proof.
  unfold plain_prefix, kept_components. intros H.
  rewrite fold_names, app_nil_r, rev_involutive; [reflexivity |].
  apply Forall_forall. now apply forallb_forall.
Qed.

(** *** Null bytes *)

Lemma until_nul_free (s : string) :
  has_char zero s = false -> Zip.until_nul s = s.
Proof.
  induction s as [|c s IH]; [reflexivity |]. cbn [has_char Zip.until_nul].
  intros H. apply orb_false_iff in H. destruct H as [Hc Hs].
  now rewrite Hc, (IH Hs).
Qed.

Lemma until_nul_start (s : string) :
  startswith_slash s = false -> startswith_slash (Zip.until_nul s) = false.
Proof.
  destruct s as [|c s]; [reflexivity |]. cbn [Zip.until_nul startswith_slash].
  intros H. destruct (Ascii.eqb c zero); [reflexivity | exact H].
Qed.

Lemma until_nul_double (s : string) :
  double_slash s = false -> double_slash (Zip.until_nul s) = false.
Proof.
  induction s as [|c s IH]; [reflexivity |].
  rewrite double_slash_cons. intros H. apply orb_false_iff in H.
  destruct H as [Hc Hs]. cbn [Zip.until_nul].
  destruct (Ascii.eqb c zero); [reflexivity |].
  rewrite double_slash_cons, (IH Hs), orb_false_r.
  destruct (is_slash c); [| reflexivity]. cbn [andb] in *.
  destruct s as [|d s]; [reflexivity |]. cbn [startswith_slash] in Hc.
  cbn [Zip.until_nul]. destruct (Ascii.eqb d zero); [reflexivity | exact Hc].
Qed.

Lemma has_char_join (z : ascii) (l : list string) :
  Ascii.eqb "/" z = false ->
  Forall (fun x => has_char z x = false) l -> has_char z (join "/" l) = false.
Proof.
  intros Hz H. induction H as [|x l Hx Hl IH]; [reflexivity |].
  destruct l as [|y l]; [exact Hx |].
  rewrite join_cons, !has_char_app, Hx, IH. cbn [has_char orb].
  now rewrite Hz.
Qed.

(** *** The name of a member *)

Lemma drop_seps_relative (s : string) :
  s <> "" -> startswith_slash s = false -> Zip.drop_seps s = Some s.
Proof.
  destruct s as [|c s]; [congruence |]. cbn [startswith_slash Zip.drop_seps].
  intros _ ->. reflexivity.
Qed.

(** [normpath] of a relative path whose components, the kept ones of the
    prefix aside, are names. *)
Lemma normpath_upload (P : string) (names : list string) :
  names <> [] -> Forall (fun x => real_name x = true) names ->
  startswith_slash P = false ->
  normpath (if P =? "" then join "/" names else P ++ "/" ++ join "/" names)
  = join "/" (kept_components P ++ names).
Proof.
  intros Hne Hreal HP.
  assert (Hvalid : Forall (fun x => valid_name x = true) names).
  { eapply Forall_impl; [| exact Hreal]. intros x Hx.
    now destruct (real_name_facts x Hx). }
  assert (Hfree : Forall (fun x => has_char "/" x = false) names).
  { eapply Forall_impl; [| exact Hvalid]. intros x Hx.
    now apply valid_name_chars in Hx. }
  destruct (join_valid names Hne Hvalid) as [J0 [J1 _]].
  assert (Hall : Forall (fun x => valid_name x = true) (kept_components P ++ names))
    by (apply Forall_app; split; [apply kept_components_valid | exact Hvalid]).
  assert (Hnn : (kept_components P ++ names)%list <> [])
    by (destruct (kept_components P); [exact Hne | discriminate]).
  destruct (join_valid _ Hnn Hall) as [K0 _].
  set (up := if P =? "" then join "/" names else P ++ "/" ++ join "/" names).
  assert (Hup0 : up <> "").
  { subst up. destruct (P =? "") eqn:Hp; [exact J0 |].
    apply String.eqb_neq in Hp. destruct P; [congruence | discriminate]. }
  assert (Hup1 : prefix "/" up = false).
  { rewrite prefix_slash. subst up. destruct (P =? "") eqn:Hp; [exact J1 |].
    apply String.eqb_neq in Hp. now rewrite startswith_slash_app. }
  assert (Hsplit : fold_left (norm_step false) (split "/" up) []
                   = (rev names ++ rev (kept_components P))%list).
  { subst up. destruct (P =? "") eqn:Hp.
    - apply String.eqb_eq in Hp. subst P.
      rewrite split_join, fold_names by assumption. reflexivity.
    - change ("/" ++ join "/" names) with (String "/" (join "/" names)).
      rewrite split_app_sep, split_join, fold_left_app, fold_names by assumption.
      unfold kept_components. now rewrite rev_involutive. }
  unfold normpath. apply String.eqb_neq in Hup0. rewrite Hup0, Hup1, Hsplit.
  rewrite rev_app_distr, !rev_involutive. cbn [append].
  apply String.eqb_neq in K0. now rewrite K0.
Qed.

Lemma has_char_lstrip (z : ascii) (p : ascii -> bool) (s : string) :
  has_char z s = false -> has_char z (lstrip p s) = false.
Proof.
  induction s as [|c s IH]; [reflexivity |]. cbn [lstrip].
  destruct (p c); [| auto]. cbn [has_char]. intros H.
  apply orb_false_iff in H. now apply IH.
Qed.

Lemma has_char_rstrip (z : ascii) (p : ascii -> bool) (s : string) :
  has_char z s = false -> has_char z (rstrip p s) = false.
Proof.
  induction s as [|c s IH]; [reflexivity |]. cbn [has_char rstrip].
  intros H. apply orb_false_iff in H. destruct H as [Hc Hs]. specialize (IH Hs).
  destruct (rstrip p s) as [|d r].
  - destruct (p c); [reflexivity |]. cbn [has_char]. now rewrite Hc.
  - cbn [has_char] in *. now rewrite Hc, IH.
Qed.

Lemma has_char_strip_slash (z : ascii) (s : string) :
  has_char z s = false -> has_char z (strip_slash s) = false.
Proof.
  intros H. unfold strip_slash, strip. now apply has_char_rstrip, has_char_lstrip.
Qed.

Lemma plain_prefix_start (P : string) :
  plain_prefix P = true -> startswith_slash P = false.
Proof.
  unfold plain_prefix. destruct P as [|c P]; [reflexivity |].
  cbn [split startswith_slash]. unfold is_slash.
  destruct (Ascii.eqb c "/"); [| reflexivity]. cbn [forallb].
  discriminate.
Qed.

Lemma files_in_real (n : node) :
  forall path f,
    real_node n = true ->
    Forall (fun s => real_name s = true) path ->
    In f (files_in path n) ->
    Forall (fun s => real_name s = true) (dirs f ++ [fname f]).
Proof.
  induction n as [g | d children IH] using node_ind'; intros path f Hv Hp Hin.
  - simpl in Hin. destruct Hin as [<- | []]. simpl in *.
    apply Forall_app. split; [exact Hp | repeat constructor; exact Hv].
  - simpl in Hv. apply andb_true_iff in Hv. destruct Hv as [Hd Hcs].
    simpl in Hin. apply in_flat_map in Hin. destruct Hin as [c [Hc Hf]].
    rewrite Forall_forall in IH. apply (IH c Hc (path ++ [d])%list f).
    + rewrite forallb_forall in Hcs. auto.
    + apply Forall_app. auto.
    + exact Hf.
Qed.

(** In a tree of names, the names of a file and of what leads to it. *)
Lemma tree_files_real (tree : list node) (f : tree_file) :
  real_tree tree = true -> In f (tree_files tree) ->
  Forall (fun s => real_name s = true) (dirs f ++ [fname f]).
Proof.
  unfold real_tree, tree_files. intros Hv Hin.
  apply in_flat_map in Hin. destruct Hin as [n [Hn Hf]].
  rewrite forallb_forall in Hv. apply (files_in_real n [] f); auto.
Qed.

(** The member [zipfile] makes of a file handed over as
    [prefix/relative], for a prefix that does not begin with the
    separator: its name is made of the kept components of the prefix and
    of the names that lead to the file, up to a null byte of the prefix;
    it does not begin with the separator and holds no two in a row; and
    it is the name handed over when the prefix is empty or made of
    names. *)
Lemma arcname_of_file (P : string) (f : tree_file) :
  startswith_slash P = false ->
  Forall (fun s => real_name s = true) (dirs f ++ [fname f]) ->
  let handed := if P =? "" then relative_path f else P ++ "/" ++ relative_path f in
  let name := Zip.until_nul (join "/" (kept_components P ++ dirs f ++ [fname f])) in
  Zip.arcname handed = (if name =? "" then None else Some name)
  /\ startswith_slash name = false
  /\ double_slash name = false
  /\ (has_char zero P = false -> name <> "" /\ endswith_slash name = false)
  /\ (P = "" \/ plain_prefix P = true -> name = handed /\ name <> "").
Proof.
  intros HP Hreal handed name. set (names := (dirs f ++ [fname f])%list) in *.
  assert (Hne : names <> []) by (subst names; destruct (dirs f); discriminate).
  assert (Hvalid : Forall (fun x => valid_name x = true) names).
  { eapply Forall_impl; [| exact Hreal]. intros x Hx.
    now destruct (real_name_facts x Hx). }
  assert (Hnul : Forall (fun x => has_char zero x = false) names).
  { eapply Forall_impl; [| exact Hreal]. intros x Hx.
    now destruct (real_name_facts x Hx) as [_ [_ [_ H]]]. }
  assert (Hall : Forall (fun x => valid_name x = true) (kept_components P ++ names))
    by (apply Forall_app; split; [apply kept_components_valid | exact Hvalid]).
  assert (Hnn : (kept_components P ++ names)%list <> [])
    by (destruct (kept_components P); [exact Hne | discriminate]).
  destruct (join_valid _ Hnn Hall) as [K0 [K1 [K2 K3]]].
  assert (Hfree : forall Q, Forall (fun x => has_char zero x = false) Q ->
            Zip.until_nul (join "/" (Q ++ names)) = join "/" (Q ++ names)).
  { intros Q HQ. apply until_nul_free. apply has_char_join; [reflexivity |].
    apply Forall_app. auto. }
  split; [| split; [| split; [| split]]].
  - unfold Zip.arcname. subst handed. unfold relative_path. fold names.
    rewrite (normpath_upload P names Hne Hreal HP).
    now rewrite (drop_seps_relative _ K0 K1).
  - subst name. now apply until_nul_start.
  - subst name. now apply until_nul_double.
  - intros HP0. subst name.
    rewrite (Hfree _ (kept_components_nul P HP0)). auto.
  - intros [-> | Hplain]; subst name handed.
    + change (kept_components "") with (@nil string).
      rewrite (Hfree [] ltac:(constructor)).
      split; [reflexivity |]. now destruct (join_valid names Hne Hvalid).
    + assert (HP0 : P <> "") by (intros ->; discriminate).
      apply String.eqb_neq in HP0. rewrite HP0.
      rewrite (kept_components_plain P Hplain).
      assert (Hsn : Forall (fun x => has_char zero x = false) (split "/" P)).
      { unfold plain_prefix in Hplain. rewrite forallb_forall in Hplain.
        apply Forall_forall. intros x Hx.
        now destruct (real_name_facts x (Hplain x Hx)) as [_ [_ [_ H]]]. }
      rewrite (Hfree _ Hsn).
      rewrite join_app by (assumption || apply split_not_nil).
      rewrite join_split. split; [reflexivity |].
      apply String.eqb_neq in HP0. destruct P; [congruence | discriminate].
Qed.

(** With a prefix that holds no null byte the member bears the joined
    components, all of them. *)
Lemma arcname_nul_free (P : string) (f : tree_file) :
  startswith_slash P = false ->
  Forall (fun s => real_name s = true) (dirs f ++ [fname f]) ->
  has_char zero P = false ->
  Zip.arcname (if P =? "" then relative_path f else P ++ "/" ++ relative_path f)
  = Some (join "/" (kept_components P ++ dirs f ++ [fname f])).
Proof.
  intros HP Hreal Hnul.
  destruct (arcname_of_file P f HP Hreal) as [Harc [_ [_ [H3 _]]]].
  destruct (H3 Hnul) as [Hne _].
  rewrite Harc. apply String.eqb_neq in Hne. rewrite Hne. f_equal.
  apply until_nul_free. apply has_char_join; [reflexivity |].
  apply Forall_app. split; [now apply kept_components_nul |].
  eapply Forall_impl; [| exact Hreal]. intros x Hx.
  now destruct (real_name_facts x Hx) as [_ [_ [_ H]]].
Qed.

End NormFacts.

(* ===================================================================== *)
(** ** [SystemUploadPacker]: the properties *)
(* ===================================================================== *)

Module PackerSpec.
Import Py PyText PyFacts SystemUploadPacker Aux AuxMore WalkFacts PackerFacts.
Import TextFacts NormFacts.

(** *** The calls of [zipFile.write] *)

Lemma zip_writes_stored (E : env) (calls : list zip_entry) :
  storable E calls -> zip_writes E calls = (calls, None).
Proof.
  induction calls as [|c calls IH]; intros H; [reflexivity |].
  cbn [zip_writes]. rewrite (H c (or_introl eq_refl)).
  rewrite IH; [reflexivity |]. intros c' Hc'. apply H. now right.
Qed.

(** The calls that returned are the first ones of the loops. *)
Lemma zip_writes_front (E : env) (calls : list zip_entry) :
  exists rest, calls = (fst (zip_writes E calls) ++ rest)%list.
Proof.
  induction calls as [|c calls [rest IH]]; [exists []; reflexivity |].
  cbn [zip_writes]. destruct (write_error E c).
  - exists (c :: calls). reflexivity.
  - exists rest. cbn [fst app]. now rewrite <- IH.
Qed.

Lemma zip_writes_incl (E : env) (calls : list zip_entry) (e : zip_entry) :
  In e (fst (zip_writes E calls)) -> In e calls.
Proof.
  destruct (zip_writes_front E calls) as [rest H]. intros Hin.
  rewrite H. apply in_or_app. now left.
Qed.

(** When no call raised, every call returned. *)
Lemma zip_writes_done (E : env) (calls : list zip_entry) :
  snd (zip_writes E calls) = None -> storable E calls.
Proof.
  induction calls as [|c calls IH]; intros H e Hin; [destruct Hin |].
  cbn [zip_writes] in H. destruct (write_error E c) eqn:Hc; [discriminate |].
  destruct Hin as [<- | Hin]; [exact Hc | exact (IH H e Hin)].
Qed.

(** *** One run of [prepareUpload] *)

(** When every call returns, the archive is written and its size logged,
    then the size decides. *)
Lemma prepareUpload_run (E : env) (self : t) (sourceDir outputFile : string)
    (t0 : trace) :
  let entries := archive_entries self sourceDir (tree_of E sourceDir) outputFile in
  let size := uploadSizeMB (getsize E entries) in
  storable E entries ->
  prepareUpload E self sourceDir outputFile t0
  = (if (size >? MAX_UPLOAD_SIZE_MB self)%Z
     then Raise (Exception ("Upload exceeds maximum size of "
                              ++ format_d (MAX_UPLOAD_SIZE_MB self) ++ " MB"))
     else Ret tt,
     EvLog ("Upload size is " ++ format_d size ++ " MB")
       :: EvZip outputFile entries :: t0).
Proof.
  intros entries size Hs. unfold prepareUpload. fold entries.
  rewrite (zip_writes_stored E entries Hs). cbn [fst snd].
  unfold bind, emit, log, raise, ret. fold size.
  destruct (size >? MAX_UPLOAD_SIZE_MB self)%Z; reflexivity.
Qed.

(** When a call raises, its exception leaves [prepareUpload]: the size is
    not looked at. *)
Lemma prepareUpload_failed (E : env) (self : t) (sourceDir outputFile : string)
    (t0 : trace) (e : exn) :
  let calls := archive_entries self sourceDir (tree_of E sourceDir) outputFile in
  snd (zip_writes E calls) = Some e ->
  prepareUpload E self sourceDir outputFile t0
  = (Raise e, EvZip outputFile (fst (zip_writes E calls)) :: t0).
Proof.
  intros calls He. unfold prepareUpload. fold calls. rewrite He. reflexivity.
Qed.

(** [prepareUpload] makes no network call. *)
Lemma prepareUpload_requests (E : env) (self : t)
    (sourceDir outputFile : string) (t0 : trace) :
  filter is_request (snd (prepareUpload E self sourceDir outputFile t0))
  = filter is_request t0.
Proof.
  unfold prepareUpload, bind, emit, log, raise, ret.
  destruct (snd (zip_writes E _)); [reflexivity |].
  destruct (_ >? _)%Z; reflexivity.
Qed.

(** The archive holds the calls that returned. *)
Lemma prepareUpload_written (E : env) (self : t) (sourceDir outputFile : string)
    (t0 : trace) :
  written outputFile (snd (prepareUpload E self sourceDir outputFile t0))
  = Some (fst (zip_writes E
                 (archive_entries self sourceDir (tree_of E sourceDir)
                    outputFile))).
Proof.
  unfold prepareUpload, bind, emit, log, raise, ret.
  destruct (snd (zip_writes E _)).
  - cbn [snd written]. now rewrite String.eqb_refl.
  - destruct (_ >? _)%Z; simpl; now rewrite String.eqb_refl.
Qed.


(** A call that returns stores a member. *)
Lemma write_error_name (E : env) (call : zip_entry) :
  write_error E call = None ->
  exists name, Zip.arcname (uploadPath call) = Some name.
Proof.
  unfold write_error, Zip.arcname. intros H.
  destruct (Zip.drop_seps (normpath (uploadPath call))) as [name |];
    [| destruct (state_of E (filePath call)); discriminate].
  destruct (Zip.until_nul name =? ""); [| eexists; reflexivity].
  destruct (state_of E (filePath call)); discriminate.
Qed.

(** The calls that returned did not raise. *)
Lemma zip_writes_ok (E : env) (calls : list zip_entry) (e : zip_entry) :
  In e (fst (zip_writes E calls)) -> write_error E e = None.
Proof.
  induction calls as [|c calls IH]; [intros [] |].
  cbn [zip_writes]. destruct (write_error E c) eqn:Hc; [intros [] |].
  cbn [fst]. intros [<- | Hin]; [exact Hc | exact (IH Hin)].
Qed.

(** C5, as stated, fails, in three ways.  With the output file named
    [upload.zip], a file of that name in the walked tree matches no
    exclusion pattern and is still left out of the archive; a link whose
    target is gone makes [zipFile.write] raise, and the files that follow
    it are not stored; and a file handed over as [a//b/a.py], for the
    prefix [a//b], is stored as [a/b/a.py]. *)
Lemma entry_set_differs_from_spec :
  (let E := Samples.disk [File "a.py"; File "upload.zip"] (fun _ => Readable) in
   let self := init [] true "" in
   exists entries,
     written "upload.zip" (snd (prepareUpload E self "src" "upload.zip" []))
     = Some entries
     /\ ~ (forall e, In e entries
                     <-> spec_entry_set self "src" (tree_of E "src") e))
  /\ (let E := Samples.disk [File "link"; File "a.py"] Samples.dangling in
      let self := init [] true "" in
      prepareUpload E self "src" "upload.zip" []
      = (Raise OSError, [EvZip "upload.zip" []])
      /\ spec_entry_set self "src" (tree_of E "src") (mkEntry "src/a.py" "a.py"))
  /\ (let E := Samples.disk [File "a.py"] (fun _ => Readable) in
      let self := init [] true "a//b" in
      written "upload.zip" (snd (prepareUpload E self "src" "upload.zip" []))
      = Some [mkEntry "src/a.py" "a//b/a.py"]
      /\ Zip.arcname "a//b/a.py" = Some "a/b/a.py").
Proof.
  split; [| split].
  - intros E self. eexists. split; [apply prepareUpload_written |].
    intros H.
    set (f := mkFile [] "upload.zip").
    assert (Hspec : spec_entry_set self "src" (tree_of E "src")
                      (entry_of self "src" f)).
    { exists f. split; [simpl; auto |]. split; [| reflexivity].
      apply isExcluded_false_iff. reflexivity. }
    apply H in Hspec. vm_compute in Hspec.
    destruct Hspec as [Heq | []]. discriminate Heq.
  - intros E self. split; [vm_compute; reflexivity |].
    exists (mkFile [] "a.py"). split; [simpl; auto |]. split; [| reflexivity].
    apply isExcluded_false_iff. reflexivity.
  - intros E self. split; vm_compute; reflexivity.
Qed.

Section EntrySet.
Variable E : env.
Variable self : t.
Variables sourceDir outputFile : string.
Variable t0 : trace.

(** The files of the tree that are the archive being written. *)
Variable is_archive : tree_file -> bool.

(** The guard of [prepareUpload] tells the archive by the bare name of a
    file, and tells it right. *)
Hypothesis Hguard :
  forall f, In f (tree_files (tree_of E sourceDir)) ->
            is_archive f = (fname f =? outputFile).

(** [zipFile.write] can store every file it is given. *)
Hypothesis Hstored :
  storable E (archive_entries self sourceDir (tree_of E sourceDir) outputFile).

(** C5, amended: when the guard of [prepareUpload] finds the archive
    being written and every file can be stored, the archive holds exactly
    the files of the tree, the archive itself aside, whose joined path
    (the one that starts with the source directory), with separators
    normalised, contains no trimmed active pattern as a substring.  Each
    is handed over under its path relative to the source directory,
    behind the prefix when there is one, and stored under the normal form
    [zipfile] gives that name, which is the name itself for a tree of
    names and a prefix that is empty or made of names. *)
Theorem prepareUpload_entry_set :
  exists entries,
    written outputFile (snd (prepareUpload E self sourceDir outputFile t0))
      = Some entries
    /\ (forall e,
          In e entries
          <-> exists f,
                In f (tree_files (tree_of E sourceDir))
                /\ is_archive f = false
                /\ ~ matches_pattern self (full_path sourceDir f)
                /\ e = mkEntry (full_path sourceDir f)
                               (getUploadFilePath self (relative_path f)))
    /\ (forall e, In e entries ->
          exists name, Zip.arcname (uploadPath e) = Some name)
    /\ (real_tree (tree_of E sourceDir) = true ->
        pathPrefix self = "" \/ plain_prefix (pathPrefix self) = true ->
        forall e, In e entries -> Zip.arcname (uploadPath e) = Some (uploadPath e)).
Proof.
  exists (archive_entries self sourceDir (tree_of E sourceDir) outputFile).
  split; [| split; [| split]].
  - rewrite prepareUpload_written. now rewrite (zip_writes_stored E _ Hstored).
  - intros e. rewrite archive_entries_iff.
    split; intros [f [Hin [Hname [Hex He]]]]; exists f;
      (split; [exact Hin |]).
    + rewrite (Hguard f Hin). apply isExcluded_false_iff in Hex. auto.
    + rewrite (Hguard f Hin) in Hname. apply isExcluded_false_iff in Hex. auto.
  - intros e He. exact (write_error_name E e (Hstored e He)).
  - intros Hreal Hplain e He. apply archive_entries_iff in He.
    destruct He as [f [Hf [_ [_ ->]]]].
    pose proof (tree_files_real _ f Hreal Hf) as Hnames.
    assert (HP : startswith_slash (pathPrefix self) = false)
      by (destruct Hplain as [-> | H]; [reflexivity | now apply plain_prefix_start]).
    destruct (arcname_of_file (pathPrefix self) f HP Hnames)
      as [Harc [_ [_ [_ Hsame]]]].
    destruct (Hsame Hplain) as [Hname Hne].
    unfold entry_of, getUploadFilePath. cbn [uploadPath].
    rewrite Harc. apply String.eqb_neq in Hne. rewrite Hne.
    f_equal. exact Hname.
Qed.

End EntrySet.

Lemma prepareUpload_entry_set_witness :
  exists entries,
    written "upload.zip"
      (snd (prepareUpload
              (Samples.disk [File "a.py"; File "upload.zip"; File "b.png"]
                 (fun _ => Readable))
              (init [] true "") "src" "upload.zip" []))
    = Some entries
    /\ In (mkEntry "src/a.py" "a.py") entries
    /\ Zip.arcname "a.py" = Some "a.py".
Proof.
  destruct (prepareUpload_entry_set
              (Samples.disk [File "a.py"; File "upload.zip"; File "b.png"]
                 (fun _ => Readable))
              (init [] true "") "src" "upload.zip" []
              (fun f => fname f =? "upload.zip")
              ltac:(intros f _; reflexivity)
              ltac:(intros c Hc; vm_compute in Hc;
                    destruct Hc as [<- | []]; reflexivity))
    as [entries [Hw [Hiff [_ Hname]]]].
  assert (Hin : In (mkEntry "src/a.py" "a.py") entries).
  { apply Hiff. exists (mkFile [] "a.py").
    split; [simpl; auto |]. split; [reflexivity |]. split; [| reflexivity].
    apply isExcluded_false_iff. reflexivity. }
  exists entries. split; [exact Hw |]. split; [exact Hin |].
  exact (Hname eq_refl (or_introl eq_refl) _ Hin).
Defined.

(** C10: the exclusion test reads the joined path, which starts with the
    source directory as the caller gave it.  When that directory's own
    normalised path contains a trimmed active pattern, every file is
    excluded and the archive is written with no entries. *)
Theorem source_dir_match_empties_archive (E : env) (self : t)
    (sourceDir outputFile : string) (t0 : trace)
    (Hvalid : valid_tree (tree_of E sourceDir) = true)
    (Hmatch : matches_pattern self sourceDir) :
  (forall f, In f (tree_files (tree_of E sourceDir)) ->
             isExcluded self (full_path sourceDir f) = true)
  /\ written outputFile (snd (prepareUpload E self sourceDir outputFile t0))
     = Some [].
Proof.
  assert (Hall : forall f, In f (tree_files (tree_of E sourceDir)) ->
                           isExcluded self (full_path sourceDir f) = true).
  { intros f Hin. apply isExcluded_iff.
    destruct (tree_files_valid _ f Hvalid Hin) as [Hd Hf].
    destruct (full_path_prefix sourceDir f Hd Hf) as [rest ->].
    destruct Hmatch as [x [Hx Hsub]]. exists x. split; [exact Hx |].
    unfold normalize in *. rewrite replace_char_app.
    now apply Substring_app_l. }
  split; [exact Hall |].
  rewrite prepareUpload_written.
  destruct (archive_entries self sourceDir (tree_of E sourceDir) outputFile)
    as [|e l] eqn:He; [reflexivity |].
  assert (Hin : In e (archive_entries self sourceDir (tree_of E sourceDir) outputFile))
    by (rewrite He; left; reflexivity).
  apply archive_entries_iff in Hin.
  destruct Hin as [f [Hf [_ [Hex _]]]]. rewrite (Hall f Hf) in Hex.
  discriminate.
Qed.

Lemma source_dir_match_empties_archive_witness :
  written "upload.zip"
    (snd (prepareUpload (Samples.base Samples.net_never 1000) (init [] true "")
            "/home/build/project" "upload.zip" []))
  = Some [].
Proof.
  apply (source_dir_match_empties_archive
           (Samples.base Samples.net_never 1000) (init [] true "")
           "/home/build/project" "upload.zip" []).
  - reflexivity.
  - apply isExcluded_iff. reflexivity.
Defined.

(** C9, as stated, fails: for the prefix [a//b] the file [a.py] is handed
    over as [a//b/a.py], which is [<prefix>/<relativePath>], and the
    archive stores it as [a/b/a.py]. *)
Lemma archived_path_is_normalised :
  let E := Samples.disk [File "a.py"] (fun _ => Readable) in
  let self := init [] true "a//b" in
  pathPrefix self = "a//b"
  /\ written "upload.zip" (snd (prepareUpload E self "src" "upload.zip" []))
     = Some [mkEntry "src/a.py" "a//b/a.py"]
  /\ Zip.arcname "a//b/a.py" = Some "a/b/a.py"
  /\ "a/b/a.py" <> pathPrefix self ++ "/" ++ "a.py".
Proof. repeat split; try (vm_compute; reflexivity). discriminate. Qed.

(** C9, amended: the prefix the packer keeps neither begins nor ends with
    the separator ([/backend/] becomes [backend]).  Every entry of the
    archive is the file it was read from, handed over as
    [prefix/relative], or as the bare relative path when the kept prefix
    is empty, and stored under the normal form of that name: the
    components of the prefix that are not empty or [.], with [..] taking
    back the component before it, and then the names that lead to the
    file, up to a null byte of the prefix.  The stored path is the one
    handed over when the prefix is empty or made of names; for a tree of
    names it never begins with the separator and never holds two in a
    row, and it does not end with one when the prefix holds no null
    byte. *)
Theorem archived_path_prefixing (E : env) (excludes : list string)
    (useRepoHistory : bool) (prefix sourceDir outputFile : string)
    (t0 : trace) (entries : list zip_entry) (e : zip_entry)
    (Hreal : real_tree (tree_of E sourceDir) = true)
    (Hwritten : written outputFile
                  (snd (prepareUpload E (init excludes useRepoHistory prefix)
                          sourceDir outputFile t0))
                = Some entries)
    (Hin : In e entries) :
  let self := init excludes useRepoHistory prefix in
  startswith_slash (pathPrefix self) = false
  /\ endswith_slash (pathPrefix self) = false
  /\ pathPrefix (init excludes useRepoHistory "/backend/") = "backend"
  /\ exists f name,
       In f (tree_files (tree_of E sourceDir))
       /\ filePath e = full_path sourceDir f
       /\ uploadPath e
          = (if pathPrefix self =? "" then relative_path f
             else pathPrefix self ++ "/" ++ relative_path f)
       /\ Zip.arcname (uploadPath e) = Some name
       /\ name = Zip.until_nul
                   (join "/" (kept_components (pathPrefix self)
                                ++ dirs f ++ [fname f]))
       /\ (pathPrefix self = "" \/ plain_prefix (pathPrefix self) = true ->
           name = uploadPath e)
       /\ startswith_slash name = false
       /\ double_slash name = false
       /\ (has_char zero prefix = false ->
           name <> "" /\ endswith_slash name = false).
Proof.
  intros self.
  assert (P1 : startswith_slash (pathPrefix self) = false)
    by apply startswith_slash_strip.
  assert (P2 : endswith_slash (pathPrefix self) = false)
    by apply endswith_slash_strip.
  split; [exact P1 |]. split; [exact P2 |]. split; [reflexivity |].
  rewrite prepareUpload_written in Hwritten. injection Hwritten as <-.
  destruct (write_error_name E e (zip_writes_ok E _ e Hin)) as [stored Hstored].
  apply zip_writes_incl, archive_entries_iff in Hin.
  destruct Hin as [f [Hf [_ [_ ->]]]].
  pose proof (tree_files_real _ f Hreal Hf) as Hnames.
  destruct (arcname_of_file (pathPrefix self) f P1 Hnames)
    as [Harc [H1 [H2 [H3 H4]]]].
  assert (Hname : Zip.arcname (uploadPath (entry_of self sourceDir f))
                  = Some (Zip.until_nul
                            (join "/" (kept_components (pathPrefix self)
                                         ++ dirs f ++ [fname f])))).
  { unfold entry_of, getUploadFilePath in *. cbn [uploadPath] in *.
    fold self in Hstored. rewrite Harc in Hstored |- *.
    destruct (Zip.until_nul _ =? ""); [discriminate | reflexivity]. }
  exists f. eexists.
  split; [exact Hf |]. split; [reflexivity |]. split; [reflexivity |].
  split; [exact Hname |]. split; [reflexivity |].
  split; [intros Hp; exact (proj1 (H4 Hp)) |].
  split; [exact H1 |]. split; [exact H2 |].
  intros Hnul. apply H3. subst self. cbn [pathPrefix init].
  now apply has_char_strip_slash.
Qed.

Lemma archived_path_prefixing_witness :
  exists name,
    Zip.arcname "backend/a/a.py" = Some name
    /\ startswith_slash name = false
    /\ double_slash name = false
    /\ endswith_slash name = false.
Proof.
  destruct (archived_path_prefixing
              (Samples.disk [Dir "a" [File "a.py"]] (fun _ => Readable))
              [] true "/backend/" "src" "upload.zip" []
              [mkEntry "src/a/a.py" "backend/a/a.py"]
              (mkEntry "src/a/a.py" "backend/a/a.py")
              eq_refl eq_refl (or_introl eq_refl))
    as [_ [_ [_ [f [name [_ [_ [_ [Harc [_ [_ [H1 [H2 H3]]]]]]]]]]]]].
  exists name. split; [exact Harc |]. split; [exact H1 |]. split; [exact H2 |].
  exact (proj2 (H3 eq_refl)).
Defined.

End PackerSpec.

(* ===================================================================== *)
(** ** [urllib]: the URLs a request accepts *)
(* ===================================================================== *)

Module UrlFacts.
Import Py Urllib PyText.

Lemma high_not_colon (a : ascii) :
  (128 <= nat_of_ascii a)%nat -> Ascii.eqb a ":" = false.
Proof.
  intros H. destruct (Ascii.eqb_spec a ":") as [-> |]; [| reflexivity].
  change (nat_of_ascii ":") with 58%nat in H. lia.
Qed.

Lemma isspace_not_colon (a : ascii) :
  isspace a = true -> Ascii.eqb a ":" = false.
Proof.
  intros H. destruct (Ascii.eqb_spec a ":") as [-> |]; [| reflexivity].
  discriminate H.
Qed.

Lemma isspace2_high (a b : ascii) :
  isspace2 a b = true -> (128 <= nat_of_ascii a)%nat /\ (128 <= nat_of_ascii b)%nat.
Proof.
  unfold isspace2. rewrite andb_true_iff, orb_true_iff, !Nat.eqb_eq. lia.
Qed.

Lemma isspace3_high (a b c : ascii) :
  isspace3 a b c = true ->
  (128 <= nat_of_ascii a)%nat /\ (128 <= nat_of_ascii b)%nat
  /\ (128 <= nat_of_ascii c)%nat.
Proof.
  unfold isspace3. cbv zeta.
  rewrite !orb_true_iff, !andb_true_iff, !orb_true_iff, !andb_true_iff,
    !Nat.eqb_eq, !Nat.leb_le. lia.
Qed.

(** White space holds no colon. *)
Lemma lstrip_ws_blank (n : nat) :
  forall s, (String.length s <= n)%nat -> lstrip_ws s = "" ->
            has_char ":" s = false.
Proof.
  induction n as [|n IH]; intros s Hn Hs.
  - destruct s; [reflexivity | simpl in Hn; lia].
  - destruct s as [|a s1]; [reflexivity |]. cbn [lstrip_ws] in Hs.
    cbn [String.length] in Hn. cbn [has_char].
    destruct (isspace a) eqn:Ha.
    + rewrite (isspace_not_colon a Ha). apply IH; [lia | exact Hs].
    + destruct s1 as [|b s2]; [discriminate |].
      cbn [String.length] in Hn. cbn [has_char].
      destruct (isspace2 a b) eqn:Hab.
      * destruct (isspace2_high a b Hab) as [H1 H2].
        rewrite (high_not_colon a H1), (high_not_colon b H2).
        apply IH; [lia | exact Hs].
      * destruct s2 as [|c s3]; [discriminate |].
        cbn [String.length] in Hn. cbn [has_char].
        destruct (isspace3 a b c) eqn:Habc; [| discriminate].
        destruct (isspace3_high a b c Habc) as [H1 [H2 H3]].
        rewrite (high_not_colon a H1), (high_not_colon b H2),
          (high_not_colon c H3).
        apply IH; [lia | exact Hs].
Qed.

Lemma scheme_rest_colon (s : string) :
  scheme_rest s = true -> has_char ":" s = true.
Proof.
  induction s as [|c s IH]; [discriminate |]. cbn [scheme_rest has_char].
  destruct (Ascii.eqb c ":"); [reflexivity |].
  rewrite !andb_true_iff. intros [_ H]. now apply IH.
Qed.

Lemma rstrip_ws_colon (c : ascii) (s : string) :
  has_char ":" (String c s) = true ->
  rstrip_ws (String c s) = String c (rstrip_ws s).
Proof.
  intros H. cbn [rstrip_ws].
  destruct (lstrip_ws (String c s) =? "") eqn:Hb; [| reflexivity].
  apply String.eqb_eq in Hb.
  rewrite (lstrip_ws_blank _ _ (Nat.le_refl _) Hb) in H. discriminate.
Qed.

Lemma scheme_rest_rstrip (s : string) :
  scheme_rest s = true -> scheme_rest (rstrip_ws s) = true.
Proof.
  induction s as [|c s IH]; [discriminate |]. intros H.
  rewrite rstrip_ws_colon by (now apply scheme_rest_colon).
  cbn [scheme_rest] in *. destruct (Ascii.eqb c ":"); [reflexivity |].
  rewrite !andb_true_iff in *. destruct H as [H1 H2]. auto.
Qed.

Lemma splittag_cons (c : ascii) (s : string) :
  Ascii.eqb c "#" = false -> splittag (String c s) = String c (splittag s).
Proof.
  intros H. unfold splittag. cbn [before_last]. rewrite H.
  destruct (before_last "#" s); reflexivity.
Qed.

Lemma scheme_rest_type (s : string) :
  scheme_rest s = true -> has_type true (splittag s) = true.
Proof.
  induction s as [|c s IH]; [discriminate |]. cbn [scheme_rest].
  destruct (Ascii.eqb c ":") eqn:Hc.
  - intros _. apply Ascii.eqb_eq in Hc. subst c.
    rewrite splittag_cons by reflexivity. reflexivity.
  - rewrite !andb_true_iff, !negb_true_iff. intros [[H1 H2] H3].
    rewrite splittag_cons by exact H2. cbn [has_type]. rewrite Hc, H1. auto.
Qed.

Lemma is_lower_facts (c : ascii) :
  is_lower c = true ->
  isspace c = false
  /\ (forall b, isspace2 c b = false)
  /\ (forall b d, isspace3 c b d = false)
  /\ Ascii.eqb c ":" = false /\ Ascii.eqb c "/" = false
  /\ Ascii.eqb c "#" = false /\ Ascii.eqb c "<" = false
  /\ Ascii.eqb c "U" = false.
Proof.
  intros H. unfold is_lower in H. cbv zeta in H.
  rewrite andb_true_iff, !Nat.leb_le in H.
  assert (Hne : forall d, (nat_of_ascii d < 97 \/ 122 < nat_of_ascii d)%nat ->
                          Ascii.eqb c d = false).
  { intros d Hd. destruct (Ascii.eqb_spec c d) as [-> |]; [lia | reflexivity]. }
  split; [| split; [| split]].
  - unfold isspace. cbv zeta.
    rewrite orb_false_iff, !andb_false_iff, !Nat.leb_gt. lia.
  - intros b. unfold isspace2. rewrite andb_false_iff, Nat.eqb_neq. lia.
  - intros b d. unfold isspace3. cbv zeta.
    rewrite !orb_false_iff, !andb_false_iff, !Nat.eqb_neq. lia.
  - repeat split; apply Hne; [left | left | left | left | left]; cbv; lia.
Qed.

Lemma typed_accepts (url : string) :
  typed url = true -> accepts url = true.
Proof.
  destruct url as [|c s]; [discriminate |]. cbn [typed].
  rewrite andb_true_iff. intros [Hc Hs].
  destruct (is_lower_facts c Hc) as [W1 [W2 [W3 [N1 [N2 [N3 [N4 N5]]]]]]].
  assert (Hl : lstrip_ws (String c s) = String c s).
  { cbn [lstrip_ws]. rewrite W1. destruct s as [|b s2]; [reflexivity |].
    rewrite W2. destruct s2 as [|d s3]; [reflexivity |]. now rewrite W3. }
  assert (Hstrip : strip_ws (String c s) = String c (rstrip_ws s)).
  { unfold strip_ws. rewrite Hl. apply rstrip_ws_colon.
    cbn [has_char]. rewrite (scheme_rest_colon s Hs). apply orb_true_r. }
  unfold accepts, unwrap. cbv zeta. rewrite Hstrip.
  assert (P1 : prefix "<" (String c (rstrip_ws s)) = false).
  { cbn [prefix]. destruct (ascii_dec "<" c) as [<- |]; [discriminate N4 | reflexivity]. }
  assert (P2 : prefix "URL:" (String c (rstrip_ws s)) = false).
  { cbn [prefix]. destruct (ascii_dec "U" c) as [<- |]; [discriminate N5 | reflexivity]. }
  rewrite P1. cbn [andb]. rewrite P2.
  rewrite splittag_cons by exact N3. cbn [has_type]. rewrite N1, N2.
  apply scheme_rest_type. now apply scheme_rest_rstrip.
Qed.

Lemma scheme_rest_app (s r : string) :
  scheme_rest s = true -> scheme_rest (s ++ r) = true.
Proof.
  induction s as [|c s IH]; [discriminate |]. cbn [scheme_rest append].
  destruct (Ascii.eqb c ":"); [reflexivity |].
  rewrite !andb_true_iff. intros [H1 H2]. auto.
Qed.

Lemma typed_app (s r : string) : typed s = true -> typed (s ++ r) = true.
Proof.
  destruct s as [|c s]; [discriminate |]. cbn [typed append].
  rewrite !andb_true_iff. intros [H1 H2]. split; [exact H1 |].
  now apply scheme_rest_app.
Qed.

End UrlFacts.

(* ===================================================================== *)
(** ** [SigridApiClient]: one call, one loop iteration *)
(* ===================================================================== *)

Module ClientFacts.
Import Py SigridApiClient Aux.

Section Steps.
Variable E : env.
Variable self : SigridApiClient.t.

(** [callSigridAPI], by the answer of the network. *)
Lemma callSigridAPI_run (api path : string) (t0 : trace) :
  callSigridAPI E self api path t0
  = let sent := EvRequest (api_request self api path) :: t0 in
    match urlopen E (ncalls t0) (api_request self api path) with
    | Fails e => (Raise e, sent)
    | Unread status e =>
        if (status =? 204)%Z then (Ret (JObj []), sent) else (Raise e, sent)
    | Response status body =>
        if (status =? 204)%Z then (Ret (JObj []), sent)
        else if (String.length body =? 0)%nat then
          (Ret (JObj []), EvLog "Received empty response" :: sent)
        else match json_loads E body with
             | Some v => (Ret v, sent)
             | None => (Raise JSONDecodeError, sent)
             end
    end.
Proof.
  unfold callSigridAPI, bind, send, lift.
  destruct (urlopen E (ncalls t0) (api_request self api path))
    as [status body | status e | e]; [| | reflexivity].
  - cbn [fst snd]. destruct (status =? 204)%Z; [reflexivity |].
    destruct (String.length body =? 0)%nat; [reflexivity |].
    destruct (json_loads E body); reflexivity.
  - cbn [fst snd]. destruct (status =? 204)%Z; reflexivity.
Qed.

Lemma ncalls_request (req : request) (t0 : trace) :
  ncalls (EvRequest req :: t0) = S (ncalls t0).
Proof. reflexivity. Qed.

(** A call makes exactly one request. *)
Lemma callSigridAPI_ncalls (api path : string) (t0 : trace) :
  ncalls (snd (callSigridAPI E self api path t0)) = S (ncalls t0).
Proof.
  rewrite callSigridAPI_run. cbv zeta.
  destruct (urlopen E (ncalls t0) (api_request self api path))
    as [status body | status e | e]; [| | reflexivity].
  - destruct (status =? 204)%Z; [reflexivity |].
    destruct (String.length body =? 0)%nat; [reflexivity |].
    destruct (json_loads E body); reflexivity.
  - destruct (status =? 204)%Z; reflexivity.
Qed.

Lemma processHttpError_unauthorized (code : Z) (t0 : trace) :
  code = 401%Z \/ code = 403%Z ->
  processHttpError code t0
  = (Exit 1, EvLog "You are not authorized to access Sigrid for this system" :: t0).
Proof. intros [-> | ->]; reflexivity. Qed.

Lemma processHttpError_not_found (t0 : trace) :
  processHttpError 404 t0
  = (Ret tt, EvLog "Analysis results not yet available" :: t0).
Proof. reflexivity. Qed.

(** [processHttpError] makes no request and does not sleep. *)
Lemma processHttpError_quiet (code : Z) (t0 : trace) :
  ncalls (snd (processHttpError code t0)) = ncalls t0
  /\ sleeps (snd (processHttpError code t0)) = sleeps t0.
Proof.
  unfold processHttpError.
  destruct ((code =? 401)%Z || (code =? 403)%Z); [split; reflexivity |].
  destruct (code =? 404)%Z; [split; reflexivity |].
  destruct (500 <=? code)%Z; split; reflexivity.
Qed.

(** One iteration of the polling loop. *)
Lemma fetch_loop_step (analysisId : json) (n : nat) (t0 : trace) :
  fetch_loop E self analysisId (S n) t0
  = let wait t1 :=
        fetch_loop E self analysisId n
          (EvSleep POLL_INTERVAL :: EvLog "Waiting for analysis results" :: t1) in
    match callSigridAPI E self "analysis-results"
            (results_path E self analysisId) t0 with
    | (Ret v, t1) => if Json.is_empty_dict v then wait t1 else (Ret v, t1)
    | (Exit code, t1) => (Exit code, t1)
    | (Raise (HTTPError code), t1) =>
        match processHttpError code t1 with
        | (Ret _, t2) => wait t2
        | (Exit c, t2) => (Exit c, t2)
        | (Raise e, t2) => (Raise e, t2)
        end
    | (Raise JSONDecodeError, t1) =>
        wait (EvLog "Received incomplete analysis results" :: t1)
    | (Raise e, t1) => (Raise e, t1)
    end.
Proof.
  cbn [fetch_loop]. unfold bind at 1. unfold try_except. unfold bind at 1.
  destruct (callSigridAPI E self "analysis-results"
              (results_path E self analysisId) t0) as [[v | code | e] t1].
  - destruct (Json.is_empty_dict v); reflexivity.
  - reflexivity.
  - destruct e; try reflexivity.
    unfold bind at 1. destruct (processHttpError code t1) as [[[] | c | e] t2];
      reflexivity.
Qed.

(** One iteration of the location-request loop. *)
Lemma obtain_loop_step (n : nat) (t0 : trace) :
  obtain_loop E self (S n) t0
  = match callSigridAPI E self "inboundresults" (uploads_path self) t0 with
    | (Ret v, t1) => (Ret v, t1)
    | (Exit code, t1) => (Exit code, t1)
    | (Raise (HTTPError code), t1) =>
        if (code =? 502)%Z then
          obtain_loop E self n (EvSleep POLL_INTERVAL :: EvLog "Retrying" :: t1)
        else
          match processHttpError code t1 with
          | (Ret _, t2) => obtain_loop E self n t2
          | (Exit c, t2) => (Exit c, t2)
          | (Raise e, t2) => (Raise e, t2)
          end
    | (Raise e, t1) => (Raise e, t1)
    end.
Proof.
  cbn [obtain_loop]. unfold bind at 1. unfold try_except. unfold bind at 1.
  destruct (callSigridAPI E self "inboundresults" (uploads_path self) t0)
    as [[v | code | e] t1]; try reflexivity.
  destruct e; try reflexivity.
  destruct (code =? 502)%Z; [reflexivity |].
  unfold bind at 1. destruct (processHttpError code t1) as [[[] | c | e] t2];
    reflexivity.
Qed.

End Steps.

End ClientFacts.

(* ===================================================================== *)
(** ** Polling *)
(* ===================================================================== *)

Module PollSpec.
Import Py SigridApiClient Aux ClientFacts.

Section Polling.
Variable E : env.
Variable self : SigridApiClient.t.
Variable analysisId : json.

(** A transient answer costs one request and one sleep, and the loop goes
    on with one attempt less. *)
Lemma fetch_loop_transient (n : nat) (t0 : trace) :
  Transient E (urlopen E (ncalls t0) (poll_request E self analysisId)) ->
  exists t1,
    fetch_loop E self analysisId (S n) t0
    = fetch_loop E self analysisId n (EvSleep POLL_INTERVAL :: t1)
    /\ ncalls t1 = S (ncalls t0) /\ sleeps t1 = sleeps t0.
Proof.
  intros H. rewrite fetch_loop_step, callSigridAPI_run. cbv zeta.
  unfold poll_request in H.
  remember (urlopen E (ncalls t0)
              (api_request self "analysis-results"
                 (results_path E self analysisId))) as r eqn:Hr.
  clear Hr. destruct H as [body | status | status body Hj | | status body Hj].
  - simpl. eexists. split; [reflexivity | split; reflexivity].
  - destruct (status =? 204)%Z; simpl;
      (eexists; split; [reflexivity | split; reflexivity]).
  - destruct (status =? 204)%Z; [| destruct (String.length body =? 0)%nat];
      try rewrite Hj; simpl;
      (eexists; split; [reflexivity | split; reflexivity]).
  - rewrite processHttpError_not_found.
    eexists. split; [reflexivity | split; reflexivity].
  - destruct (status =? 204)%Z; [| destruct (String.length body =? 0)%nat];
      try rewrite Hj; simpl;
      (eexists; split; [reflexivity | split; reflexivity]).
Qed.

(** A payload ends the loop at once. *)
Lemma fetch_loop_payload (n : nat) (t0 : trace) (v : json) :
  Payload E (urlopen E (ncalls t0) (poll_request E self analysisId)) v ->
  fetch_loop E self analysisId (S n) t0
  = (Ret v, EvRequest (poll_request E self analysisId) :: t0).
Proof.
  intros [status [body [Hr [Hs [Hb [Hj Hv]]]]]].
  rewrite fetch_loop_step, callSigridAPI_run. cbv zeta.
  unfold poll_request in *. rewrite Hr.
  apply Z.eqb_neq in Hs. rewrite Hs.
  destruct body as [|c body]; [congruence |]. simpl String.length.
  cbn [Nat.eqb]. rewrite Hj, Hv. reflexivity.
Qed.

Lemma fetch_loop_exhausted (t0 : trace) :
  fetch_loop E self analysisId 0 t0
  = (Exit 1,
     EvLog "Analysis failed: waiting for analysis results took too long" :: t0).
Proof. reflexivity. Qed.

(** [k] transient answers in a row. *)
Lemma fetch_loop_transients (k : nat) :
  forall (n : nat) (t0 : trace),
    (forall i, (i < k)%nat ->
               Transient E (urlopen E (ncalls t0 + i)
                              (poll_request E self analysisId))) ->
    exists t1,
      fetch_loop E self analysisId (k + n) t0 = fetch_loop E self analysisId n t1
      /\ ncalls t1 = (ncalls t0 + k)%nat
      /\ sleeps t1 = (repeat POLL_INTERVAL k ++ sleeps t0)%list.
Proof.
  induction k as [|k IH]; intros n t0 H.
  - exists t0. repeat split. now rewrite Nat.add_0_r.
  - destruct (fetch_loop_transient (k + n) t0) as [t1 [Hstep [Hc Hs]]].
    { rewrite <- (Nat.add_0_r (ncalls t0)). apply H. lia. }
    destruct (IH n (EvSleep POLL_INTERVAL :: t1)) as [t2 [Hrest [Hc2 Hs2]]].
    { intros i Hi. change (ncalls (EvSleep POLL_INTERVAL :: t1)) with (ncalls t1).
      rewrite Hc. replace (S (ncalls t0) + i)%nat with (ncalls t0 + S i)%nat by lia.
      apply H. lia. }
    exists t2. split; [| split].
    + change (S k + n)%nat with (S (k + n)). now rewrite Hstep.
    + rewrite Hc2. change (ncalls (EvSleep POLL_INTERVAL :: t1)) with (ncalls t1).
      lia.
    + rewrite Hs2. cbn [sleeps]. rewrite Hs.
      change (repeat POLL_INTERVAL (S k)) with (POLL_INTERVAL :: repeat POLL_INTERVAL k).
      rewrite repeat_cons, <- app_assoc. reflexivity.
Qed.

(** The answers the loop takes as transient.  While polling, an answer
    that is HTTP 204, has an empty body, parses to the empty object, is
    HTTP 404, or is read and decoded but does not parse raises no error:
    the loop sleeps 60 seconds and goes on with the attempts that are
    left.  After [k < 30] such answers the first payload is returned,
    after [k] sleeps and [k + 1] requests; after 30 such answers the
    process exits with status 1. *)
Lemma polling_outcomes (t0 : trace) (k : nat)
    (Htransient : forall i, (i < k)%nat ->
                    Transient E (urlopen E (ncalls t0 + i)
                                   (poll_request E self analysisId))) :
  (forall n t, Transient E (urlopen E (ncalls t) (poll_request E self analysisId)) ->
     exists t1,
       fetch_loop E self analysisId (S n) t
       = fetch_loop E self analysisId n (EvSleep 60 :: t1)
       /\ ncalls t1 = S (ncalls t) /\ sleeps t1 = sleeps t)
  /\ (forall v, (k < POLL_ATTEMPTS)%nat ->
        Payload E (urlopen E (ncalls t0 + k) (poll_request E self analysisId)) v ->
        exists t1,
          fetchAnalysisResults E self analysisId t0 = (Ret v, t1)
          /\ ncalls t1 = (ncalls t0 + k + 1)%nat
          /\ sleeps t1 = (repeat 60%Z k ++ sleeps t0)%list)
  /\ (k = POLL_ATTEMPTS ->
        exists t1,
          fetchAnalysisResults E self analysisId t0 = (Exit 1, t1)
          /\ exit_status (@Exit json 1) <> 0%Z
          /\ ncalls t1 = (ncalls t0 + 30)%nat
          /\ sleeps t1 = (repeat 60%Z 30 ++ sleeps t0)%list).
Proof.
  split; [| split].
  - intros n t H. exact (fetch_loop_transient n t H).
  - intros v Hk Hv. unfold fetchAnalysisResults.
    replace POLL_ATTEMPTS with (k + S (POLL_ATTEMPTS - S k))%nat by lia.
    destruct (fetch_loop_transients k (S (POLL_ATTEMPTS - S k)) t0 Htransient)
      as [t1 [Hrun [Hc Hs]]].
    rewrite Hrun. rewrite <- Hc in Hv.
    rewrite (fetch_loop_payload _ t1 v Hv).
    eexists. split; [reflexivity |]. split.
    + rewrite ncalls_request. lia.
    + exact Hs.
  - intros ->. unfold fetchAnalysisResults.
    destruct (fetch_loop_transients POLL_ATTEMPTS 0 t0 Htransient)
      as [t1 [Hrun [Hc Hs]]].
    rewrite Nat.add_0_r in Hrun. rewrite Hrun, fetch_loop_exhausted.
    eexists. split; [reflexivity |]. repeat split.
    + discriminate.
    + exact Hc.
    + exact Hs.
Qed.

(** A body that cannot be read and decoded ends the loop with the error
    of [read().decode("utf8")], which no handler of the loop takes. *)
Lemma fetch_loop_unread (n : nat) (t0 : trace) (status : Z) (e : exn) :
  urlopen E (ncalls t0) (poll_request E self analysisId) = Unread status e ->
  status <> 204%Z ->
  e = UnicodeDecodeError \/ e = IncompleteRead ->
  fetch_loop E self analysisId (S n) t0
  = (Raise e, EvRequest (poll_request E self analysisId) :: t0).
Proof.
  intros Hr Hs He.
  rewrite fetch_loop_step, callSigridAPI_run. cbv zeta.
  unfold poll_request in *. rewrite Hr.
  apply Z.eqb_neq in Hs. rewrite Hs.
  destruct He as [-> | ->]; reflexivity.
Qed.

(** C2, on the code: an incomplete body is not always transient.  When
    the body of a poll ends before its announced length, or is cut inside
    a character of more than one byte, [response.read().decode("utf8")]
    raises [IncompleteRead] or [UnicodeDecodeError] before [json.loads]
    is reached.  [fetchAnalysisResults] catches [HTTPError] and
    [JSONDecodeError] only, so after [k < 30] transient answers such a
    body ends polling with that error: [k + 1] requests were made and [k]
    sleeps, none follows, and no later attempt is made, whatever the next
    poll would have answered. *)
Theorem unreadable_body_ends_polling (t0 : trace) (k : nat) (status : Z) (e : exn)
    (Htransient : forall i, (i < k)%nat ->
                    Transient E (urlopen E (ncalls t0 + i)
                                   (poll_request E self analysisId)))
    (Hk : (k < POLL_ATTEMPTS)%nat)
    (Hcut : urlopen E (ncalls t0 + k) (poll_request E self analysisId)
            = Unread status e)
    (Hstatus : status <> 204%Z)
    (He : e = UnicodeDecodeError \/ e = IncompleteRead) :
  exists t1,
    fetchAnalysisResults E self analysisId t0
    = (Raise e, EvRequest (poll_request E self analysisId) :: t1)
    /\ ncalls t1 = (ncalls t0 + k)%nat
    /\ sleeps t1 = (repeat 60%Z k ++ sleeps t0)%list.
Proof.
  unfold fetchAnalysisResults.
  replace POLL_ATTEMPTS with (k + S (POLL_ATTEMPTS - S k))%nat by lia.
  destruct (fetch_loop_transients k (S (POLL_ATTEMPTS - S k)) t0 Htransient)
    as [t1 [Hrun [Hc Hs]]].
  rewrite Hrun. rewrite <- Hc in Hcut.
  rewrite (fetch_loop_unread _ t1 status e Hcut Hstatus He).
  exists t1. split; [reflexivity |]. split; [exact Hc | exact Hs].
Qed.

End Polling.

Lemma polling_outcomes_witness :
  exists t1,
    fetchAnalysisResults (Samples.base Samples.net_poll 1000) Samples.client
      (JStr "run-1") []
    = (Ret (Samples.ratings (36 # 10)), t1)
    /\ ncalls t1 = 5%nat
    /\ sleeps t1 = [60; 60; 60; 60]%Z.
Proof.
  refine (proj1 (proj2 (polling_outcomes (Samples.base Samples.net_poll 1000)
                          Samples.client (JStr "run-1") [] 4 _))
            (Samples.ratings (36 # 10)) _ _).
  - intros i Hi.
    destruct i as [|[|[|[|i]]]]; simpl.
    + apply T_not_found.
    + apply T_empty_object. reflexivity.
    + apply T_malformed. reflexivity.
    + apply T_no_content.
    + exfalso. lia.
  - unfold POLL_ATTEMPTS. lia.
  - exists 200%Z, "feedback". repeat split; discriminate.
Defined.

Lemma unreadable_body_ends_polling_witness :
  let E := Samples.base Samples.net_cut 1000 in
  Payload E (urlopen E 2 (poll_request E Samples.client (JStr "run-1")))
    (Samples.ratings (36 # 10))
  /\ exists t1,
       fetchAnalysisResults E Samples.client (JStr "run-1") []
       = (Raise UnicodeDecodeError,
          EvRequest (poll_request E Samples.client (JStr "run-1")) :: t1)
       /\ ncalls t1 = 1%nat
       /\ sleeps t1 = [60%Z].
Proof.
  split.
  - exists 200%Z, "feedback". repeat split; discriminate.
  - refine (unreadable_body_ends_polling (Samples.base Samples.net_cut 1000)
              Samples.client (JStr "run-1") [] 1 200 UnicodeDecodeError _ _ _ _ _).
    + intros i Hi. destruct i as [|i]; [| exfalso; lia].
      apply T_empty_object. reflexivity.
    + unfold POLL_ATTEMPTS. lia.
    + reflexivity.
    + discriminate.
    + left. reflexivity.
Defined.

End PollSpec.

(* ===================================================================== *)
(** ** Where the network calls stop *)
(* ===================================================================== *)

Module StopFacts.
Import Py SigridApiClient Aux ClientFacts.

Lemma quiet_ret {A} (a : A) : quiet (ret a).
Proof. intros t. reflexivity. Qed.

Lemma quiet_raise {A} (e : exn) : quiet (@raise A e).
Proof. intros t. reflexivity. Qed.

Lemma quiet_sys_exit {A} (code : Z) : quiet (@sys_exit A code).
Proof. intros t. reflexivity. Qed.

Lemma quiet_lift {A} (r : result A) : quiet (lift r).
Proof. intros t. reflexivity. Qed.

Lemma quiet_log (message : string) : quiet (log message).
Proof. intros t. reflexivity. Qed.

Lemma quiet_sleep (seconds : Z) : quiet (sleep seconds).
Proof. intros t. reflexivity. Qed.

Lemma quiet_bind {A B} (m : M A) (f : A -> M B) :
  quiet m -> (forall a, quiet (f a)) -> quiet (bind m f).
Proof.
  intros Hm Hf t. unfold bind. specialize (Hm t).
  destruct (m t) as [[a | code | e] t1]; simpl in *; [| exact Hm | exact Hm].
  rewrite Hf. exact Hm.
Qed.

Lemma quiet_processHttpError (code : Z) : quiet (processHttpError code).
Proof. intros t. apply processHttpError_quiet. Qed.

Lemma quiet_prepareUpload (E : env) (pk : SystemUploadPacker.t)
    (sourceDir outputFile : string) :
  quiet (SystemUploadPacker.prepareUpload E pk sourceDir outputFile).
Proof.
  intros t. unfold ncalls. now rewrite PackerSpec.prepareUpload_requests.
Qed.

Create HintDb quiet.
#[local] Hint Resolve quiet_ret quiet_raise quiet_sys_exit quiet_lift quiet_log
  quiet_sleep quiet_processHttpError quiet_prepareUpload : quiet.

Lemma not_502 (code : Z) :
  code = 401%Z \/ code = 403%Z -> (code =? 502)%Z = false.
Proof. intros [-> | ->]; reflexivity. Qed.

Section Stops.
Variable E : env.
Variable k : nat.
Variable code : Z.
Hypothesis Hcode : code = 401%Z \/ code = 403%Z.
Hypothesis Hk : forall req, urlopen E k req = Fails (HTTPError code).

Lemma stops_quiet {A} (m : M A) : quiet m -> stops_at k code m.
Proof. intros Hq t Ht. left. now rewrite Hq. Qed.

Lemma stops_bind {A B} (m : M A) (f : A -> M B) :
  stops_at k code m -> (forall a, stops_at k code (f a)) ->
  stops_at k code (bind m f).
Proof.
  intros Hm Hf t Ht. unfold bind. specialize (Hm t Ht).
  destruct (m t) as [[a | c | e] t1]; simpl in *.
  - destruct Hm as [Hle | [_ [Hx | Hx]]]; [| discriminate | discriminate].
    apply Hf. exact Hle.
  - destruct Hm as [Hle | [Heq [Hx | Hx]]]; [left; exact Hle | | discriminate].
    injection Hx as ->. right. auto.
  - destruct Hm as [Hle | [Heq [Hx | Hx]]]; [left; exact Hle | discriminate |].
    injection Hx as ->. right. auto.
Qed.

Lemma stops_send (req : request) : stops_at k code (send E req).
Proof.
  intros t Ht. unfold send.
  destruct (Nat.eq_dec (ncalls t) k) as [Heq | Hne].
  - rewrite Heq, Hk. right. simpl. rewrite ncalls_request. auto.
  - left. destruct (urlopen E (ncalls t) req); simpl; rewrite ncalls_request; lia.
Qed.

Lemma stops_callSigridAPI (self : SigridApiClient.t) (api path : string) :
  stops_at k code (callSigridAPI E self api path).
Proof.
  unfold callSigridAPI. apply stops_bind; [apply stops_send |].
  intros response. apply stops_quiet.
  destruct (fst response =? 204)%Z; [auto with quiet |].
  apply quiet_bind; [auto with quiet |]. intros responseBody.
  destruct (String.length responseBody =? 0)%nat.
  - apply quiet_bind; auto with quiet.
  - destruct (json_loads E responseBody); auto with quiet.
Qed.

(** A handler that makes no call, and that exits on the [HTTPError] of
    call [k], keeps the property of the body. *)
Lemma stops_try {A} (body : M A) (handler : exn -> option (M A)) :
  stops_at k code body ->
  (forall e h, handler e = Some h -> quiet h) ->
  (forall h, handler (HTTPError code) = Some h -> forall t, fst (h t) = Exit 1) ->
  stops_at k code (try_except body handler).
Proof.
  intros Hb Hq Hx t Ht. unfold try_except. specialize (Hb t Ht).
  destruct (body t) as [[a | c | e] t1]; simpl in *; try exact Hb.
  destruct (handler e) as [h |] eqn:Hh; [| exact Hb].
  pose proof (Hq e h Hh t1) as Hsame.
  destruct Hb as [Hle | [Heq [Hr | Hr]]].
  - left. now rewrite Hsame.
  - discriminate.
  - injection Hr as ->. right. rewrite Hsame. split; [exact Heq |].
    left. apply (Hx h Hh).
Qed.

Lemma processHttpError_exits (t : trace) : fst (processHttpError code t) = Exit 1.
Proof. now rewrite processHttpError_unauthorized. Qed.

Lemma stops_obtain_loop (self : SigridApiClient.t) (n : nat) :
  stops_at k code (obtain_loop E self n).
Proof.
  induction n as [|n IH]; cbn [obtain_loop].
  - apply stops_quiet. apply quiet_bind; auto with quiet.
  - apply stops_bind.
    + apply stops_try.
      * apply stops_bind; [apply stops_callSigridAPI |].
        intros v. apply stops_quiet. auto with quiet.
      * intros e h Hh. destruct e; try discriminate.
        injection Hh as <-. destruct (code0 =? 502)%Z.
        -- apply quiet_bind; [auto with quiet |]. intros _.
           apply quiet_bind; auto with quiet.
        -- apply quiet_bind; auto with quiet.
      * intros h Hh t. injection Hh as <-. rewrite (not_502 code Hcode).
        unfold bind. rewrite processHttpError_unauthorized by exact Hcode.
        reflexivity.
    + intros [v |]; [apply stops_quiet; auto with quiet | exact IH].
Qed.

Lemma stops_fetch_loop (self : SigridApiClient.t) (analysisId : json) (n : nat) :
  stops_at k code (fetch_loop E self analysisId n).
Proof.
  induction n as [|n IH]; cbn [fetch_loop].
  - apply stops_quiet. apply quiet_bind; auto with quiet.
  - apply stops_bind.
    + apply stops_try.
      * apply stops_bind; [apply stops_callSigridAPI |].
        intros v. apply stops_quiet.
        destruct (negb (Json.is_empty_dict v)); auto with quiet.
      * intros e h Hh. destruct e; try discriminate; injection Hh as <-;
          apply quiet_bind; auto with quiet.
      * intros h Hh t. injection Hh as <-.
        unfold bind. rewrite processHttpError_unauthorized by exact Hcode.
        reflexivity.
    + intros [v |]; [apply stops_quiet; auto with quiet |].
      apply stops_bind; [apply stops_quiet; auto with quiet |]. intros _.
      apply stops_bind; [apply stops_quiet; auto with quiet |]. intros _.
      exact IH.
Qed.

Lemma stops_uploadBinaryFile (url : json) (upload : string) :
  stops_at k code (uploadBinaryFile E url upload).
Proof.
  intros t Ht. unfold uploadBinaryFile.
  destruct (written upload t) as [entries |]; [| left; exact Ht].
  destruct (Urllib.accepts (str E url)); [| left; exact Ht].
  refine (stops_bind _ _ (stops_send _) _ t Ht).
  intros response. apply stops_quiet. auto with quiet.
Qed.

Lemma stops_submitUpload (self : SigridApiClient.t) (sourceDir : string)
    (excludes : list string) (useRepoHistory : bool) (prefix : string) :
  stops_at k code (submitUpload E self sourceDir excludes useRepoHistory prefix).
Proof.
  unfold submitUpload.
  apply stops_bind; [apply stops_quiet; auto with quiet |]. intros _.
  apply stops_bind; [apply stops_quiet; auto with quiet |]. intros _.
  apply stops_bind; [apply stops_quiet; auto with quiet |]. intros _.
  apply stops_bind; [apply stops_obtain_loop |]. intros uploadLocation.
  apply stops_bind; [apply stops_quiet; auto with quiet |]. intros uploadUrl.
  apply stops_bind; [apply stops_quiet; auto with quiet |]. intros analysisId.
  apply stops_bind; [apply stops_quiet; auto with quiet |]. intros _.
  apply stops_bind; [apply stops_quiet; auto with quiet |]. intros _.
  apply stops_bind; [apply stops_uploadBinaryFile |]. intros ok.
  apply stops_quiet. destruct (negb ok); auto with quiet.
Qed.

Lemma stops_submit_and_fetch (self : SigridApiClient.t) (sourceDir : string)
    (excludes : list string) (useRepoHistory : bool) (prefix : string) :
  stops_at k code
    (submit_and_fetch E self sourceDir excludes useRepoHistory prefix).
Proof.
  unfold submit_and_fetch. apply stops_bind; [apply stops_submitUpload |].
  intros analysisId. apply stops_fetch_loop.
Qed.

End Stops.

End StopFacts.

(* ===================================================================== *)
(** ** [SigridApiClient]: the properties *)
(* ===================================================================== *)

Module ClientSpec.
Import Py SigridApiClient Aux ClientFacts StopFacts.

(** *** The location request *)

(** A 502 is answered by a sleep and the next attempt. *)
Lemma obtain_loop_502 (E : env) (self : SigridApiClient.t) (n : nat) (t0 : trace) :
  urlopen E (ncalls t0) (location_request self) = Fails (HTTPError 502) ->
  obtain_loop E self (S n) t0
  = obtain_loop E self n
      (EvSleep 60 :: EvLog "Retrying" :: EvRequest (location_request self) :: t0).
Proof.
  intros H. unfold location_request in H.
  rewrite obtain_loop_step, callSigridAPI_run, H. reflexivity.
Qed.

Lemma obtain_loop_502s (E : env) (self : SigridApiClient.t) (k : nat) :
  forall (n : nat) (t0 : trace),
    (forall i, (i < k)%nat ->
               urlopen E (ncalls t0 + i) (location_request self)
               = Fails (HTTPError 502)) ->
    exists t1,
      obtain_loop E self (k + n) t0 = obtain_loop E self n t1
      /\ ncalls t1 = (ncalls t0 + k)%nat
      /\ sleeps t1 = (repeat 60%Z k ++ sleeps t0)%list.
Proof.
  induction k as [|k IH]; intros n t0 H.
  - exists t0. repeat split. now rewrite Nat.add_0_r.
  - assert (H0 : urlopen E (ncalls t0) (location_request self)
                 = Fails (HTTPError 502))
      by (rewrite <- (Nat.add_0_r (ncalls t0)); apply H; lia).
    set (t' := EvSleep 60 :: EvLog "Retrying"
                 :: EvRequest (location_request self) :: t0).
    assert (Hc : ncalls t' = S (ncalls t0)) by reflexivity.
    destruct (IH n t') as [t1 [Hrun [Hc1 Hs1]]].
    { intros i Hi. rewrite Hc.
      replace (S (ncalls t0) + i)%nat with (ncalls t0 + S i)%nat by lia.
      apply H. lia. }
    exists t1. split; [| split].
    + change (S k + n)%nat with (S (k + n)).
      rewrite (obtain_loop_502 E self (k + n) t0 H0). exact Hrun.
    + rewrite Hc1, Hc. lia.
    + rewrite Hs1. subst t'. cbn [sleeps].
      change (repeat 60%Z (S k)) with (60%Z :: repeat 60%Z k).
      rewrite repeat_cons, <- app_assoc. reflexivity.
Qed.

(** Five 502 answers end the run, after five requests and five sleeps. *)
Lemma obtainUploadLocation_exhausted (E : env) (self : SigridApiClient.t) (t0 : trace) :
  (forall i, (i < RETRY_ATTEMPTS)%nat ->
             urlopen E (ncalls t0 + i) (location_request self)
             = Fails (HTTPError 502)) ->
  exists t1,
    obtainUploadLocation E self t0 = (Exit 1, t1)
    /\ ncalls t1 = (ncalls t0 + 5)%nat
    /\ sleeps t1 = (repeat 60%Z 5 ++ sleeps t0)%list.
Proof.
  intros H. unfold obtainUploadLocation.
  destruct (obtain_loop_502s E self RETRY_ATTEMPTS 0 t0 H) as [t1 [Hrun [Hc Hs]]].
  rewrite Nat.add_0_r in Hrun. rewrite Hrun.
  eexists. split; [reflexivity |]. split; [exact Hc | exact Hs].
Qed.

(** A 404 is answered by the next attempt as well, and without a sleep:
    [processHttpError] only logs it and returns into the loop. *)
Lemma obtain_loop_404 (E : env) (self : SigridApiClient.t) (n : nat) (t0 : trace) :
  urlopen E (ncalls t0) (location_request self) = Fails (HTTPError 404) ->
  obtain_loop E self (S n) t0
  = obtain_loop E self n
      (EvLog "Analysis results not yet available"
         :: EvRequest (location_request self) :: t0).
Proof.
  intros H. unfold location_request in H.
  rewrite obtain_loop_step, callSigridAPI_run, H. reflexivity.
Qed.

(** C3, on the code: the location request that meets a 404 and then a 200
    makes a second attempt and returns its payload; two requests went out
    and the client did not sleep. *)
Theorem location_request_retries_after_404 :
  let E := Samples.base Samples.net_location_404 1000 in
  let req := location_request Samples.client in
  obtainUploadLocation E Samples.client []
  = (Ret Samples.location,
     [EvRequest req; EvLog "Analysis results not yet available"; EvRequest req]).
Proof. vm_compute. reflexivity. Qed.

(** *** Authorization failures *)

(** C4: an answer 401 or 403 ends the run at every stage.  In the location
    request and in polling the client exits with status 1; in the upload
    the [HTTPError] leaves [uploadBinaryFile] uncaught, which ends the
    interpreter with status 1 (an upload URL that names no type is
    refused before anything is sent, and so is never answered).  In the
    whole run, once call [k] is answered 401 or 403 no further call is
    made and the status is 1. *)
Theorem unauthorized_is_fatal (E : env) (self : SigridApiClient.t)
    (sourceDir : string) (excludes : list string) (useRepoHistory : bool)
    (prefix : string) (k : nat) (code : Z)
    (Hcode : code = 401%Z \/ code = 403%Z)
    (Hk : forall req, urlopen E k req = Fails (HTTPError code)) :
  let run := submit_and_fetch E self sourceDir excludes useRepoHistory prefix [] in
  ((k < ncalls (snd run))%nat ->
     ncalls (snd run) = S k
     /\ exit_status (fst run) = 1%Z
     /\ (fst run = Exit 1 \/ fst run = Raise (HTTPError code)))
  /\ (forall n t,
        urlopen E (ncalls t) (location_request self) = Fails (HTTPError code) ->
        obtain_loop E self (S n) t
        = (Exit 1,
           EvLog "You are not authorized to access Sigrid for this system"
             :: EvRequest (location_request self) :: t))
  /\ (forall url upload entries t,
        written upload t = Some entries ->
        urlopen E (ncalls t) (upload_request url upload (getsize E entries))
        = Fails (HTTPError code) ->
        uploadBinaryFile E (JStr url) upload t
        = if Urllib.accepts url then
            (Raise (HTTPError code),
             EvRequest (upload_request url upload (getsize E entries)) :: t)
          else (Raise ValueError, t))
  /\ (forall n analysisId t,
        urlopen E (ncalls t) (poll_request E self analysisId)
        = Fails (HTTPError code) ->
        fetch_loop E self analysisId (S n) t
        = (Exit 1,
           EvLog "You are not authorized to access Sigrid for this system"
             :: EvRequest (poll_request E self analysisId) :: t)).
Proof.
  intros run. split; [| split; [| split]].
  - intros Hlt.
    destruct (stops_submit_and_fetch E k code Hcode Hk self sourceDir excludes
                useRepoHistory prefix [] (Nat.le_0_l k)) as [Hle | [Heq Hr]].
    + fold run in Hle. lia.
    + fold run in Heq, Hr. split; [exact Heq |].
      split; [| exact Hr]. destruct Hr as [-> | ->]; reflexivity.
  - intros n t H. unfold location_request in *.
    rewrite obtain_loop_step, callSigridAPI_run, H. cbv beta iota zeta.
    rewrite (not_502 code Hcode).
    rewrite processHttpError_unauthorized by exact Hcode. reflexivity.
  - intros url upload entries t Hw H.
    unfold uploadBinaryFile. rewrite Hw. cbn [str].
    destruct (Urllib.accepts url); [| reflexivity].
    unfold bind, send. rewrite H. reflexivity.
  - intros n analysisId t H. unfold poll_request in *.
    rewrite fetch_loop_step, callSigridAPI_run, H. cbv beta iota zeta.
    rewrite processHttpError_unauthorized by exact Hcode. reflexivity.
Qed.

Lemma unauthorized_is_fatal_witness :
  let run := submit_and_fetch (Samples.base Samples.net_upload_403 1000)
               Samples.client "src" [] false "" [] in
  ncalls (snd run) = 2%nat
  /\ exit_status (fst run) = 1%Z
  /\ (fst run = Exit 1 \/ fst run = Raise (HTTPError 403)).
Proof.
  refine (proj1 (unauthorized_is_fatal (Samples.base Samples.net_upload_403 1000)
                   Samples.client "src" [] false "" 1 403 _ _) _).
  - right. reflexivity.
  - intros req. reflexivity.
  - vm_compute. lia.
Defined.

(** *** The size cap *)

(** C6, as stated, fails: an archive of 500 MB and one byte is larger than
    the cap of 500 MB, and [prepareUpload] returns normally. *)
Lemma archive_over_cap_is_accepted :
  let E := Samples.base Samples.net_never (500 * 1024 * 1024 + 1) in
  let self := SystemUploadPacker.init [] true "" in
  exceeds_cap
    (getsize E (SystemUploadPacker.archive_entries self "src" (tree_of E "src")
                  "upload.zip"))
    (SystemUploadPacker.MAX_UPLOAD_SIZE_MB self)
  /\ fst (SystemUploadPacker.prepareUpload E self "src" "upload.zip" []) = Ret tt.
Proof. split; vm_compute; reflexivity. Qed.

(** An archive that would be too large makes [prepareUpload] raise,
    whatever the trace it starts from. *)
Lemma prepareUpload_oversized (E : env) (self : SystemUploadPacker.t)
    (sourceDir outputFile : string) (t0 : trace) :
  (SystemUploadPacker.uploadSizeMB
     (getsize E (SystemUploadPacker.archive_entries self sourceDir
                   (tree_of E sourceDir) outputFile))
   > SystemUploadPacker.MAX_UPLOAD_SIZE_MB self)%Z ->
  exists e t1,
    SystemUploadPacker.prepareUpload E self sourceDir outputFile t0
    = (Raise e, t1)
    /\ filter is_request t1 = filter is_request t0
    /\ (storable E (SystemUploadPacker.archive_entries self sourceDir
                      (tree_of E sourceDir) outputFile) ->
        exists msg, e = Exception msg).
Proof.
  intros Hsize.
  destruct (snd (SystemUploadPacker.zip_writes E
                   (SystemUploadPacker.archive_entries self sourceDir
                      (tree_of E sourceDir) outputFile))) as [e |] eqn:Hw.
  - rewrite (PackerSpec.prepareUpload_failed E self sourceDir outputFile t0 e Hw).
    eexists. eexists. split; [reflexivity |]. split; [reflexivity |].
    intros Hs. rewrite (PackerSpec.zip_writes_stored E _ Hs) in Hw. discriminate.
  - pose proof (PackerSpec.prepareUpload_run E self sourceDir outputFile t0
                  (PackerSpec.zip_writes_done E _ Hw)) as Hrun.
    cbv zeta in Hrun. apply Z.gtb_gt in Hsize. rewrite Hsize in Hrun.
    rewrite Hrun. eexists. eexists. split; [reflexivity |].
    split; [reflexivity |]. intros _. eexists. reflexivity.
Qed.

(** C6, amended: when the size of the written archive, in bytes, divided
    by 1024 * 1024 and rounded to the nearest integer (ties to even, and at
    least 1), exceeds the cap, [prepareUpload] raises, and no request has
    gone out; [submitUpload], whose packer has the cap of 500, then raises
    before its first network call.  The exception is the one of the size
    test whenever [zipFile.write] stored every file. *)
Theorem oversized_archive_fails_before_network (E : env)
    (self : SystemUploadPacker.t) (sourceDir outputFile : string) (t0 : trace)
    (Hsize : (SystemUploadPacker.uploadSizeMB
                (getsize E (SystemUploadPacker.archive_entries self sourceDir
                              (tree_of E sourceDir) outputFile))
              > SystemUploadPacker.MAX_UPLOAD_SIZE_MB self)%Z) :
  (exists e t1,
     SystemUploadPacker.prepareUpload E self sourceDir outputFile t0
     = (Raise e, t1)
     /\ filter is_request t1 = filter is_request t0
     /\ (storable E (SystemUploadPacker.archive_entries self sourceDir
                       (tree_of E sourceDir) outputFile) ->
         exists msg, e = Exception msg))
  /\ (forall client excludes useRepoHistory prefix,
        self = SystemUploadPacker.init excludes useRepoHistory prefix ->
        outputFile = "sigrid-upload-" ++ timestamp E ++ ".zip" ->
        exists e t1,
          submitUpload E client sourceDir excludes useRepoHistory prefix t0
          = (Raise e, t1)
          /\ filter is_request t1 = filter is_request t0
          /\ (storable E (SystemUploadPacker.archive_entries self sourceDir
                            (tree_of E sourceDir) outputFile) ->
              exists msg, e = Exception msg)).
Proof.
  split; [exact (prepareUpload_oversized E self sourceDir outputFile t0 Hsize) |].
  intros client excludes useRepoHistory prefix Hself Hout.
  destruct (prepareUpload_oversized E self sourceDir outputFile
              (EvLog "Creating upload" :: t0) Hsize) as [e [t1 [Hrun [Hreq He]]]].
  exists e, t1. split; [| split; [exact Hreq | exact He]].
  subst self outputFile.
  unfold submitUpload. unfold bind at 1. unfold log at 1. unfold emit.
  unfold bind at 1. rewrite Hrun. reflexivity.
Qed.

Lemma oversized_archive_fails_before_network_witness :
  exists e t1,
    SystemUploadPacker.prepareUpload (Samples.base Samples.net_never 2000000)
      (SystemUploadPacker.mk 1 SystemUploadPacker.DEFAULT_EXCLUDES "")
      "src" "upload.zip" []
    = (Raise e, t1)
    /\ filter is_request t1 = filter is_request []
    /\ (storable (Samples.base Samples.net_never 2000000)
          (SystemUploadPacker.archive_entries
             (SystemUploadPacker.mk 1 SystemUploadPacker.DEFAULT_EXCLUDES "")
             "src" Samples.tree "upload.zip") ->
        exists msg, e = Exception msg).
Proof.
  refine (proj1 (oversized_archive_fails_before_network
                   (Samples.base Samples.net_never 2000000)
                   (SystemUploadPacker.mk 1 SystemUploadPacker.DEFAULT_EXCLUDES "")
                   "src" "upload.zip" [] _)).
  vm_compute. reflexivity.
Defined.

(** *** Request headers *)

(** C8, on the code: for the account [a] and the token [?] the standard
    Base64 text of [a:?] is [YTo/], and the request of [callSigridAPI]
    carries [Basic YTo_]: the code encodes with [urlsafe_b64encode], whose
    alphabet is not the one of HTTP Basic authentication. *)
Theorem authorization_is_not_standard_base64 :
  let self := SigridApiClient.mk "https://sigrid-says.com" "a" "?" "sig" "aap" "noot" in
  spec_authorization "a" "?" = "Basic YTo/"
  /\ req_headers (api_request self "analysis-results" "/x")
     = [ ("Accept", "application/json"); ("Authorization", "Basic YTo_") ]
  /\ ~ In ("Authorization", spec_authorization (account self) (token self))
          (req_headers (api_request self "analysis-results" "/x")).
Proof.
  split; [reflexivity |]. split; [reflexivity |].
  vm_compute. intros [H | [H | []]]; discriminate H.
Qed.

(** Every call of [callSigridAPI] sends exactly one request; it carries
    [Accept: application/json] and an [Authorization] header whose value
    is [Basic ] followed by the standard Base64 text of [account:token]
    with [+] written [-] and [/] written [_]. *)
Lemma callSigridAPI_headers (E : env) (self : SigridApiClient.t)
    (api path : string) (t0 : trace) :
  exists req,
    filter is_request (snd (callSigridAPI E self api path t0))
    = EvRequest req :: filter is_request t0
    /\ req_headers req
       = [ ("Accept", "application/json");
           ("Authorization",
            "Basic "
              ++ replace_char "/" "_"
                   (replace_char "+" "-"
                      (Base64.b64encode (account self ++ ":" ++ token self)))) ].
Proof.
  exists (api_request self api path). split; [| reflexivity].
  rewrite callSigridAPI_run. cbv zeta.
  destruct (urlopen E (ncalls t0) (api_request self api path))
    as [status body | status e | e]; [| | reflexivity].
  - destruct (status =? 204)%Z; [reflexivity |].
    destruct (String.length body =? 0)%nat; [reflexivity |].
    destruct (json_loads E body); reflexivity.
  - destruct (status =? 204)%Z; reflexivity.
Qed.

(** Where the standard text has neither [+] nor [/], the two encodings
    agree and the header is the one of the specification. *)
Lemma replace_char_absent (a b : ascii) (s : string) :
  contains (String a "") s = false -> replace_char a b s = s.
Proof.
  induction s as [|c s IH]; [reflexivity |].
  cbn [contains]. intros H. apply orb_false_iff in H. destruct H as [Hp Hr].
  simpl. rewrite (IH Hr). destruct (Ascii.eqb_spec c a) as [-> |]; [| reflexivity].
  simpl in Hp. destruct (ascii_dec a a); [| congruence]. now destruct s.
Qed.

Lemma authorization_standard_when_no_plus_slash (self : SigridApiClient.t)
    (api path : string) :
  let std := Base64.b64encode (account self ++ ":" ++ token self) in
  contains "+" std = false -> contains "/" std = false ->
  In ("Authorization", spec_authorization (account self) (token self))
     (req_headers (api_request self api path)).
Proof.
  intros std Hplus Hslash. right. left. unfold spec_authorization.
  unfold Base64.urlsafe_b64encode. fold std.
  rewrite (replace_char_absent "+" "-" std Hplus).
  rewrite (replace_char_absent "/" "_" std Hslash). reflexivity.
Qed.

End ClientSpec.

(* ===================================================================== *)
(** ** [Report] and [ExitCodeReport]: the properties *)
(* ===================================================================== *)

Module ReportSpec.
Import Py Aux.

(** *** The exit-code gate *)

(** [generate], by the MAINTAINABILITY entry of a feedback whose
    [newCodeRatings] is a dict. *)
Lemma generate_run (fields ratings : list (string * json)) (target : Q)
    (t0 : trace) :
  Json.assoc "newCodeRatings" fields = Some (JObj ratings) ->
  ExitCodeReport.generate (JObj fields) target t0
  = match Json.assoc "MAINTAINABILITY" ratings with
    | None | Some JNull =>
        (Ret tt,
         EvPrint (TextReport.ANSI_BOLD ++ TextReport.ANSI_GREEN
                    ++ ExitCodeReport.PASSED_MESSAGE ++ TextReport.ESC ++ "[0m")
           :: t0)
    | Some (JNum q) =>
        if Qle_bool target q then
          (Ret tt,
           EvPrint (TextReport.ANSI_BOLD ++ TextReport.ANSI_GREEN
                      ++ ExitCodeReport.PASSED_MESSAGE ++ TextReport.ESC ++ "[0m")
             :: t0)
        else
          (Exit 1,
           EvPrint (TextReport.ANSI_BOLD ++ TextReport.ANSI_YELLOW
                      ++ ExitCodeReport.FAILED_MESSAGE ++ TextReport.ESC ++ "[0m")
             :: t0)
    | Some (JBool b) =>
        if Qle_bool target (if b then 1%Q else 0%Q) then
          (Ret tt,
           EvPrint (TextReport.ANSI_BOLD ++ TextReport.ANSI_GREEN
                      ++ ExitCodeReport.PASSED_MESSAGE ++ TextReport.ESC ++ "[0m")
             :: t0)
        else
          (Exit 1,
           EvPrint (TextReport.ANSI_BOLD ++ TextReport.ANSI_YELLOW
                      ++ ExitCodeReport.FAILED_MESSAGE ++ TextReport.ESC ++ "[0m")
             :: t0)
    | Some JNegZero =>
        if Qle_bool target 0 then
          (Ret tt,
           EvPrint (TextReport.ANSI_BOLD ++ TextReport.ANSI_GREEN
                      ++ ExitCodeReport.PASSED_MESSAGE ++ TextReport.ESC ++ "[0m")
             :: t0)
        else
          (Exit 1,
           EvPrint (TextReport.ANSI_BOLD ++ TextReport.ANSI_YELLOW
                      ++ ExitCodeReport.FAILED_MESSAGE ++ TextReport.ESC ++ "[0m")
             :: t0)
    | Some _ => (Raise TypeError, t0)
    end.
Proof.
  intros Hr.
  unfold ExitCodeReport.generate, Report.isPassed, bind, lift, Json.getitem,
    Json.get. rewrite Hr.
  destruct (Json.assoc "MAINTAINABILITY" ratings) as [[| b | q | | s | l | o] |];
    cbn [Json.is_none Json.ge_num ret]; try reflexivity.
  - destruct (Qle_bool target (if b then 1%Q else 0%Q)); reflexivity.
  - destruct (Qle_bool target q); reflexivity.
  - destruct (Qle_bool target 0); reflexivity.
Qed.

(** C1: for a feedback whose [newCodeRatings] maps MAINTAINABILITY to a
    number, to null, or to nothing, [ExitCodeReport.generate] ends the
    process with a non-zero status exactly when the entry is a number
    strictly below the threshold, and the status is then 1; otherwise it
    returns, and the process ends with status 0.  So 3.6 against 3.5
    passes and 3.4 against 3.5 fails. *)
Theorem exit_code_gate (fields ratings : list (string * json)) (target : Q)
    (t0 : trace)
    (Hratings : Json.assoc "newCodeRatings" fields = Some (JObj ratings))
    (Hvalue : forall v, Json.assoc "MAINTAINABILITY" ratings = Some v ->
                        v = JNull \/ exists q, v = JNum q) :
  let run := ExitCodeReport.generate (JObj fields) target t0 in
  (exit_status (fst run) <> 0%Z <-> below_target ratings target)
  /\ (below_target ratings target -> fst run = Exit 1)
  /\ (~ below_target ratings target ->
      fst run = Ret tt /\ exit_status (fst run) = 0%Z)
  /\ fst (ExitCodeReport.generate (Samples.ratings (36 # 10)) (35 # 10) t0) = Ret tt
  /\ fst (ExitCodeReport.generate (Samples.ratings (34 # 10)) (35 # 10) t0) = Exit 1.
Proof.
  intros run.
  assert (Hcases : (below_target ratings target /\ fst run = Exit 1)
                   \/ (~ below_target ratings target /\ fst run = Ret tt)).
  { subst run. rewrite (generate_run fields ratings target t0 Hratings).
    unfold below_target.
    destruct (Json.assoc "MAINTAINABILITY" ratings) as [v |] eqn:Hm.
    - destruct (Hvalue v eq_refl) as [-> | [q ->]].
      + right. split; [| reflexivity]. intros [q [Hq _]]. discriminate.
      + destruct (Qle_bool target q) eqn:Hle.
        * right. split; [| reflexivity]. intros [q' [Hq' Hlt]].
          injection Hq' as <-. apply Qle_bool_iff in Hle.
          exact (Qlt_not_le _ _ Hlt Hle).
        * left. split; [| reflexivity]. exists q. split; [reflexivity |].
          apply Qnot_le_lt. intros Hle'. apply Qle_bool_iff in Hle'. congruence.
    - right. split; [| reflexivity]. intros [q [Hq _]]. discriminate. }
  split; [| split; [| split; [| split]]].
  - destruct Hcases as [[Hb ->] | [Hb ->]]; simpl; split.
    + intros _. exact Hb.
    + intros _. discriminate.
    + intros H. exfalso. apply H. reflexivity.
    + intros H. contradiction.
  - intros Hb. destruct Hcases as [[_ H] | [Hn _]]; [exact H | contradiction].
  - intros Hn. destruct Hcases as [[Hb _] | [_ ->]]; [contradiction |].
    split; reflexivity.
  - reflexivity.
  - reflexivity.
Qed.

Lemma exit_code_gate_witness :
  fst (ExitCodeReport.generate (Samples.ratings (34 # 10)) (35 # 10) []) = Exit 1.
Proof.
  refine (proj1 (proj2 (exit_code_gate
            [ ("newCodeRatings", JObj [ ("MAINTAINABILITY", JNum (34 # 10)) ]) ]
            [ ("MAINTAINABILITY", JNum (34 # 10)) ] (35 # 10) [] eq_refl _)) _).
  - intros v Hv. injection Hv as <-. right. exists (34 # 10)%Q. reflexivity.
  - exists (34 # 10)%Q. split; reflexivity.
Defined.

(** *** Refactoring candidates *)

Lemma relevant_filter (metric : string) (candidates : list json) (t0 : trace) :
  Forall candidate_ok candidates ->
  Report.relevant metric candidates t0
  = (Ret (filter (metric_is metric) candidates), t0).
Proof.
  induction 1 as [|rc rest [fields [v [-> Hv]]] Hrest IH]; [reflexivity |].
  cbn [Report.relevant]. unfold bind, lift, Json.getitem. rewrite Hv, IH.
  cbn [filter metric_is]. rewrite Hv. reflexivity.
Qed.

(** With the legacy map in the payload, the result is the current-form
    candidates of the metric, in their order, followed by the converted
    legacy entries of the metric. *)
Lemma candidates_merge (fields legacy : list (string * json))
    (current items : list json) (metric : string) (t0 : trace) :
  (Json.assoc "refactoringCandidates" fields = Some (JArr current)
   \/ (Json.assoc "refactoringCandidates" fields = None /\ current = [])) ->
  Forall candidate_ok current ->
  Json.assoc "refactoringCandidatesPerType" fields = Some (JObj legacy) ->
  (Json.assoc metric legacy = Some (JArr items)
   \/ (Json.assoc metric legacy = None /\ items = [])) ->
  Report.getRefactoringCandidates (JObj fields) metric t0
  = (Ret (filter (metric_is metric) current
            ++ map (Report.legacy_candidate metric) items)%list, t0).
Proof.
  intros Hcur Hok Hleg Hitems.
  unfold Report.getRefactoringCandidates, Json.get, Json.getitem.
  assert (Hc : match Json.assoc "refactoringCandidates" fields with
               | Some v => Ret v
               | None => Ret (JArr [])
               end = Ret (JArr current))
    by (destruct Hcur as [-> | [-> ->]]; reflexivity).
  assert (Hi : match Json.assoc metric legacy with
               | Some v => Ret v
               | None => Ret (JArr [])
               end = Ret (JArr items))
    by (destruct Hitems as [-> | [-> ->]]; reflexivity).
  rewrite Hc, Hleg. unfold bind at 1. unfold lift at 1.
  unfold bind at 1. unfold lift at 1. cbn [Json.iter].
  unfold bind at 1. rewrite (relevant_filter metric current t0 Hok).
  unfold bind, lift. rewrite Hi. reflexivity.
Qed.

(** The case of the test suite: one entry in each form for UNIT_SIZE. *)
Example candidates_both_forms :
  Report.getRefactoringCandidates Samples.feedback_both "UNIT_SIZE" []
  = (Ret [ JObj [ ("subject", JStr "a/b.java::Duif.vuur()");
                  ("category", JStr "introduced");
                  ("metric", JStr "UNIT_SIZE") ];
           JObj [ ("subject", JStr "aap");
                  ("category", JStr "introduced");
                  ("metric", JStr "UNIT_SIZE") ] ], [])
  /\ Report.getRefactoringCandidates Samples.feedback_both "UNIT_COMPLEXITY" []
     = (Ret [], []).
Proof. split; reflexivity. Qed.

(** C7, on the code: a feedback that gives its candidates in the current
    list-shaped form only makes [getRefactoringCandidates] raise
    [KeyError], where the one current-form candidate of the metric was to
    be returned. *)
Theorem candidates_current_form_only_raises :
  Report.getRefactoringCandidates Samples.feedback_current_only "UNIT_SIZE" []
  = (Raise (KeyError "refactoringCandidatesPerType"), [])
  /\ filter (metric_is "UNIT_SIZE")
       [ JObj [ ("subject", JStr "a/b.java::Duif.vuur()");
                ("category", JStr "introduced");
                ("metric", JStr "UNIT_SIZE") ] ]
     <> [].
Proof. split; [reflexivity | discriminate]. Qed.

End ReportSpec.

(* ===================================================================== *)
(** ** [SystemUploadPacker]: patterns and sizes *)
(* ===================================================================== *)

Module PackerExtra.
Import Py PyFacts SystemUploadPacker Aux AuxMore WalkFacts PackerFacts.

Lemma excludePatterns_init (excludes : list string) (useRepoHistory : bool)
    (prefix p : string) :
  In p (excludePatterns (init excludes useRepoHistory prefix))
  <-> active_pattern excludes useRepoHistory p.
Proof.
  unfold init, active_pattern. cbn [excludePatterns].
  rewrite !in_app_iff, filter_In, negb_true_iff, String.eqb_neq.
  destruct useRepoHistory; simpl; split; intros H.
  - destruct H as [H | [H | []]]; auto.
  - destruct H as [H | [H | [H _]]]; auto. discriminate.
  - destruct H as [H | [H | [<- | []]]]; auto.
  - destruct H as [H | [H | [_ ->]]]; auto.
Qed.

Lemma strip_ws_default (d : string) :
  In d DEFAULT_EXCLUDES -> strip_ws d = d.
Proof.
  intros H. repeat (destruct H as [<- | H]; [reflexivity |]). destruct H.
Qed.

(** Exclusion, by where the matching pattern comes from. *)
Lemma isExcluded_by_origin (excludes : list string)
    (useRepoHistory : bool) (prefix path : string) :
  isExcluded (init excludes useRepoHistory prefix) path = true
  <-> (exists d, In d DEFAULT_EXCLUDES /\ Substring d (normalize path))
      \/ (exists u, In u excludes /\ u <> ""
                    /\ Substring (strip_ws u) (normalize path))
      \/ (useRepoHistory = false /\ Substring ".git" (normalize path)).
Proof.
  rewrite isExcluded_iff. unfold matches_pattern. split.
  - intros [p [Hp Hsub]]. apply excludePatterns_init in Hp.
    destruct Hp as [Hd | [[Hu Hne] | [Hh ->]]].
    + left. exists p. rewrite (strip_ws_default p Hd) in Hsub. auto.
    + right. left. exists p. auto.
    + right. right. auto.
  - intros [[d [Hd Hsub]] | [[u [Hu [Hne Hsub]]] | [Hh Hsub]]].
    + exists d. split; [apply excludePatterns_init; left; exact Hd |].
      now rewrite (strip_ws_default d Hd).
    + exists u. split; [apply excludePatterns_init; right; left; auto | exact Hsub].
    + exists ".git". split; [apply excludePatterns_init; right; right; auto |].
      exact Hsub.
Qed.

(** X1: the patterns a packer applies are the ten default ones, whatever
    the caller supplies, the caller's patterns that are not empty, and
    [.git] exactly when the history is not wanted; a path is excluded
    exactly when one of them, trimmed, occurs in the normalised path. *)
Theorem isExcluded_characterisation (excludes : list string)
    (useRepoHistory : bool) (prefix path : string) :
  isExcluded (init excludes useRepoHistory prefix) path = true
  <-> (exists d, In d DEFAULT_EXCLUDES /\ Substring d (normalize path))
      \/ (exists u, In u excludes /\ u <> ""
                    /\ Substring (strip_ws u) (normalize path))
      \/ (useRepoHistory = false /\ Substring ".git" (normalize path)).
Proof. apply isExcluded_by_origin. Qed.

Lemma Substring_empty (s : string) : Substring "" s.
Proof. exists "", s. reflexivity. Qed.

(** X2: a caller's pattern that is not empty but holds only white space
    is kept by the constructor and trimmed to the empty string by the
    test, which every path contains: every file is excluded and the
    archive is written with no entries. *)
Theorem blank_pattern_excludes_everything (E : env) (excludes : list string)
    (useRepoHistory : bool) (prefix sourceDir outputFile u : string)
    (t0 : trace)
    (Hin : In u excludes) (Hne : u <> "") (Hblank : strip_ws u = "") :
  (forall path, isExcluded (init excludes useRepoHistory prefix) path = true)
  /\ written outputFile
       (snd (prepareUpload E (init excludes useRepoHistory prefix)
               sourceDir outputFile t0))
     = Some [].
Proof.
  assert (Hall : forall path,
             isExcluded (init excludes useRepoHistory prefix) path = true).
  { intros path. apply isExcluded_by_origin. right. left.
    exists u. rewrite Hblank. auto using Substring_empty. }
  split; [exact Hall |].
  rewrite PackerSpec.prepareUpload_written. f_equal.
  destruct (archive_entries _ sourceDir (tree_of E sourceDir) outputFile)
    as [|e l] eqn:He; [reflexivity |].
  assert (Hin' : In e (archive_entries (init excludes useRepoHistory prefix)
                         sourceDir (tree_of E sourceDir) outputFile))
    by (rewrite He; left; reflexivity).
  apply archive_entries_iff in Hin'.
  destruct Hin' as [f [_ [_ [Hex _]]]]. rewrite Hall in Hex. discriminate.
Qed.

Lemma blank_pattern_excludes_everything_witness :
  written "upload.zip"
    (snd (prepareUpload (Samples.base Samples.net_never 1000)
            (init ["docs/"; Samples.blank] true "") "src" "upload.zip" []))
  = Some [].
Proof.
  refine (proj2 (blank_pattern_excludes_everything
                   (Samples.base Samples.net_never 1000)
                   ["docs/"; Samples.blank] true ""
                   "src" "upload.zip" Samples.blank [] _ _ _)).
  - right. left. reflexivity.
  - discriminate.
  - reflexivity.
Defined.

(** White space beyond the ASCII range is trimmed as well, and a byte
    that only looks like a part of it is not. *)
Lemma strip_ws_unicode :
  strip_ws (Samples.blank ++ "docs/" ++ Samples.blank) = "docs/"
  /\ strip_ws (String (ascii_of_nat 160) "docs/") = String (ascii_of_nat 160) "docs/".
Proof. split; reflexivity. Qed.



End PackerExtra.

Module SizeExtra.
Import Py SystemUploadPacker Aux.

Lemma round_div_mb_gt (n cap : Z) :
  (0 <= n)%Z ->
  (round_div n (1024 * 1024) > cap)%Z
  <-> ((2 * n > (2 * cap + 1) * 1048576)%Z
       \/ ((2 * n = (2 * cap + 1) * 1048576)%Z /\ Z.odd cap = true)).
Proof.
  intros Hn. unfold round_div. change (1024 * 1024)%Z with 1048576%Z.
  pose proof (Z.div_mod n 1048576 ltac:(discriminate)) as Hdm.
  pose proof (Z.mod_pos_bound n 1048576 ltac:(reflexivity)) as Hr.
  set (q := (n / 1048576)%Z) in *. set (r := (n mod 1048576)%Z) in *.
  destruct (2 * r <? 1048576)%Z eqn:H1.
  - apply Z.ltb_lt in H1. lia.
  - apply Z.ltb_ge in H1. destruct (1048576 <? 2 * r)%Z eqn:H2.
    + apply Z.ltb_lt in H2. lia.
    + apply Z.ltb_ge in H2. rewrite <- (Z.negb_even cap).
      destruct (Z.even q) eqn:Hq.
      * split; [lia |]. intros [H | [H Hodd]]; [lia |].
        assert (q = cap) by lia. subst cap. rewrite Hq in Hodd. discriminate.
      * split.
        -- intros H. destruct (Z.eq_dec q cap) as [-> | Hne].
           ++ right. rewrite Hq. split; [lia | reflexivity].
           ++ left. lia.
        -- lia.
Qed.

(** Below [2^53] an integer is a float as it is. *)
Lemma float_of_int_exact (n : Z) :
  (0 <= n < 2 ^ 53)%Z -> float_of_int n = n.
Proof.
  intros [H0 H1]. unfold float_of_int.
  replace (Z.log2 n - 52 <=? 0)%Z with true; [reflexivity |].
  symmetry. apply Z.leb_le.
  destruct (Z.eq_dec n 0) as [-> | Hn]; [simpl; lia |].
  assert (Z.log2 n < 53)%Z by (apply Z.log2_lt_pow2; lia). lia.
Qed.

(** X4: the size test of [prepareUpload], in bytes, for an archive whose
    files were all stored and whose size is below [2^53] bytes (up to
    there the division loses nothing).  The size logged is never below
    1 MB.  For a cap of at least 1 the archive is refused exactly when
    twice its size exceeds [(2 * cap + 1)] MB, or equals it with [cap] odd
    (the tie is rounded to the even side); with the default cap of 500
    that is: exactly when it has more than 524,812,288 bytes. *)
Theorem upload_size_threshold (E : env) (self : t)
    (sourceDir outputFile : string) (t0 : trace)
    (Hcap : (1 <= MAX_UPLOAD_SIZE_MB self)%Z)
    (Hstored : storable E (archive_entries self sourceDir
                             (tree_of E sourceDir) outputFile))
    (Hsize : (0 <= getsize E (archive_entries self sourceDir
                                (tree_of E sourceDir) outputFile)
              < 2 ^ 53)%Z) :
  let bytes := getsize E (archive_entries self sourceDir (tree_of E sourceDir)
                            outputFile) in
  let cap := MAX_UPLOAD_SIZE_MB self in
  let raises :=
    exists msg, fst (prepareUpload E self sourceDir outputFile t0)
                = Raise (Exception msg) in
  (1 <= uploadSizeMB bytes)%Z
  /\ (raises
      <-> ((2 * bytes > (2 * cap + 1) * 1048576)%Z
           \/ ((2 * bytes = (2 * cap + 1) * 1048576)%Z /\ Z.odd cap = true)))
  /\ (~ raises -> fst (prepareUpload E self sourceDir outputFile t0) = Ret tt)
  /\ (cap = 500%Z -> (raises <-> (bytes > 524812288)%Z)).
Proof.
  intros bytes cap raises.
  assert (Hmax : (1 <= uploadSizeMB bytes)%Z) by (unfold uploadSizeMB; lia).
  assert (Hexact : uploadSizeMB bytes = Z.max (round_div bytes (1024 * 1024)) 1)
    by (unfold uploadSizeMB; now rewrite (float_of_int_exact bytes Hsize)).
  assert (Hiff : raises <-> (round_div bytes (1024 * 1024) > cap)%Z).
  { subst raises. rewrite (PackerSpec.prepareUpload_run E self _ _ t0 Hstored).
    fold bytes. fold cap. cbn [fst]. rewrite Hexact.
    destruct (Z.max (round_div bytes (1024 * 1024)) 1 >? cap)%Z eqn:Hgt.
    - apply Z.gtb_gt in Hgt. split; [lia | intros _; eauto].
    - rewrite Z.gtb_ltb in Hgt. apply Z.ltb_ge in Hgt.
      split; [intros [msg Hm]; discriminate | lia]. }
  split; [exact Hmax |]. split; [| split].
  - rewrite Hiff. apply round_div_mb_gt. lia.
  - intros Hno. rewrite (PackerSpec.prepareUpload_run E self _ _ t0 Hstored).
    cbn [fst]. fold bytes. fold cap.
    destruct (uploadSizeMB bytes >? cap)%Z eqn:Hgt; [| reflexivity].
    exfalso. apply Hno. apply Hiff. apply Z.gtb_gt in Hgt.
    rewrite Hexact in Hgt. lia.
  - intros H500. rewrite Hiff, (round_div_mb_gt bytes cap ltac:(lia)), H500.
    change (Z.odd 500) with false. lia.
Qed.

Lemma upload_size_threshold_witness :
  (exists msg,
     fst (prepareUpload (Samples.base Samples.net_never 524812289)
            (init [] true "") "src" "upload.zip" [])
     = Raise (Exception msg))
  <-> (524812289 > 524812288)%Z.
Proof.
  refine (proj2 (proj2 (proj2 (upload_size_threshold
            (Samples.base Samples.net_never 524812289) (init [] true "")
            "src" "upload.zip" [] _ _ _))) eq_refl).
  - simpl. lia.
  - intros call Hin. vm_compute in Hin.
    repeat (destruct Hin as [<- | Hin]; [reflexivity |]). destruct Hin.
  - simpl. lia.
Defined.

End SizeExtra.

(* ===================================================================== *)
(** ** [SigridApiClient]: the location request, the upload, fatal answers *)
(* ===================================================================== *)

Module ClientExtra.
Import Py PyText SigridApiClient Aux AuxMore ClientFacts.

Section Location.
Variable E : env.
Variable self : SigridApiClient.t.

(** An answer that [callSigridAPI] passes on ends the loop; the trace
    grows by the request, and by a log line for an empty body. *)
Lemma obtain_loop_answer (n : nat) (t0 : trace) (v : json) :
  Answer E (urlopen E (ncalls t0) (location_request self)) v ->
  exists t1,
    obtain_loop E self (S n) t0 = (Ret v, t1)
    /\ ncalls t1 = S (ncalls t0)
    /\ sleeps t1 = sleeps t0
    /\ (forall name, written name t1 = written name t0).
Proof.
  unfold location_request. intros H.
  rewrite obtain_loop_step, callSigridAPI_run. cbv zeta.
  destruct (urlopen E (ncalls t0)
              (api_request self "inboundresults" (uploads_path self)))
    as [status body | status e | e]; [| destruct H | destruct H].
  destruct H as [[-> ->] | [[Hs [-> ->]] | [Hs [Hb Hj]]]].
  - simpl. eexists. repeat split.
  - apply Z.eqb_neq in Hs. rewrite Hs. simpl. eexists. repeat split.
  - apply Z.eqb_neq in Hs. rewrite Hs.
    destruct body as [|c body]; [congruence |]. simpl String.length.
    cbn [Nat.eqb]. rewrite Hj. eexists. repeat split.
Qed.

(** X5: the location request under 502 answers.  After [k < 5] of them
    the next answer is returned as [callSigridAPI] gives it (the empty
    object for a 204 or an empty body: nothing is checked here), after
    [k + 1] requests and [k] sleeps of 60 seconds.  After five the client
    has slept five times, the last time after the last attempt, and exits
    with status 1. *)
Theorem location_retry_outcomes (t0 : trace) (k : nat)
    (H502 : forall i, (i < k)%nat ->
              urlopen E (ncalls t0 + i) (location_request self)
              = Fails (HTTPError 502)) :
  (forall v, (k < RETRY_ATTEMPTS)%nat ->
     Answer E (urlopen E (ncalls t0 + k) (location_request self)) v ->
     exists t1,
       obtainUploadLocation E self t0 = (Ret v, t1)
       /\ ncalls t1 = (ncalls t0 + k + 1)%nat
       /\ sleeps t1 = (repeat 60%Z k ++ sleeps t0)%list)
  /\ (k = RETRY_ATTEMPTS ->
      exists t1,
        obtainUploadLocation E self t0 = (Exit 1, t1)
        /\ ncalls t1 = (ncalls t0 + 5)%nat
        /\ sleeps t1 = (repeat 60%Z 5 ++ sleeps t0)%list).
Proof.
  split.
  - intros v Hk Hv. unfold obtainUploadLocation.
    replace RETRY_ATTEMPTS with (k + S (RETRY_ATTEMPTS - S k))%nat by lia.
    destruct (ClientSpec.obtain_loop_502s E self k (S (RETRY_ATTEMPTS - S k)) t0 H502)
      as [t1 [Hrun [Hc Hs]]].
    rewrite Hrun. rewrite <- Hc in Hv.
    destruct (obtain_loop_answer (RETRY_ATTEMPTS - S k) t1 v Hv)
      as [t2 [Hret [Hc2 [Hs2 _]]]].
    exists t2. split; [exact Hret |]. split; [lia | congruence].
  - intros ->. unfold obtainUploadLocation.
    destruct (ClientSpec.obtain_loop_502s E self RETRY_ATTEMPTS 0 t0 H502)
      as [t1 [Hrun [Hc Hs]]].
    rewrite Nat.add_0_r in Hrun. rewrite Hrun.
    eexists. split; [reflexivity |]. split; [exact Hc | exact Hs].
Qed.

(** X6: what ends the location request at once, after one request and
    without a sleep: a status of 500 or more other than 502 (exit with
    status 1), a status below 500 other than 401, 403 and 404 (an
    [Exception] that names the status), a body that does not parse (the
    [JSONDecodeError], which is caught while polling only), and a failure
    of the connection. *)
Theorem location_errors_not_retried (n : nat) (t0 : trace) (r : http_result)
    (Hr : urlopen E (ncalls t0) (location_request self) = r) :
  let sent := EvRequest (location_request self) :: t0 in
  (forall code, r = Fails (HTTPError code) -> server_failure code ->
     code <> 502%Z ->
     obtain_loop E self (S n) t0
     = (Exit 1,
        EvLog ("Sigrid is currently not available (HTTP status "
                 ++ format_d code ++ ")") :: sent))
  /\ (forall code, r = Fails (HTTPError code) -> unclassified code ->
      obtain_loop E self (S n) t0
      = (Raise (Exception ("Received HTTP status " ++ format_d code)), sent))
  /\ (forall status body, r = Response status body -> status <> 204%Z ->
      body <> "" -> json_loads E body = None ->
      obtain_loop E self (S n) t0 = (Raise JSONDecodeError, sent))
  /\ (r = Fails URLError -> obtain_loop E self (S n) t0 = (Raise URLError, sent)).
Proof.
  intros sent. subst sent. unfold location_request in *.
  rewrite obtain_loop_step, callSigridAPI_run, Hr. cbv zeta.
  split; [| split; [| split]].
  - intros code -> Hs H502. unfold server_failure in Hs.
    apply Z.eqb_neq in H502. rewrite H502. unfold processHttpError.
    replace ((code =? 401)%Z || (code =? 403)%Z) with false
      by (symmetry; apply orb_false_iff; split; apply Z.eqb_neq; lia).
    replace (code =? 404)%Z with false by (symmetry; apply Z.eqb_neq; lia).
    replace (500 <=? code)%Z with true by (symmetry; apply Z.leb_le; lia).
    reflexivity.
  - intros code -> [Hlt [H401 [H403 H404]]].
    replace (code =? 502)%Z with false by (symmetry; apply Z.eqb_neq; lia).
    unfold processHttpError.
    apply Z.eqb_neq in H401, H403, H404. rewrite H401, H403, H404.
    replace (500 <=? code)%Z with false by (symmetry; apply Z.leb_gt; lia).
    reflexivity.
  - intros status body -> Hs Hb Hj. apply Z.eqb_neq in Hs. rewrite Hs.
    destruct body as [|c body]; [congruence |]. simpl String.length.
    cbn [Nat.eqb]. rewrite Hj. reflexivity.
  - intros ->. reflexivity.
Qed.

(** X7: what ends the polling at once, after one request and without a
    sleep: any status of 500 or more, 502 included (exit with status 1),
    and any status below 500 other than 401, 403 and 404 (an [Exception]
    that names the status). *)
Theorem polling_fatal_statuses (analysisId : json) (n : nat) (t0 : trace)
    (code : Z)
    (Hr : urlopen E (ncalls t0) (poll_request E self analysisId)
          = Fails (HTTPError code)) :
  let sent := EvRequest (poll_request E self analysisId) :: t0 in
  (server_failure code ->
   fetch_loop E self analysisId (S n) t0
   = (Exit 1,
      EvLog ("Sigrid is currently not available (HTTP status "
               ++ format_d code ++ ")") :: sent))
  /\ (unclassified code ->
      fetch_loop E self analysisId (S n) t0
      = (Raise (Exception ("Received HTTP status " ++ format_d code)), sent)).
Proof.
  intros sent. subst sent. unfold poll_request in *.
  rewrite fetch_loop_step, callSigridAPI_run, Hr. cbv zeta.
  split.
  - intros Hs. unfold server_failure in Hs. unfold processHttpError.
    replace ((code =? 401)%Z || (code =? 403)%Z) with false
      by (symmetry; apply orb_false_iff; split; apply Z.eqb_neq; lia).
    replace (code =? 404)%Z with false by (symmetry; apply Z.eqb_neq; lia).
    replace (500 <=? code)%Z with true by (symmetry; apply Z.leb_le; lia).
    reflexivity.
  - intros [Hlt [H401 [H403 H404]]]. unfold processHttpError.
    apply Z.eqb_neq in H401, H403, H404. rewrite H401, H403, H404.
    replace (500 <=? code)%Z with false by (symmetry; apply Z.leb_gt; lia).
    reflexivity.
Qed.

End Location.

Lemma location_retry_outcomes_witness :
  exists t1,
    obtainUploadLocation
      (Samples.base (SamplesMore.net_of [Fails (HTTPError 502);
                                         Fails (HTTPError 502);
                                         Response 200 "location"]) 1000)
      Samples.client []
    = (Ret Samples.location, t1)
    /\ ncalls t1 = 3%nat /\ sleeps t1 = [60; 60]%Z.
Proof.
  refine (proj1 (location_retry_outcomes
            (Samples.base (SamplesMore.net_of [Fails (HTTPError 502);
                                               Fails (HTTPError 502);
                                               Response 200 "location"]) 1000)
            Samples.client [] 2 _) Samples.location _ _).
  - intros i Hi. destruct i as [|[|i]]; [reflexivity | reflexivity | lia].
  - unfold RETRY_ATTEMPTS. lia.
  - right. right. repeat split; discriminate.
Defined.

Lemma location_errors_not_retried_witness :
  obtain_loop (Samples.base (SamplesMore.net_of [Fails (HTTPError 503)]) 1000)
    Samples.client 5 []
  = (Exit 1,
     [EvLog "Sigrid is currently not available (HTTP status 503)";
      EvRequest (location_request Samples.client)]).
Proof.
  refine (proj1 (location_errors_not_retried
            (Samples.base (SamplesMore.net_of [Fails (HTTPError 503)]) 1000)
            Samples.client 4 [] (Fails (HTTPError 503)) eq_refl)
            503%Z eq_refl _ _).
  - unfold server_failure. lia.
  - discriminate.
Defined.

Lemma polling_fatal_statuses_witness :
  fetch_loop (Samples.base (SamplesMore.net_of [Fails (HTTPError 502)]) 1000)
    Samples.client (JStr "run-1") 30 []
  = (Exit 1,
     [EvLog "Sigrid is currently not available (HTTP status 502)";
      EvRequest (poll_request
                   (Samples.base (SamplesMore.net_of [Fails (HTTPError 502)]) 1000)
                   Samples.client (JStr "run-1"))]).
Proof.
  refine (proj1 (polling_fatal_statuses
            (Samples.base (SamplesMore.net_of [Fails (HTTPError 502)]) 1000)
            Samples.client (JStr "run-1") 29 [] 502%Z eq_refl) _).
  unfold server_failure. lia.
Defined.

End ClientExtra.

Module UploadExtra.
Import Py PyText SigridApiClient Aux AuxMore ClientFacts.

Section Submit.
Variable E : env.
Variable self : SigridApiClient.t.
Variable sourceDir : string.
Variable excludes : list string.
Variable useRepoHistory : bool.
Variable prefix : string.

(** [zipFile.write] stores every file, and the archive is within the
    cap. *)
Hypothesis Hstored :
  storable E (upload_entries E sourceDir excludes useRepoHistory prefix).

Hypothesis Hsize :
  (SystemUploadPacker.uploadSizeMB
     (getsize E (upload_entries E sourceDir excludes useRepoHistory prefix))
   <= 500)%Z.

(** [submitUpload] up to the answer of the location request. *)
Lemma submitUpload_after_location (t0 : trace) (v : json) :
  Answer E (urlopen E (ncalls t0) (location_request self)) v ->
  exists t1,
    submitUpload E self sourceDir excludes useRepoHistory prefix t0
    = (uploadUrl <- lift (Json.getitem v "uploadUrl") ;;
       analysisId <- lift (Json.getitem v "ciRunId") ;;
       log ("Sigrid CI analysis ID: " ++ str E analysisId) ;;
       log "Submitting upload" ;;
       ok <- uploadBinaryFile E uploadUrl (upload_name E) ;;
       if negb ok then raise (Exception "Uploading file failed")
       else ret analysisId) t1
    /\ ncalls t1 = S (ncalls t0)
    /\ written (upload_name E) t1
       = Some (upload_entries E sourceDir excludes useRepoHistory prefix).
Proof.
  intros Hv.
  unfold submitUpload. unfold bind at 1. unfold log at 1. unfold emit.
  unfold bind at 1. rewrite (PackerSpec.prepareUpload_run E _ _ _ _ Hstored).
  fold (upload_name E).
  fold (upload_entries E sourceDir excludes useRepoHistory prefix).
  replace (SystemUploadPacker.uploadSizeMB
             (getsize E (upload_entries E sourceDir excludes useRepoHistory prefix))
           >? SystemUploadPacker.MAX_UPLOAD_SIZE_MB
                (SystemUploadPacker.init excludes useRepoHistory prefix))%Z
    with false
    by (symmetry; rewrite Z.gtb_ltb; apply Z.ltb_ge; exact Hsize).
  unfold bind at 1. unfold log at 1. unfold emit. unfold bind at 1.
  unfold obtainUploadLocation, RETRY_ATTEMPTS.
  match goal with
  | |- context [obtain_loop E self 5 ?t] =>
      destruct (ClientExtra.obtain_loop_answer E self 4 t v Hv)
        as [t1 [Hret [Hc [_ Hw]]]]
  end.
  rewrite Hret. exists t1. split; [reflexivity |]. split; [exact Hc |].
  rewrite Hw. simpl. now rewrite String.eqb_refl.
Qed.

(** X8: a location answer without the keys [submitUpload] reads ends the
    submission with the [KeyError] (or [TypeError], when the answer is not
    a dict) of the subscript, after the one location request: nothing is
    uploaded.  A 204 or an empty body, which [callSigridAPI] turns into
    the empty object, ends it with [KeyError('uploadUrl')]. *)
Theorem submitUpload_needs_location_keys (t0 : trace) (v : json) (e : exn)
    (Hanswer : Answer E (urlopen E (ncalls t0) (location_request self)) v)
    (Hkey : Json.getitem v "uploadUrl" = Raise e
            \/ ((exists u, Json.getitem v "uploadUrl" = Ret u)
                /\ Json.getitem v "ciRunId" = Raise e)) :
  (exists t1,
     submitUpload E self sourceDir excludes useRepoHistory prefix t0
     = (Raise e, t1)
     /\ ncalls t1 = S (ncalls t0))
  /\ (v = JObj [] -> e = KeyError "uploadUrl").
Proof.
  split.
  - destruct (submitUpload_after_location t0 v Hanswer) as [t1 [Hrun [Hc _]]].
    exists t1. split; [| exact Hc]. rewrite Hrun. unfold bind, lift.
    destruct Hkey as [-> | [[u ->] ->]]; reflexivity.
  - intros ->. destruct Hkey as [H | [[u H] _]]; simpl in H; congruence.
Qed.

(** X9: with a location answer that gives a string [uploadUrl] and a
    [ciRunId].  When the string names no type, as [urllib.request.Request]
    reads it, the submission ends with [ValueError] and the location
    request is the only one made.  Otherwise the archive goes out in one
    PUT request whose Content-Length is the size [prepareUpload] measured;
    the analysis id is returned when the upload is answered 200, 201 or
    202, and any other answered status (a 204 as well) raises
    [Exception("Uploading file failed")]; two requests were made. *)
Theorem submitUpload_upload_status (t0 : trace) (v analysisId : json)
    (u : string)
    (Hanswer : Answer E (urlopen E (ncalls t0) (location_request self)) v)
    (Hurl : Json.getitem v "uploadUrl" = Ret (JStr u))
    (Hid : Json.getitem v "ciRunId" = Ret analysisId) :
  let put := upload_request u (upload_name E)
               (getsize E (upload_entries E sourceDir excludes
                             useRepoHistory prefix)) in
  (Urllib.accepts u = false ->
   exists t1,
     submitUpload E self sourceDir excludes useRepoHistory prefix t0
     = (Raise ValueError, t1)
     /\ ncalls t1 = S (ncalls t0))
  /\ (Urllib.accepts u = true ->
      forall status body,
        urlopen E (S (ncalls t0)) put = Response status body ->
        exists t1,
          submitUpload E self sourceDir excludes useRepoHistory prefix t0
          = (if upload_accepted status then Ret analysisId
             else Raise (Exception "Uploading file failed"),
             EvRequest put :: t1)
          /\ ncalls t1 = S (ncalls t0)
          /\ req_method put = "PUT" /\ req_url put = u
          /\ In ("Content-Length",
                 format_d (getsize E (upload_entries E sourceDir excludes
                                        useRepoHistory prefix)))
                (req_headers put)).
Proof.
  intros put.
  destruct (submitUpload_after_location t0 v Hanswer) as [t1 [Hrun [Hc Hw]]].
  assert (Hstep :
    submitUpload E self sourceDir excludes useRepoHistory prefix t0
    = (ok <- uploadBinaryFile E (JStr u) (upload_name E) ;;
       if negb ok then raise (Exception "Uploading file failed")
       else ret analysisId)
        (EvLog "Submitting upload"
           :: EvLog ("Sigrid CI analysis ID: " ++ str E analysisId) :: t1)).
  { rewrite Hrun. unfold bind at 1. unfold lift at 1. rewrite Hurl.
    unfold bind at 1. unfold lift at 1. rewrite Hid.
    unfold bind at 1. unfold log at 1. unfold emit.
    unfold bind at 1. unfold log at 1. unfold emit. reflexivity. }
  split.
  - intros Hno. eexists. split.
    + rewrite Hstep. unfold bind at 1. unfold uploadBinaryFile.
      cbn [written str]. rewrite Hw, Hno. reflexivity.
    + exact Hc.
  - intros Hyes status body Hput.
    exists (EvLog "Submitting upload"
              :: EvLog ("Sigrid CI analysis ID: " ++ str E analysisId) :: t1).
    split; [| split; [exact Hc |]].
    + rewrite Hstep. unfold bind at 1. unfold uploadBinaryFile.
      cbn [written str]. rewrite Hw, Hyes.
      unfold bind at 1. unfold send.
      change (ncalls (EvLog "Submitting upload"
                        :: EvLog ("Sigrid CI analysis ID: " ++ str E analysisId)
                        :: t1)) with (ncalls t1).
      fold put. rewrite Hc, Hput. cbn [fst ret]. fold (upload_accepted status).
      destruct (upload_accepted status); reflexivity.
    + split; [reflexivity |]. split; [reflexivity |]. right. left. reflexivity.
Qed.

End Submit.

Lemma submitUpload_needs_location_keys_witness :
  exists t1,
    submitUpload (Samples.base (SamplesMore.net_of [Response 204 ""]) 1000)
      Samples.client "src" [] false "" []
    = (Raise (KeyError "uploadUrl"), t1)
    /\ ncalls t1 = 1%nat.
Proof.
  refine (proj1 (submitUpload_needs_location_keys
            (Samples.base (SamplesMore.net_of [Response 204 ""]) 1000)
            Samples.client "src" [] false "" _ _ [] (JObj [])
            (KeyError "uploadUrl") _ _)).
  - intros call Hin. vm_compute in Hin.
    repeat (destruct Hin as [<- | Hin]; [reflexivity |]). destruct Hin.
  - vm_compute. discriminate.
  - left. split; reflexivity.
  - left. reflexivity.
Defined.

Lemma submitUpload_upload_status_witness :
  exists t1,
    submitUpload
      (Samples.base (SamplesMore.net_of [Response 200 "location";
                                         Response 204 ""]) 1000)
      Samples.client "src" [] false "" []
    = (Raise (Exception "Uploading file failed"),
       EvRequest (upload_request "https://upload.example/target"
                    "sigrid-upload-20240101-120000.zip" 1000) :: t1)
    /\ ncalls t1 = 1%nat.
Proof.
  assert (Hstored :
    storable (Samples.base (SamplesMore.net_of [Response 200 "location";
                                                Response 204 ""]) 1000)
      (upload_entries
         (Samples.base (SamplesMore.net_of [Response 200 "location";
                                            Response 204 ""]) 1000)
         "src" [] false "")).
  { intros call Hin. vm_compute in Hin.
    repeat (destruct Hin as [<- | Hin]; [reflexivity |]). destruct Hin. }
  destruct (proj2 (submitUpload_upload_status
              (Samples.base (SamplesMore.net_of [Response 200 "location";
                                                 Response 204 ""]) 1000)
              Samples.client "src" [] false "" Hstored
              ltac:(vm_compute; discriminate) [] Samples.location
              (JStr "run-1") "https://upload.example/target"
              ltac:(right; right; repeat split; discriminate)
              eq_refl eq_refl) eq_refl 204%Z "" eq_refl)
    as [t1 [Hrun [Hc _]]].
  exists t1. split; [exact Hrun | exact Hc].
Defined.

End UploadExtra.

Module HeaderExtra.
Import Py PyText SigridApiClient Aux AuxMore ClientFacts.




(** X27: on a base URL with its type in front (a lower-case letter
    first, and a colon before any [/] or [#]) every URL [callSigridAPI]
    builds names a type, whatever the api and the path:
    [urllib.request.Request] raises no [ValueError] for it, and the
    request is made. *)
Theorem api_request_accepted (self : SigridApiClient.t) (api path : string)
    (Htyped : Urllib.typed (baseURL self) = true) :
  Urllib.accepts (req_url (api_request self api path)) = true.
Proof.
  apply UrlFacts.typed_accepts. cbn [api_request req_url].
  now apply UrlFacts.typed_app.
Qed.

Lemma api_request_accepted_witness :
  Urllib.accepts "https://sigrid-says.com/rest/analysis-results/x" = true.
Proof.
  exact (api_request_accepted Samples.client "analysis-results" "/x" eq_refl).
Defined.

End HeaderExtra.

(* ===================================================================== *)
(** ** [Report]: the gate and the candidates, in general *)
(* ===================================================================== *)

Module ReportExtra.
Import Py PyText Aux AuxMore.

(** [isPassed] prints nothing and never exits: it returns or raises. *)
Lemma isPassed_pure (feedback : json) (metric : string) (target : Q)
    (t0 : trace) :
  (exists b, Report.isPassed feedback metric target t0 = (Ret b, t0))
  \/ (exists e, Report.isPassed feedback metric target t0 = (Raise e, t0)).
Proof.
  unfold Report.isPassed, bind, lift, Json.getitem, Json.get.
  destruct feedback as [| b | q | | s | l | fields]; try (right; eexists; reflexivity).
  destruct (Json.assoc "newCodeRatings" fields) as [ratings |];
    [| right; eexists; reflexivity].
  destruct ratings as [| b | q | | s | l | rs]; try (right; eexists; reflexivity).
  destruct (Json.assoc metric rs) as [[| b | q | | s | l | o] |]; simpl;
    try (left; eexists; reflexivity); right; eexists; reflexivity.
Qed.

(** X11: lowering the threshold never turns a pass into a failure: a
    metric that passes against [target] passes against every smaller
    threshold. *)
Theorem isPassed_monotone (feedback : json) (metric : string)
    (target lower : Q) (t0 : trace)
    (Hpass : Report.isPassed feedback metric target t0 = (Ret true, t0))
    (Hle : (lower <= target)%Q) :
  Report.isPassed feedback metric lower t0 = (Ret true, t0).
Proof.
  revert Hpass.
  unfold Report.isPassed, bind, lift, Json.getitem, Json.get.
  destruct feedback as [| b | q | | s | l | fields]; try discriminate.
  destruct (Json.assoc "newCodeRatings" fields) as [ratings |]; [| discriminate].
  destruct ratings as [| b | q | | s | l | rs]; try discriminate.
  destruct (Json.assoc metric rs) as [[| b | q | | s | l | o] |]; simpl;
    try discriminate; try reflexivity.
  - intros H. injection H as H. apply Qle_bool_iff in H.
    assert (Hl : Qle_bool lower (if b then 1%Q else 0%Q) = true)
      by (apply Qle_bool_iff; eapply Qle_trans; eassumption).
    now rewrite Hl.
  - intros H. injection H as H. apply Qle_bool_iff in H.
    assert (Hl : Qle_bool lower q = true)
      by (apply Qle_bool_iff; eapply Qle_trans; eassumption).
    now rewrite Hl.
  - intros H. injection H as H. apply Qle_bool_iff in H.
    assert (Hl : Qle_bool lower 0 = true)
      by (apply Qle_bool_iff; eapply Qle_trans; eassumption).
    now rewrite Hl.
Qed.

Lemma isPassed_monotone_witness :
  Report.isPassed (Samples.ratings (36 # 10)) "MAINTAINABILITY" (30 # 10) []
  = (Ret true, []).
Proof.
  apply (isPassed_monotone (Samples.ratings (36 # 10)) "MAINTAINABILITY"
           (35 # 10) (30 # 10) []).
  - reflexivity.
  - discriminate.
Defined.

(** X12: [ExitCodeReport.generate] has three outcomes and no other: it
    prints the green verdict and returns; it prints the yellow verdict and
    exits with status 1; or the feedback cannot be read and the exception
    leaves it with nothing printed.  It never exits with another status
    and never prints two lines. *)
Theorem generate_outcomes (feedback : json) (target : Q) (t0 : trace) :
  ExitCodeReport.generate feedback target t0
  = (Ret tt,
     EvPrint (TextReport.ANSI_BOLD ++ TextReport.ANSI_GREEN
                ++ ExitCodeReport.PASSED_MESSAGE ++ TextReport.ESC ++ "[0m")
       :: t0)
  \/ ExitCodeReport.generate feedback target t0
     = (Exit 1,
        EvPrint (TextReport.ANSI_BOLD ++ TextReport.ANSI_YELLOW
                   ++ ExitCodeReport.FAILED_MESSAGE ++ TextReport.ESC ++ "[0m")
          :: t0)
  \/ exists e, ExitCodeReport.generate feedback target t0 = (Raise e, t0).
Proof.
  destruct (isPassed_pure feedback "MAINTAINABILITY" target t0)
    as [[b H] | [e H]]; unfold ExitCodeReport.generate, bind; rewrite !H.
  - destruct b; [left | right; left]; reflexivity.
  - right. right. exists e. reflexivity.
Qed.

(** *** Candidates *)

Lemma relevant_pure (metric : string) (candidates : list json) (t0 : trace) :
  forall r t1, Report.relevant metric candidates t0 = (r, t1) -> t1 = t0.
Proof.
  induction candidates as [|rc rest IH]; intros r t1.
  - simpl. unfold ret. congruence.
  - cbn [Report.relevant]. unfold bind at 1. unfold lift.
    destruct (Json.getitem rc "metric") as [m | c | e]; [| congruence | congruence].
    unfold bind at 1.
    destruct (Report.relevant metric rest t0) as [[kept | c | e] t2] eqn:Hrest;
      pose proof (IH _ _ eq_refl) as ->; unfold ret; congruence.
Qed.

Lemma relevant_carry_metric (metric : string) (candidates : list json)
    (t0 : trace) :
  forall kept t1,
    Report.relevant metric candidates t0 = (Ret kept, t1) ->
    Forall (fun rc => metric_is metric rc = true) kept.
Proof.
  induction candidates as [|rc rest IH]; intros kept t1.
  - simpl. unfold ret. intros H. injection H as <- _. constructor.
  - cbn [Report.relevant]. unfold bind at 1. unfold lift.
    destruct (Json.getitem rc "metric") as [m | c | e] eqn:Hm;
      [| discriminate | discriminate].
    unfold bind at 1.
    destruct (Report.relevant metric rest t0) as [[kept' | c | e] t2] eqn:Hrest;
      [| discriminate | discriminate].
    unfold ret. intros H. injection H as <- _.
    specialize (IH kept' t2 eq_refl).
    destruct (Json.eq_str m metric) eqn:Heq; [| exact IH].
    constructor; [| exact IH].
    destruct rc as [| b | q | | s | l | fields]; try discriminate.
    unfold Json.getitem in Hm. unfold metric_is.
    destruct (Json.assoc "metric" fields); [| discriminate].
    injection Hm as ->. exact Heq.
Qed.

(** X13: whenever [getRefactoringCandidates] returns, every candidate of
    the result is a dict whose [metric] entry is the queried metric, be it
    a current-form candidate or a converted legacy entry; nothing was
    printed or requested. *)
Theorem candidates_carry_metric (feedback : json) (metric : string)
    (t0 t1 : trace) (result : list json)
    (Hret : Report.getRefactoringCandidates feedback metric t0
            = (Ret result, t1)) :
  t1 = t0 /\ Forall (fun rc => metric_is metric rc = true) result.
Proof.
  revert Hret. unfold Report.getRefactoringCandidates.
  unfold bind at 1. unfold lift at 1.
  destruct (Json.get feedback "refactoringCandidates" (JArr []))
    as [cands | c | e]; [| discriminate | discriminate].
  unfold bind at 1. unfold lift at 1.
  destruct (Json.iter cands) as [items | c | e]; [| discriminate | discriminate].
  unfold bind at 1.
  destruct (Report.relevant metric items t0) as [[kept | c | e] t2] eqn:Hrel;
    [| discriminate | discriminate].
  pose proof (relevant_pure _ _ _ _ _ Hrel) as ->.
  pose proof (relevant_carry_metric _ _ _ _ _ Hrel) as Hkept.
  unfold bind at 1. unfold lift at 1.
  destruct (Json.getitem feedback "refactoringCandidatesPerType")
    as [perType | c | e]; [| discriminate | discriminate].
  unfold bind at 1. unfold lift at 1.
  destruct (Json.get perType metric (JArr [])) as [legacy | c | e];
    [| discriminate | discriminate].
  unfold bind at 1. unfold lift at 1.
  destruct (Json.iter legacy) as [legacyItems | c | e];
    [| discriminate | discriminate].
  unfold ret. intros H. injection H as <- <-. split; [reflexivity |].
  apply Forall_app. split; [exact Hkept |].
  apply Forall_forall. intros rc Hin. apply in_map_iff in Hin.
  destruct Hin as [x [<- _]]. unfold Report.legacy_candidate, metric_is.
  simpl. apply String.eqb_refl.
Qed.

Lemma candidates_carry_metric_witness :
  Forall (fun rc => metric_is "UNIT_SIZE" rc = true)
    [ JObj [ ("subject", JStr "a/b.java::Duif.vuur()");
             ("category", JStr "introduced");
             ("metric", JStr "UNIT_SIZE") ];
      JObj [ ("subject", JStr "aap");
             ("category", JStr "introduced");
             ("metric", JStr "UNIT_SIZE") ] ].
Proof.
  apply (candidates_carry_metric Samples.feedback_both "UNIT_SIZE" [] []).
  reflexivity.
Defined.

(** X14: with the legacy map in the payload and current-form candidates
    that are dicts with a [metric] entry, the result is the current-form
    candidates of the queried metric in their order, followed by the
    legacy entries of the metric, each as
    [{subject, category: introduced, metric}]; a metric with no entry in
    either form gives the empty list. *)
Theorem candidates_with_legacy_map (fields legacy : list (string * json))
    (current items : list json) (metric : string) (t0 : trace)
    (Hcurrent : Json.assoc "refactoringCandidates" fields = Some (JArr current)
                \/ (Json.assoc "refactoringCandidates" fields = None
                    /\ current = []))
    (Hok : Forall candidate_ok current)
    (Hlegacy : Json.assoc "refactoringCandidatesPerType" fields
               = Some (JObj legacy))
    (Hitems : Json.assoc metric legacy = Some (JArr items)
              \/ (Json.assoc metric legacy = None /\ items = [])) :
  Report.getRefactoringCandidates (JObj fields) metric t0
  = (Ret (filter (metric_is metric) current
            ++ map (Report.legacy_candidate metric) items)%list, t0)
  /\ (filter (metric_is metric) current = [] -> items = [] ->
      Report.getRefactoringCandidates (JObj fields) metric t0 = (Ret [], t0)).
Proof.
  pose proof (ReportSpec.candidates_merge fields legacy current items metric t0
                Hcurrent Hok Hlegacy Hitems) as H.
  split; [exact H |]. intros Hf Hi. rewrite H, Hf, Hi. reflexivity.
Qed.

Lemma candidates_with_legacy_map_witness :
  Report.getRefactoringCandidates Samples.feedback_both "UNIT_COMPLEXITY" []
  = (Ret [], []).
Proof.
  refine (proj2 (candidates_with_legacy_map
            [ ("refactoringCandidates",
               JArr [ JObj [ ("subject", JStr "a/b.java::Duif.vuur()");
                             ("category", JStr "introduced");
                             ("metric", JStr "UNIT_SIZE") ] ]);
              ("refactoringCandidatesPerType",
               JObj [ ("UNIT_SIZE", JArr [ JStr "aap" ]) ]) ]
            [ ("UNIT_SIZE", JArr [ JStr "aap" ]) ]
            [ JObj [ ("subject", JStr "a/b.java::Duif.vuur()");
                     ("category", JStr "introduced");
                     ("metric", JStr "UNIT_SIZE") ] ]
            [] "UNIT_COMPLEXITY" [] _ _ _ _) eq_refl eq_refl).
  - left. reflexivity.
  - constructor; [| constructor]. eexists. eexists. split; reflexivity.
  - reflexivity.
  - right. split; reflexivity.
Defined.

Lemma relevant_lacking (metric : string) (candidates : list json) (t0 : trace) :
  Forall is_dict candidates -> Exists lacks_metric candidates ->
  Report.relevant metric candidates t0 = (Raise (KeyError "metric"), t0).
Proof.
  intros Hd. induction Hd as [|rc rest [fields ->] Hrest IH]; intros Hex.
  - inversion Hex.
  - cbn [Report.relevant]. unfold bind at 1. unfold lift, Json.getitem.
    destruct (Json.assoc "metric" fields) as [m |] eqn:Hm; [| reflexivity].
    inversion Hex as [x l [fields' [Heq Hnone]] | x l Hex']; subst.
    + injection Heq as <-. congruence.
    + unfold bind at 1. rewrite (IH Hex'). reflexivity.
Qed.

(** X15: one current-form candidate without a [metric] entry makes
    [getRefactoringCandidates] raise [KeyError('metric')] for every
    queried metric, also a metric none of the candidates has, and whether
    or not the legacy map is there. *)
Theorem candidate_without_metric_raises (fields : list (string * json))
    (current : list json) (metric : string) (t0 : trace)
    (Hcurrent : Json.assoc "refactoringCandidates" fields = Some (JArr current))
    (Hdicts : Forall is_dict current)
    (Hlacks : Exists lacks_metric current) :
  Report.getRefactoringCandidates (JObj fields) metric t0
  = (Raise (KeyError "metric"), t0).
Proof.
  unfold Report.getRefactoringCandidates, Json.get.
  rewrite Hcurrent. unfold bind at 1. unfold lift at 1.
  unfold bind at 1. unfold lift at 1. cbn [Json.iter].
  unfold bind at 1. rewrite (relevant_lacking metric current t0 Hdicts Hlacks).
  reflexivity.
Qed.

Lemma candidate_without_metric_raises_witness :
  Report.getRefactoringCandidates
    (JObj [ ("refactoringCandidates",
             JArr [ JObj [ ("subject", JStr "x"); ("category", JStr "introduced") ] ]);
            ("refactoringCandidatesPerType", JObj []) ])
    "DUPLICATION" []
  = (Raise (KeyError "metric"), []).
Proof.
  apply (candidate_without_metric_raises
           [ ("refactoringCandidates",
              JArr [ JObj [ ("subject", JStr "x"); ("category", JStr "introduced") ] ]);
             ("refactoringCandidatesPerType", JObj []) ]
           [ JObj [ ("subject", JStr "x"); ("category", JStr "introduced") ] ]
           "DUPLICATION" []).
  - reflexivity.
  - constructor; [eexists; reflexivity | constructor].
  - constructor. eexists. split; reflexivity.
Defined.

End ReportExtra.

(* ===================================================================== *)
(** ** Formatting: ratings, stars, colours *)
(* ===================================================================== *)

Module FormatExtra.
Import Py PyText Aux AuxMore.

Lemma round_div_near (n d : Z) :
  (0 <= n)%Z -> (0 < d)%Z ->
  (0 <= round_div n d)%Z /\ (2 * Z.abs (n - round_div n d * d) <= d)%Z.
Proof.
  intros Hn Hd. unfold round_div.
  pose proof (Z.div_mod n d ltac:(lia)) as Hdm.
  pose proof (Z.mod_pos_bound n d Hd) as Hr.
  pose proof (Z.div_pos n d Hn Hd) as Hq.
  set (q := (n / d)%Z) in *. set (r := (n mod d)%Z) in *.
  assert (Hq1 : (n - q * d = r)%Z) by lia.
  assert (Hq2 : (n - (q + 1) * d = r - d)%Z) by lia.
  destruct (2 * r <? d)%Z eqn:H1; [apply Z.ltb_lt in H1 | apply Z.ltb_ge in H1].
  - rewrite Hq1. lia.
  - destruct (d <? 2 * r)%Z eqn:H2; [apply Z.ltb_lt in H2 | apply Z.ltb_ge in H2].
    + rewrite Hq2. lia.
    + destruct (Z.even q); [rewrite Hq1 | rewrite Hq2]; lia.
Qed.

Lemma round_div_unit (m : Z) : round_div m 1 = m.
Proof.
  unfold round_div. rewrite Z.mod_1_r, Z.div_1_r. reflexivity.
Qed.

(** A number below [2^53] in magnitude is formatted as it is. *)
Lemma as_float_exact (q : Q) :
  (Z.abs (Qnum q) < 2 ^ 53 * Zpos (Qden q))%Z ->
  as_float q = Some q
  \/ exists n, as_float q = Some (inject_Z n)
               /\ Qnum q = (n * Zpos (Qden q))%Z.
Proof.
  intros Hb. unfold as_float.
  destruct (Zpos (Qden (Qred q)) =? 1)%Z eqn:Hden; [| left; reflexivity].
  right. apply Z.eqb_eq in Hden. exists (Qnum (Qred q)).
  pose proof (Qred_correct q) as Heq. unfold Qeq in Heq. rewrite Hden in Heq.
  set (n := Qnum (Qred q)) in *.
  assert (Hq : Qnum q = (n * Zpos (Qden q))%Z) by lia.
  assert (Hn : (Z.abs n < 2 ^ 53)%Z).
  { rewrite Hq, Z.abs_mul in Hb.
    rewrite (Z.abs_eq (Zpos (Qden q))) in Hb by lia.
    apply (Z.mul_lt_mono_pos_r (Zpos (Qden q))); lia. }
  rewrite (SizeExtra.float_of_int_exact (Z.abs n)) by lia.
  replace (2 ^ 1024 <=? Z.abs n)%Z with false.
  - split; [| exact Hq]. f_equal. f_equal. lia.
  - symmetry. apply Z.leb_gt.
    apply Z.lt_trans with (2 ^ 53)%Z; [exact Hn |].
    apply Z.pow_lt_mono_r; lia.
Qed.

(** The text of a numeric rating. *)
Lemma formatRating_number (fields : list (string * json)) (metric : string)
    (q : Q) (t0 : trace) :
  Json.assoc metric fields = Some (JNum q) ->
  (Z.abs (Qnum q) < 2 ^ 53 * Zpos (Qden q))%Z ->
  exists whole digit,
    ReportFormat.formatRating (JObj fields) metric t0
    = (Ret ((if (Qnum q <? 0)%Z then "-" else "")
              ++ format_d whole ++ "." ++ format_d digit), t0)
    /\ (0 <= whole)%Z /\ (0 <= digit <= 9)%Z
    /\ (2 * Z.abs (Z.abs (Qnum q) * 10
                   - (10 * whole + digit) * Zpos (Qden q))
        <= Zpos (Qden q))%Z.
Proof.
  unfold ReportFormat.formatRating, bind, lift, Json.get, Json.getitem.
  intros -> Hb. cbn [Json.is_none ReportFormat.percent_1f].
  destruct (as_float_exact q Hb) as [-> | [n [-> Hq]]].
  - exists (tenths q / 10)%Z, (tenths q mod 10)%Z.
    split; [reflexivity |].
    destruct (round_div_near (Z.abs (Qnum q) * 10) (Zpos (Qden q)))
      as [H0 Hnear]; [lia | lia |].
    fold (tenths q) in H0, Hnear.
    pose proof (Z.div_mod (tenths q) 10 ltac:(discriminate)) as Hdm.
    pose proof (Z.mod_pos_bound (tenths q) 10 ltac:(reflexivity)) as Hm.
    split; [apply Z.div_pos; lia |]. split; [lia |].
    replace (10 * (tenths q / 10) + tenths q mod 10)%Z with (tenths q) by lia.
    exact Hnear.
  - exists (Z.abs n), 0%Z. split; [| split; [lia | split; [lia |]]].
    + unfold format_1f, tenths. cbn [Qnum Qden inject_Z].
      rewrite round_div_unit, Z.div_mul, Z_mod_mult by discriminate.
      replace (Qnum q <? 0)%Z with (n <? 0)%Z; [reflexivity |].
      rewrite Hq. destruct (n <? 0)%Z eqn:Hn; symmetry.
      * apply Z.ltb_lt in Hn. apply Z.ltb_lt. nia.
      * apply Z.ltb_ge in Hn. apply Z.ltb_ge. nia.
    + rewrite Hq, Z.abs_mul, (Z.abs_eq (Zpos (Qden q))) by lia.
      replace (Z.abs n * Zpos (Qden q) * 10
               - (10 * Z.abs n + 0) * Zpos (Qden q))%Z with 0%Z by ring.
      simpl. lia.
Qed.

(** A whole number of [2^1024] or more is no float. *)
Lemma float_of_int_large (n : Z) :
  (2 ^ 1024 <= n)%Z -> (2 ^ 1024 <= float_of_int n)%Z.
Proof.
  intros Hn. unfold float_of_int.
  assert (Hpos : (0 < n)%Z)
    by (apply Z.lt_le_trans with (2 ^ 1024)%Z; [reflexivity | exact Hn]).
  destruct (Z.log2_spec n Hpos) as [Hlo Hhi].
  assert (Hlog : (1024 <= Z.log2 n)%Z).
  { apply Z.log2_le_pow2; [exact Hpos | exact Hn]. }
  replace (Z.log2 n - 52 <=? 0)%Z with false by (symmetry; apply Z.leb_gt; lia).
  set (d := (Z.log2 n - 52)%Z).
  assert (Hd : (0 < 2 ^ d)%Z) by (apply Z.pow_pos_nonneg; lia).
  assert (Hsplit : (2 ^ Z.log2 n = 2 ^ 52 * 2 ^ d)%Z).
  { rewrite <- Z.pow_add_r by (subst d; lia). f_equal. subst d. lia. }
  assert (Hq : (2 ^ 52 <= n / 2 ^ d)%Z).
  { apply Z.div_le_lower_bound; [exact Hd |]. rewrite Z.mul_comm, <- Hsplit.
    exact Hlo. }
  assert (Hr : (n / 2 ^ d <= round_div n (2 ^ d))%Z).
  { unfold round_div. destruct (2 * (n mod 2 ^ d) <? 2 ^ d)%Z; [lia |].
    destruct (2 ^ d <? 2 * (n mod 2 ^ d))%Z; [lia |].
    destruct (Z.even (n / 2 ^ d)); lia. }
  apply Z.le_trans with (2 ^ Z.log2 n)%Z.
  - apply Z.pow_le_mono_r; lia.
  - rewrite Hsplit. apply Z.mul_le_mono_nonneg_r; lia.
Qed.

(** X16: [formatRating] gives [N/A] for a metric that is absent or null.
    For a number below [2^53] in magnitude, as every rating is, it gives
    an optional sign, an integer part, a point and exactly one digit, and
    the tenths written are the nearest to the rating (at most half a
    tenth away); the float [-0.0] gives [-0.0]; a whole number of
    [2^1024] or more, which is no float, raises [OverflowError]; a
    string, list or dict raises [TypeError]. *)
Theorem formatRating_text (fields : list (string * json)) (metric : string)
    (t0 : trace) :
  ((Json.assoc metric fields = None \/ Json.assoc metric fields = Some JNull) ->
   ReportFormat.formatRating (JObj fields) metric t0 = (Ret "N/A", t0))
  /\ (forall q, Json.assoc metric fields = Some (JNum q) ->
      (Z.abs (Qnum q) < 2 ^ 53 * Zpos (Qden q))%Z ->
      exists whole digit,
        ReportFormat.formatRating (JObj fields) metric t0
        = (Ret ((if (Qnum q <? 0)%Z then "-" else "")
                  ++ format_d whole ++ "." ++ format_d digit), t0)
        /\ (0 <= whole)%Z /\ (0 <= digit <= 9)%Z
        /\ (2 * Z.abs (Z.abs (Qnum q) * 10
                       - (10 * whole + digit) * Zpos (Qden q))
            <= Zpos (Qden q))%Z)
  /\ (Json.assoc metric fields = Some JNegZero ->
      ReportFormat.formatRating (JObj fields) metric t0 = (Ret "-0.0", t0))
  /\ (forall n, Json.assoc metric fields = Some (JNum (inject_Z n)) ->
      (2 ^ 1024 <= Z.abs n)%Z ->
      ReportFormat.formatRating (JObj fields) metric t0
      = (Raise OverflowError, t0))
  /\ (forall v, Json.assoc metric fields = Some v ->
      (exists s, v = JStr s) \/ (exists l, v = JArr l) \/ (exists o, v = JObj o) ->
      ReportFormat.formatRating (JObj fields) metric t0 = (Raise TypeError, t0)).
Proof.
  split; [| split; [| split; [| split]]].
  - unfold ReportFormat.formatRating, bind, lift, Json.get, Json.getitem.
    intros [-> | ->]; reflexivity.
  - intros q Hq Hb. exact (formatRating_number fields metric q t0 Hq Hb).
  - unfold ReportFormat.formatRating, bind, lift, Json.get, Json.getitem.
    intros ->. reflexivity.
  - unfold ReportFormat.formatRating, bind, lift, Json.get, Json.getitem.
    intros n -> Hn. cbn [Json.is_none ReportFormat.percent_1f].
    unfold as_float. rewrite Qcanon.Qred_identity by (simpl; apply Z.gcd_1_r).
    cbn [Qnum Qden inject_Z]. rewrite Z.eqb_refl.
    pose proof (float_of_int_large (Z.abs n) Hn) as Hl.
    apply Z.leb_le in Hl. now rewrite Hl.
  - unfold ReportFormat.formatRating, bind, lift, Json.get, Json.getitem.
    intros v -> [[s ->] | [[l ->] | [o ->]]]; reflexivity.
Qed.

Lemma formatRating_text_witness :
  exists whole digit,
    ReportFormat.formatRating (JObj [ ("VOLUME", JNum (3 # 1)) ]) "VOLUME" []
    = (Ret ("" ++ format_d whole ++ "." ++ format_d digit), [])
    /\ (0 <= whole)%Z /\ (0 <= digit <= 9)%Z
    /\ (2 * Z.abs (3 * 10 - (10 * whole + digit) * 1) <= 1)%Z.
Proof.
  exact (proj1 (proj2 (formatRating_text [ ("VOLUME", JNum (3 # 1)) ] "VOLUME" []))
           (3 # 1)%Q eq_refl eq_refl).
Defined.

Lemma round_div_five (n d : Z) :
  (0 <= n)%Z -> (0 < d)%Z -> (5 <= round_div n d)%Z <-> (9 * d < 2 * n)%Z.
Proof.
  intros Hn Hd. unfold round_div.
  pose proof (Z.div_mod n d ltac:(lia)) as Hdm.
  pose proof (Z.mod_pos_bound n d Hd) as Hr.
  pose proof (Z.div_pos n d Hn Hd) as Hq.
  set (q := (n / d)%Z) in *. set (r := (n mod d)%Z) in *.
  assert (Hparity : Z.even q = false -> q <> 4%Z)
    by (intros He ->; discriminate).
  destruct (2 * r <? d)%Z eqn:H1; [apply Z.ltb_lt in H1 | apply Z.ltb_ge in H1].
  - split; nia.
  - destruct (d <? 2 * r)%Z eqn:H2; [apply Z.ltb_lt in H2 | apply Z.ltb_ge in H2].
    + split; nia.
    + destruct (Z.even q) eqn:He.
      * split; nia.
      * specialize (Hparity eq_refl). split; nia.
Qed.

Lemma round_div_one (n d : Z) :
  (0 <= n)%Z -> (0 < d)%Z -> (d < 2 * n)%Z -> (1 <= round_div n d)%Z.
Proof.
  intros Hn Hd Hlt. unfold round_div.
  pose proof (Z.div_mod n d ltac:(lia)) as Hdm.
  pose proof (Z.mod_pos_bound n d Hd) as Hr.
  pose proof (Z.div_pos n d Hn Hd) as Hq.
  set (q := (n / d)%Z) in *. set (r := (n mod d)%Z) in *.
  destruct (2 * r <? d)%Z eqn:H1; [apply Z.ltb_lt in H1 | apply Z.ltb_ge in H1].
  - nia.
  - destruct (d <? 2 * r)%Z eqn:H2; [lia |]. apply Z.ltb_ge in H2.
    destruct (Z.even q); [nia | lia].
Qed.

(** X17: the stars of a numeric rating below [2^53] in magnitude, as
    every rating is.  The class carries the star
    count, which is the rounded rating and at most 5; the full glyphs are
    followed by the empty ones and by the rating as [formatRating] writes
    it.  A rating that is not negative gets five glyphs in all; five full
    ones exactly when it is above 4.5; a rating below -0.5 gets no full
    glyph and six or more empty ones. *)
Theorem formatHtmlStars_glyphs (fields : list (string * json))
    (metric : string) (q : Q) (t0 : trace)
    (Hq : Json.assoc metric fields = Some (JNum q))
    (Hbound : (Z.abs (Qnum q) < 2 ^ 53 * Zpos (Qden q))%Z) :
  exists stars text,
    StaticHtmlReport.formatHtmlStars (JObj fields) metric t0
    = (Ret ("<strong class=" ++ String DQUOTE "stars" ++ format_d stars
              ++ String DQUOTE ">"
              ++ repeat_string (Z.to_nat stars) StaticHtmlReport.HTML_STAR_FULL
              ++ repeat_string (Z.to_nat (5 - stars))
                   StaticHtmlReport.HTML_STAR_EMPTY
              ++ "</strong> &nbsp; " ++ text), t0)
    /\ ReportFormat.formatRating (JObj fields) metric t0 = (Ret text, t0)
    /\ (stars <= 5)%Z
    /\ ((0 <= Qnum q)%Z ->
        (0 <= stars)%Z /\ (Z.to_nat stars + Z.to_nat (5 - stars) = 5)%nat)
    /\ (stars = 5%Z <-> (9 * Zpos (Qden q) < 2 * Qnum q)%Z)
    /\ ((2 * Qnum q < - Zpos (Qden q))%Z ->
        Z.to_nat stars = 0%nat /\ (6 <= Z.to_nat (5 - stars))%nat).
Proof.
  destruct (formatRating_number fields metric q t0 Hq Hbound)
    as [whole [digit [Htext _]]].
  exists (Z.min (round q) 5). eexists.
  split; [| split; [exact Htext |]].
  - unfold StaticHtmlReport.formatHtmlStars. unfold bind at 1.
    unfold lift at 1. unfold Json.get. rewrite Hq. cbn [Json.is_none].
    unfold bind at 1. unfold lift at 1. unfold Json.getitem. rewrite Hq.
    unfold bind at 1. unfold lift at 1. cbn [StaticHtmlReport.round_num].
    unfold bind at 1. rewrite Htext. reflexivity.
  - assert (Hpos : (0 <= Qnum q)%Z -> (0 <= round q)%Z).
    { intros H. unfold round. apply Z.leb_le in H. rewrite H.
      apply Z.leb_le in H. apply round_div_near; lia. }
    split; [lia |]. split; [| split].
    + intros H. specialize (Hpos H). lia.
    + unfold round. destruct (0 <=? Qnum q)%Z eqn:H0.
      * apply Z.leb_le in H0.
        pose proof (round_div_five (Qnum q) (Zpos (Qden q)) H0 ltac:(lia)).
        lia.
      * apply Z.leb_gt in H0.
        destruct (round_div_near (- Qnum q) (Zpos (Qden q))) as [H _]; lia.
    + intros H. unfold round.
      replace (0 <=? Qnum q)%Z with false by (symmetry; apply Z.leb_gt; lia).
      pose proof (round_div_one (- Qnum q) (Zpos (Qden q))
                    ltac:(lia) ltac:(lia) ltac:(lia)).
      lia.
Qed.

Lemma formatHtmlStars_glyphs_witness :
  exists stars text,
    StaticHtmlReport.formatHtmlStars (JObj [ ("VOLUME", JNum (26 # 10)) ])
      "VOLUME" []
    = (Ret ("<strong class=" ++ String DQUOTE "stars" ++ format_d stars
              ++ String DQUOTE ">"
              ++ repeat_string (Z.to_nat stars) StaticHtmlReport.HTML_STAR_FULL
              ++ repeat_string (Z.to_nat (5 - stars))
                   StaticHtmlReport.HTML_STAR_EMPTY
              ++ "</strong> &nbsp; " ++ text), [])
    /\ (Z.to_nat stars + Z.to_nat (5 - stars) = 5)%nat.
Proof.
  destruct (formatHtmlStars_glyphs [ ("VOLUME", JNum (26 # 10)) ] "VOLUME"
              (26 # 10) [] eq_refl eq_refl)
    as [stars [text [Hrun [_ [_ [Hfive _]]]]]].
  exists stars, text. split; [exact Hrun |].
  apply Hfive. discriminate.
Defined.

Lemma Qle_bool_trans_true (a b q : Q) :
  (a <= b)%Q -> Qle_bool b q = true -> Qle_bool a q = true.
Proof.
  intros Hab H. apply Qle_bool_iff in H. apply Qle_bool_iff.
  eapply Qle_trans; eassumption.
Qed.

(** X18: the colour of a rating line.  A missing rating is printed in
    blue; a number of 3.5 or more in green, from 2.5 up to 3.5 in yellow,
    from 0 up to 2.5 in red; a negative number gets no colour code at
    all.  Never two codes. *)
Theorem printRatingColor_codes (message : string) (q : Q) (t0 : trace) :
  TextReportFormat.printRatingColor message JNull t0
  = (Ret tt,
     EvPrint (TextReportFormat.ANSI_BLUE ++ message ++ TextReport.ESC ++ "[0m")
       :: t0)
  /\ exists code,
       TextReportFormat.printRatingColor message (JNum q) t0
       = (Ret tt, EvPrint (code ++ message ++ TextReport.ESC ++ "[0m") :: t0)
       /\ ((35 # 10 <= q)%Q -> code = TextReport.ANSI_GREEN)
       /\ ((25 # 10 <= q)%Q -> (q < 35 # 10)%Q -> code = TextReport.ANSI_YELLOW)
       /\ ((0 <= q)%Q -> (q < 25 # 10)%Q -> code = TextReportFormat.ANSI_RED)
       /\ ((q < 0)%Q -> code = "").
Proof.
  split; [reflexivity |].
  unfold TextReportFormat.printRatingColor, TextReportFormat.within,
    TextReportFormat.at_least, TextReport.printColor, print, emit, bind, lift,
    ret.
  cbn [Json.is_none Json.ge_num TextReportFormat.lt_num].
  destruct (Qle_bool (35 # 10) q) eqn:H35.
  - rewrite (Qle_bool_trans_true (25 # 10) (35 # 10) q ltac:(discriminate) H35).
    rewrite (Qle_bool_trans_true 0 (35 # 10) q ltac:(discriminate) H35).
    cbn [negb]. eexists. split; [reflexivity |].
    apply Qle_bool_iff in H35.
    repeat split; intros; try reflexivity; exfalso.
    + eapply Qlt_not_le; eassumption.
    + apply (Qlt_not_le q (25 # 10)); [assumption |].
      eapply Qle_trans; [| exact H35]. discriminate.
    + apply (Qlt_not_le q 0); [assumption |].
      eapply Qle_trans; [| exact H35]. discriminate.
  - destruct (Qle_bool (25 # 10) q) eqn:H25.
    + rewrite (Qle_bool_trans_true 0 (25 # 10) q ltac:(discriminate) H25).
      cbn [negb]. eexists. split; [reflexivity |].
      apply Qle_bool_iff in H25.
      repeat split; intros; try reflexivity; exfalso.
      * apply Qle_bool_iff in H. congruence.
      * eapply Qlt_not_le; eassumption.
      * apply (Qlt_not_le q 0); [assumption |].
        eapply Qle_trans; [| exact H25]. discriminate.
    + destruct (Qle_bool 0 q) eqn:H0; cbn [negb]; eexists;
        (split; [reflexivity |]);
        repeat split; intros; try reflexivity; exfalso.
      * apply Qle_bool_iff in H. congruence.
      * apply Qle_bool_iff in H. congruence.
      * apply Qle_bool_iff in H0. eapply Qlt_not_le; eassumption.
      * apply Qle_bool_iff in H. congruence.
      * apply Qle_bool_iff in H. congruence.
      * apply Qle_bool_iff in H. congruence.
Qed.

End FormatExtra.

(* ===================================================================== *)
(** ** Formatting: refactoring candidates *)
(* ===================================================================== *)

Module CandidateExtra.
Import Py PyText Aux AuxMore TextFacts.

Lemma len_app (a b : string) : len (a ++ b) = (len a + len b)%nat.
Proof.
  induction a as [|c a IH]; [reflexivity |]. cbn [append len].
  destruct (continues c); now rewrite IH.
Qed.

Lemma len_repeat_space (n : nat) : len (repeat_string n " ") = n.
Proof. induction n as [|n IH]; [reflexivity |]. simpl. now rewrite IH. Qed.

Lemma len_ljust (width : nat) (s : string) :
  len (ljust width s) = Nat.max width (len s).
Proof. unfold ljust. rewrite len_app, len_repeat_space. lia. Qed.

(** X19: the text line of a candidate is ["    - "], the category in
    parentheses padded to 14 columns, a space, and the subject, columns
    being counted in characters.  The subject therefore starts at column
    21, where the 21 spaces after a line break put its continuation
    lines, exactly when the category has at most 12 characters; a longer
    category pushes the first line to the right of them. *)
Theorem text_candidate_alignment (subject category metric : string)
    (t0 : trace) :
  exists head,
    TextReportFormat.formatRefactoringCandidate
      (candidate subject category metric) t0
    = (Ret (head
              ++ replace2 ":" ":" TextReportFormat.HANGING
                   (replace1 NEWLINE TextReportFormat.HANGING subject)), t0)
    /\ len head = (7 + Nat.max 14 (len category + 2))%nat
    /\ len TextReportFormat.HANGING = 22%nat
    /\ (len head = 21%nat <-> (len category <= 12)%nat).
Proof.
  exists ("    - " ++ ljust 14 ("(" ++ category ++ ")") ++ " ").
  assert (Hlen : len ("    - " ++ ljust 14 ("(" ++ category ++ ")") ++ " ")
                 = (7 + Nat.max 14 (len category + 2))%nat).
  { assert (Hc : len ("(" ++ category ++ ")") = (len category + 2)%nat).
    { rewrite !len_app. change (len "(") with 1%nat.
      change (len ")") with 1%nat. lia. }
    rewrite len_app, len_app, len_ljust, Hc.
    change (len "    - ") with 6%nat.
    change (len " ") with 1%nat. lia. }
  split; [| split; [exact Hlen | split; [reflexivity | rewrite Hlen; lia]]].
  unfold TextReportFormat.formatRefactoringCandidate, bind, lift, ret. simpl.
  rewrite !PyFacts.append_assoc. reflexivity.
Qed.

(** The characters of [s.replace(old, new)]. *)
Lemma has_char_replace1 (c old : ascii) (new s : string) :
  has_char c (replace1 old new s)
  = (has_char old s && has_char c new) || (negb (Ascii.eqb c old) && has_char c s).
Proof.
  induction s as [|d s IH]; [simpl; now rewrite andb_false_r |].
  cbn [replace1 has_char]. destruct (Ascii.eqb d old) eqn:Hdo.
  - apply Ascii.eqb_eq in Hdo. subst d. rewrite has_char_app, IH.
    rewrite (Ascii.eqb_sym old c).
    destruct (Ascii.eqb c old), (has_char c new), (has_char old s),
      (has_char c s); reflexivity.
  - cbn [has_char]. rewrite IH.
    destruct (Ascii.eqb_spec d c) as [Hdc | Hdc].
    + subst d. rewrite Hdo. cbn [negb orb andb].
      destruct (has_char old s), (has_char c new); reflexivity.
    + cbn [orb]. reflexivity.
Qed.

Lemma replace1_absent (old : ascii) (new s : string) :
  has_char old s = false -> replace1 old new s = s.
Proof.
  induction s as [|d s IH]; [reflexivity |].
  simpl. intros H. apply orb_false_iff in H. destruct H as [Hd Hs].
  rewrite Hd, (IH Hs). reflexivity.
Qed.

Lemma replace2_cons_other (a b c : ascii) (new s : string) :
  Ascii.eqb c a = false ->
  replace2 a b new (String c s) = String c (replace2 a b new s).
Proof.
  intros Hc. destruct s as [|d s]; [reflexivity |].
  cbn [replace2]. rewrite Hc. reflexivity.
Qed.

Lemma replace2_absent (a b : ascii) (new s : string) :
  has_char a s = false -> replace2 a b new s = s.
Proof.
  induction s as [|d s IH]; [reflexivity |].
  simpl has_char. intros H. apply orb_false_iff in H. destruct H as [Hd Hs].
  rewrite replace2_cons_other by exact Hd. now rewrite (IH Hs).
Qed.

(** Writing the line breaks as [::] and then breaking at [::] is breaking
    at the line breaks, where the text has no colon of its own. *)
Lemma break_at_colons (new s : string) :
  has_char ":" s = false ->
  replace2 ":" ":" new (replace1 NEWLINE "::" s) = replace1 NEWLINE new s.
Proof.
  induction s as [|d s IH]; [reflexivity |].
  simpl has_char. intros H. apply orb_false_iff in H. destruct H as [Hd Hs].
  cbn [replace1]. destruct (Ascii.eqb d NEWLINE).
  - change ("::" ++ replace1 NEWLINE "::" s)
      with (String ":" (String ":" (replace1 NEWLINE "::" s))).
    cbn [replace2]. rewrite Ascii.eqb_refl. cbn [andb]. now rewrite (IH Hs).
  - rewrite replace2_cons_other by exact Hd. now rewrite (IH Hs).
Qed.

(** X20: a subject that separates its parts by [::] and the same subject
    with line breaks in their place give the same text line, for a
    subject with no colon of its own: both are broken with the hanging
    indentation. *)
Theorem text_candidate_separators (subject category metric : string)
    (t0 : trace)
    (Hcolon : has_char ":" subject = false) :
  TextReportFormat.formatRefactoringCandidate
    (candidate (replace1 NEWLINE "::" subject) category metric) t0
  = TextReportFormat.formatRefactoringCandidate
      (candidate subject category metric) t0
  /\ TextReportFormat.formatRefactoringCandidate
       (candidate subject category metric) t0
     = (Ret ("    - " ++ ljust 14 ("(" ++ category ++ ")") ++ " "
               ++ replace1 NEWLINE TextReportFormat.HANGING subject), t0).
Proof.
  assert (Hnl : has_char NEWLINE (replace1 NEWLINE "::" subject) = false).
  { rewrite has_char_replace1. rewrite Ascii.eqb_refl. simpl.
    now rewrite andb_false_r. }
  assert (Hhang : has_char ":" (replace1 NEWLINE TextReportFormat.HANGING subject)
                  = false).
  { rewrite has_char_replace1, Hcolon.
    change (has_char ":" TextReportFormat.HANGING) with false.
    now rewrite !andb_false_r. }
  unfold TextReportFormat.formatRefactoringCandidate, bind, lift, ret.
  cbn [candidate TextReportFormat.str_field Json.getitem Json.assoc String.eqb
       Ascii.eqb Bool.eqb].
  simpl TextReportFormat.str_field.
  rewrite (replace1_absent NEWLINE _ _ Hnl).
  rewrite (break_at_colons _ _ Hcolon).
  rewrite (replace2_absent ":" ":" _ _ Hhang).
  split; reflexivity.
Qed.

Lemma text_candidate_separators_witness :
  TextReportFormat.formatRefactoringCandidate
    (candidate "noot::mies" "worsened" "UNIT_SIZE") []
  = TextReportFormat.formatRefactoringCandidate
      (candidate (String "n" (String "o" (String "o" (String "t"
                    (String NEWLINE "mies"))))) "worsened" "UNIT_SIZE") [].
Proof.
  exact (proj1 (text_candidate_separators
                  (String "n" (String "o" (String "o" (String "t"
                     (String NEWLINE "mies")))))
                  "worsened" "UNIT_SIZE" [] eq_refl)).
Defined.

Lemma markup_free_escape (s : string) : markup_free (html_escape s) = true.
Proof.
  unfold markup_free, html_escape. rewrite !has_char_replace1.
  cbn [has_char Ascii.eqb Bool.eqb SQUOTE DQUOTE ascii_of_nat ascii_of_pos
       Ascii.shift Ascii.one Ascii.zero andb orb negb].
  simpl.
  repeat rewrite ?andb_false_r, ?andb_false_l, ?orb_false_r, ?orb_false_l.
  reflexivity.
Qed.

(** X21: in the HTML line of a candidate the category and the subject go
    through [html.escape]: neither keeps a [<], a [>] or a quote of its
    own; the markup of the line is the fixed frame, and the [<br />] put
    in for each line break and each [::] of the escaped subject. *)
Theorem html_candidate_escaped (subject category metric : string) (t0 : trace) :
  exists c s,
    StaticHtmlReport.formatRefactoringCandidate
      (candidate subject category metric) t0
    = (Ret ("<span><em>(" ++ c ++ ")</em><div>"
              ++ replace2 ":" ":" "<br />" (replace1 NEWLINE "<br />" s)
              ++ "</div></span>"), t0)
    /\ c = html_escape category /\ s = html_escape subject
    /\ markup_free c = true /\ markup_free s = true
    /\ (markup_free subject = true -> has_char "&" subject = false ->
        s = subject).
Proof.
  exists (html_escape category), (html_escape subject).
  split; [reflexivity |]. split; [reflexivity |]. split; [reflexivity |].
  split; [apply markup_free_escape |]. split; [apply markup_free_escape |].
  unfold markup_free. intros Hfree Hamp.
  apply andb_true_iff in Hfree. destruct Hfree as [Hfree H4].
  apply andb_true_iff in Hfree. destruct Hfree as [Hfree H3].
  apply andb_true_iff in Hfree. destruct Hfree as [H1 H2].
  apply negb_true_iff in H1, H2, H3, H4.
  unfold html_escape.
  rewrite (replace1_absent "&" _ _ Hamp), (replace1_absent "<" _ _ H1),
    (replace1_absent ">" _ _ H2), (replace1_absent DQUOTE _ _ H3),
    (replace1_absent SQUOTE _ _ H4).
  reflexivity.
Qed.

End CandidateExtra.

(* ===================================================================== *)
(** ** Links into Sigrid *)
(* ===================================================================== *)

Module UrlExtra.
Import Py PyText Aux AuxMore.

Ltac each_byte c := destruct c as [[] [] [] [] [] [] [] []].

Lemma percent_chars (c : ascii) : all_chars url_char (percent c) = true.
Proof. each_byte c; reflexivity. Qed.

Lemma percent_no_space (c : ascii) : replace_char " " "+" (percent c) = percent c.
Proof. each_byte c; reflexivity. Qed.

Lemma unquote_percent (c : ascii) (rest : string) :
  unquote_chars (percent c ++ rest) = String c (unquote_chars rest).
Proof. each_byte c; reflexivity. Qed.

Lemma safe_is_plain (c : ascii) :
  always_safe c = true ->
  Ascii.eqb c " " = false /\ Ascii.eqb c "+" = false /\ Ascii.eqb c "%" = false.
Proof. each_byte c; intros H; try discriminate H; repeat split. Qed.

Lemma quote_plain (s : string) :
  has_char " " s = false -> quote (fun _ => false) s = quote_chars s.
Proof.
  induction s as [|c s IH]; [reflexivity |].
  simpl. intros H. apply orb_false_iff in H. destruct H as [Hc Hs].
  rewrite (IH Hs), Hc, orb_false_r. reflexivity.
Qed.

Lemma quote_spaces (s : string) :
  replace_char " " "+" (quote (fun c => Ascii.eqb c " ") s) = quote_chars s.
Proof.
  induction s as [|c s IH]; [reflexivity |].
  cbn [quote quote_chars]. rewrite PyFacts.replace_char_app, IH. f_equal.
  destruct (always_safe c) eqn:Hsafe.
  - destruct (safe_is_plain c Hsafe) as [Hsp _]. simpl. now rewrite Hsp.
  - cbn [orb]. destruct (Ascii.eqb c " ") eqn:Hsp.
    + simpl. now rewrite Hsp.
    + apply percent_no_space.
Qed.

(** [quote_plus] works one character at a time. *)
Lemma quote_plus_chars (s : string) : quote_plus s = quote_chars s.
Proof.
  unfold quote_plus. destruct (has_char " " s) eqn:H.
  - apply quote_spaces.
  - apply quote_plain. exact H.
Qed.

Lemma all_chars_app (p : ascii -> bool) (a b : string) :
  all_chars p (a ++ b) = all_chars p a && all_chars p b.
Proof. induction a as [|c a IH]; simpl; [reflexivity | now rewrite IH, andb_assoc]. Qed.

Lemma quote_chars_safe (s : string) : all_chars url_char (quote_chars s) = true.
Proof.
  induction s as [|c s IH]; [reflexivity |].
  cbn [quote_chars]. rewrite all_chars_app, IH, andb_true_r.
  destruct (always_safe c) eqn:Hsafe.
  - simpl. unfold url_char. now rewrite Hsafe.
  - destruct (Ascii.eqb c " "); [reflexivity | apply percent_chars].
Qed.

Lemma unquote_quote (s : string) : unquote_chars (quote_chars s) = s.
Proof.
  induction s as [|c s IH]; [reflexivity |].
  cbn [quote_chars]. destruct (always_safe c) eqn:Hsafe.
  - destruct (safe_is_plain c Hsafe) as [_ [Hplus Hpct]].
    simpl. now rewrite Hplus, Hpct, IH.
  - destruct (Ascii.eqb_spec c " ") as [-> | Hsp].
    + simpl. now rewrite IH.
    + now rewrite unquote_percent, IH.
Qed.

Lemma all_chars_has_char (p : ascii -> bool) (c : ascii) (s : string) :
  all_chars p s = true -> p c = false -> has_char c s = false.
Proof.
  intros Hall Hc. induction s as [|d s IH]; [reflexivity |].
  simpl in *. apply andb_true_iff in Hall. destruct Hall as [Hd Hs].
  rewrite (IH Hs), orb_false_r. apply Ascii.eqb_neq. intros ->. congruence.
Qed.

Lemma split_at_slash (a a' b b' : string) :
  has_char "/" a = false -> has_char "/" a' = false ->
  a ++ "/" ++ b = a' ++ "/" ++ b' -> a = a' /\ b = b'.
Proof.
  revert a'. induction a as [|c a IH]; intros a' Ha Ha' H.
  - destruct a' as [|c' a']; simpl in H.
    + injection H as ->. auto.
    + injection H as <- _. simpl in Ha'. discriminate.
  - destruct a' as [|c' a']; simpl in H.
    + injection H as -> _. simpl in Ha. discriminate.
    + injection H as -> H. simpl in Ha, Ha'.
      apply orb_false_iff in Ha, Ha'.
      destruct (IH a' (proj2 Ha) (proj2 Ha') H) as [-> ->]. auto.
Qed.

Lemma append_inj_l (p a b : string) : p ++ a = p ++ b -> a = b.
Proof. induction p as [|c p IH]; simpl; intros H; [exact H | injection H; auto]. Qed.

(** X22: the link into Sigrid is the host followed by two segments, the
    quoted customer and the quoted system.  A segment holds unreserved
    characters, [+] and [%] only, so no [/], [?], [#] or blank from a
    name reaches the URL; and the link tells the pair of names: two pairs
    with the same link are the same pair. *)
Theorem getSigridUrl_segments (customer system : string) :
  (exists a b,
     ReportFormat.getSigridUrl customer system
     = "https://sigrid-says.com/" ++ a ++ "/" ++ b
     /\ all_chars url_char a = true /\ all_chars url_char b = true
     /\ has_char "/" a = false /\ has_char "/" b = false
     /\ has_char "?" (a ++ b) = false /\ has_char "#" (a ++ b) = false
     /\ has_char " " (a ++ b) = false)
  /\ (forall customer' system',
        ReportFormat.getSigridUrl customer system
        = ReportFormat.getSigridUrl customer' system' ->
        customer = customer' /\ system = system').
Proof.
  assert (Hsafe : forall s, all_chars url_char (quote_plus s) = true)
    by (intros s; rewrite quote_plus_chars; apply quote_chars_safe).
  assert (Hno : forall c s, url_char c = false -> has_char c (quote_plus s) = false)
    by (intros c s Hc; apply (all_chars_has_char url_char); auto).
  split.
  - exists (quote_plus customer), (quote_plus system).
    split; [reflexivity |]. split; [apply Hsafe |]. split; [apply Hsafe |].
    split; [apply Hno; reflexivity |]. split; [apply Hno; reflexivity |].
    rewrite !TextFacts.has_char_app.
    rewrite !Hno by reflexivity. repeat split.
  - intros customer' system' H. unfold ReportFormat.getSigridUrl in H.
    apply append_inj_l in H.
    apply split_at_slash in H; try (apply Hno; reflexivity).
    destruct H as [Hc Hs]. rewrite !quote_plus_chars in Hc, Hs.
    split.
    + rewrite <- (unquote_quote customer), Hc. apply unquote_quote.
    + rewrite <- (unquote_quote system), Hs. apply unquote_quote.
Qed.

End UrlExtra.

(* ===================================================================== *)
(** ** [AzurePullRequestReport]: the properties *)
(* ===================================================================== *)

Module AzureExtra.
Import Py AzurePullRequestReport.

(** X23: the report does nothing (no log line, no request, no error)
    unless the access token and the pull-request id are set, the run is a
    feedback-only run, and the feedback file exists. *)
Theorem azure_generate_guarded (E : env) (H : host) (analysisId feedback : json)
    (opts : options) (t0 : trace)
    (Hguard : lookup "SYSTEM_ACCESSTOKEN" (environ H) = None
              \/ lookup "SYSTEM_PULLREQUEST_PULLREQUESTID" (environ H) = None
              \/ feedbackOnly opts = false
              \/ path_exists H (outputDir opts ++ "/feedback.md") = false) :
  generate E H analysisId feedback opts t0 = (Ret tt, t0).
Proof.
  unfold generate, isSupported, in_environ.
  destruct Hguard as [-> | [-> | [-> | ->]]].
  - reflexivity.
  - destruct (lookup "SYSTEM_ACCESSTOKEN" (environ H)); reflexivity.
  - rewrite andb_false_r. reflexivity.
  - rewrite orb_true_r. reflexivity.
Qed.

Lemma azure_generate_guarded_witness :
  generate (Samples.base SamplesMore.net_403 1000) SamplesMore.host
    (JStr "run-1") (JObj []) (mkOptions "sigrid-ci-output" false) []
  = (Ret tt, []).
Proof.
  apply azure_generate_guarded. right. right. left. reflexivity.
Defined.

Section Publish.
Variable E : env.
Variable H : host.
Variable analysisId feedback : json.
Variable opts : options.
Variables token pr baseURL project repo text : string.

Hypothesis Htoken : lookup "SYSTEM_ACCESSTOKEN" (environ H) = Some token.
Hypothesis Hpr : lookup "SYSTEM_PULLREQUEST_PULLREQUESTID" (environ H) = Some pr.
Hypothesis Hmode : feedbackOnly opts = true.
Hypothesis Hexists : path_exists H (outputDir opts ++ "/feedback.md") = true.

Lemma generate_supported (t0 : trace) :
  generate E H analysisId feedback opts t0
  = try_except
      (log "Sending feedback to Azure DevOps API" ;;
       body <- buildRequestBody H analysisId (outputDir opts ++ "/feedback.md") ;;
       callAzure E H "POST" body ;;
       log "Published feedback to Azure DevOps")
      (fun e =>
         match e with
         | HTTPError code =>
             Some (log ("Warning: Azure DevOps API error: " ++ format_d code
                          ++ " / " ++ error_text H))
         | _ => None
         end) t0.
Proof.
  unfold generate, isSupported, in_environ.
  rewrite Htoken, Hpr, Hmode, Hexists. reflexivity.
Qed.


(** X25: the variables of the URL are not part of the guard.  With the
    guard passed, a missing collection URI, project id or repository name
    (the first one missing, in this order) leaves the report as a
    [KeyError], and a feedback file that cannot be read as an [OSError]:
    after the first log line and before any request. *)
Theorem azure_missing_variable (t0 : trace) :
  let started := EvLog "Sending feedback to Azure DevOps API" :: t0 in
  (read_text H (outputDir opts ++ "/feedback.md") = None ->
   generate E H analysisId feedback opts t0 = (Raise OSError, started))
  /\ (read_text H (outputDir opts ++ "/feedback.md") = Some text ->
      (lookup "SYSTEM_TEAMFOUNDATIONCOLLECTIONURI" (environ H) = None ->
       generate E H analysisId feedback opts t0
       = (Raise (KeyError "SYSTEM_TEAMFOUNDATIONCOLLECTIONURI"), started))
      /\ (lookup "SYSTEM_TEAMFOUNDATIONCOLLECTIONURI" (environ H) = Some baseURL ->
          lookup "SYSTEM_TEAMPROJECTID" (environ H) = None ->
          generate E H analysisId feedback opts t0
          = (Raise (KeyError "SYSTEM_TEAMPROJECTID"), started))
      /\ (lookup "SYSTEM_TEAMFOUNDATIONCOLLECTIONURI" (environ H) = Some baseURL ->
          lookup "SYSTEM_TEAMPROJECTID" (environ H) = Some project ->
          lookup "BUILD_REPOSITORY_NAME" (environ H) = None ->
          generate E H analysisId feedback opts t0
          = (Raise (KeyError "BUILD_REPOSITORY_NAME"), started))).
Proof.
  intros started. rewrite generate_supported.
  unfold try_except, bind, log, emit, buildRequestBody, callAzure, buildURL,
    bind, lift, getenv, ret, raise.
  split.
  - intros ->. reflexivity.
  - intros ->. repeat split.
    + intros ->. reflexivity.
    + intros -> ->. reflexivity.
    + intros -> -> ->. reflexivity.
Qed.

End Publish.


Lemma azure_missing_variable_witness :
  generate (Samples.base SamplesMore.net_403 1000) SamplesMore.host_no_project
    (JStr "run-1") (JObj []) SamplesMore.opts []
  = (Raise (KeyError "SYSTEM_TEAMPROJECTID"),
     [ EvLog "Sending feedback to Azure DevOps API" ]).
Proof.
  refine (proj1 (proj2 (proj2 (azure_missing_variable
            (Samples.base SamplesMore.net_403 1000) SamplesMore.host_no_project
            (JStr "run-1") (JObj []) SamplesMore.opts
            "secret" "42" "https://dev.azure.com/org/" "proj" "# feedback"
            eq_refl eq_refl eq_refl eq_refl []) eq_refl)) eq_refl eq_refl).
Defined.

End AzureExtra.

(* ===================================================================== *)
(** ** The archive holds no name twice *)
(* ===================================================================== *)

Module DistinctExtra.
Import Py PyText PyFacts SystemUploadPacker Aux AuxMore WalkFacts PackerFacts.
Import TextFacts.

Lemma distinct_cons (x : string) (rest : list string) :
  distinct (x :: rest) = true -> ~ In x rest /\ distinct rest = true.
Proof.
  simpl. intros H. apply andb_true_iff in H. destruct H as [Hx Hr].
  split; [| exact Hr]. intros Hin. apply negb_true_iff in Hx.
  assert (Hex : existsb (String.eqb x) rest = true)
    by (apply existsb_exists; exists x; split; [exact Hin | apply String.eqb_refl]).
  congruence.
Qed.

Lemma walk_keys_cons (item : walk_item) (items : list walk_item) :
  walk_keys (item :: items)
  = (map (fun file => below item ++ [file]) (files item) ++ walk_keys items)%list.
Proof. reflexivity. Qed.

Lemma walk_keys_app (a b : list walk_item) :
  walk_keys (a ++ b) = (walk_keys a ++ walk_keys b)%list.
Proof. unfold walk_keys. apply flat_map_app. Qed.

(** The files listed for the children of one directory. *)
Lemma children_keys (children : list node) :
  Forall keys_spec children ->
  distinct (map node_name children) = true ->
  forallb unique_node children = true ->
  forall r path,
    NoDup (walk_keys (mkItem r path (files_of children)
                        :: flat_map (walk_dir r path) children))
    /\ forall key,
         In key (walk_keys (mkItem r path (files_of children)
                              :: flat_map (walk_dir r path) children)) ->
         exists c rest, In c children /\ key = (path ++ node_name c :: rest)%list.
Proof.
  induction 1 as [|c cs Hc Hcs IH]; intros Hd Hu r path.
  - split; [constructor | intros key []].
  - apply distinct_cons in Hd. destruct Hd as [Hfresh Hd].
    simpl in Hu. apply andb_true_iff in Hu. destruct Hu as [Huc Hu].
    destruct (IH Hd Hu r path) as [IHnd IHshape].
    assert (Hother : forall key rest,
               In key (walk_keys (mkItem r path (files_of cs)
                                    :: flat_map (walk_dir r path) cs)) ->
               key <> (path ++ node_name c :: rest)%list).
    { intros key rest Hin Heq. destruct (IHshape key Hin) as [c' [rest' [Hc' Hk]]].
      rewrite Hk in Heq. apply app_inv_head in Heq. injection Heq as Hname _.
      apply Hfresh. rewrite <- Hname. now apply in_map. }
    destruct c as [f | d sub].
    + change (walk_keys (mkItem r path (files_of (File f :: cs))
                           :: flat_map (walk_dir r path) (File f :: cs)))
        with ((path ++ [f])%list
                :: walk_keys (mkItem r path (files_of cs)
                                :: flat_map (walk_dir r path) cs)).
      split.
      * constructor; [| exact IHnd]. intros Hin.
        exact (Hother _ [] Hin eq_refl).
      * intros key [<- | Hin].
        -- exists (File f), []. split; [left; reflexivity | reflexivity].
        -- destruct (IHshape key Hin) as [c' [rest [Hc' Hk]]].
           exists c', rest. split; [right; exact Hc' | exact Hk].
    + destruct (Hc r path Huc) as [Hsub_nd Hsub_shape].
      change (walk_keys (mkItem r path (files_of (Dir d sub :: cs))
                           :: flat_map (walk_dir r path) (Dir d sub :: cs)))
        with (map (fun file => path ++ [file]) (files_of cs)
                ++ walk_keys (walk_dir r path (Dir d sub)
                                ++ flat_map (walk_dir r path) cs))%list.
      rewrite walk_keys_app.
      rewrite walk_keys_cons in IHnd, IHshape, Hother. cbn [below files] in *.
      split.
      * eapply Permutation_NoDup; [apply Permutation_app_swap_app |].
        apply NoDup_app; [exact Hsub_nd | exact IHnd |].
        intros key Hin Hin'. destruct (Hsub_shape key Hin) as [rest Hk].
        exact (Hother key rest Hin' Hk).
      * intros key Hin. apply in_app_or in Hin. destruct Hin as [Hin | Hin].
        -- destruct (IHshape key (in_or_app _ _ _ (or_introl Hin)))
             as [c' [rest [Hc' Hk]]].
           exists c', rest. split; [right; exact Hc' | exact Hk].
        -- apply in_app_or in Hin. destruct Hin as [Hin | Hin].
           ++ destruct (Hsub_shape key Hin) as [rest Hk].
              exists (Dir d sub), rest. split; [left; reflexivity | exact Hk].
           ++ destruct (IHshape key (in_or_app _ _ _ (or_intror Hin)))
                as [c' [rest [Hc' Hk]]].
              exists c', rest. split; [right; exact Hc' | exact Hk].
Qed.

Lemma keys_spec_all (n : node) : keys_spec n.
Proof.
  induction n as [f | d children IH] using node_ind'; [exact I |].
  intros r path Hu. simpl in Hu. apply andb_true_iff in Hu.
  destruct Hu as [Hd Hu]. cbn [walk_dir].
  destruct (children_keys children IH Hd Hu (path_join r d) (path ++ [d])%list)
    as [Hnd Hshape].
  split; [exact Hnd |]. intros key Hin.
  destruct (Hshape key Hin) as [c [rest [_ ->]]].
  exists (node_name c :: rest). now rewrite <- app_assoc.
Qed.

Lemma walk_keys_NoDup (top : string) (tree : list node) :
  unique_tree tree = true -> NoDup (walk_keys (walk top tree)).
Proof.
  unfold unique_tree. intros Hu. apply andb_true_iff in Hu.
  destruct Hu as [Hd Hu].
  assert (Hall : Forall keys_spec tree)
    by (apply Forall_forall; intros n _; apply keys_spec_all).
  exact (proj1 (children_keys tree Hall Hd Hu top [])).
Qed.

Lemma walk_keys_pairs (items : list walk_item) :
  walk_keys items = map pair_key (walk_pairs items).
Proof.
  induction items as [|item items IH]; [reflexivity |].
  unfold walk_pairs. cbn [flat_map]. rewrite map_app, map_map.
  rewrite walk_keys_cons, IH. reflexivity.
Qed.

Lemma entries_by_pairs (self : t) (out : string) (items : list walk_item) :
  map uploadPath
      (flat_map (fun item => flat_map (add_file self out item) (files item))
                items)
  = flat_map (fun p => map uploadPath (add_file self out (fst p) (snd p)))
             (walk_pairs items).
Proof.
  induction items as [|item items IH]; [reflexivity |].
  unfold walk_pairs. cbn [flat_map]. rewrite map_app, flat_map_app, IH.
  f_equal. induction (files item) as [|file fs IHf]; [reflexivity |].
  cbn [flat_map map]. rewrite map_app, IHf. reflexivity.
Qed.

Lemma add_file_name (self : t) (out : string) (p : walk_item * string) :
  map uploadPath (add_file self out (fst p) (snd p)) = []
  \/ map uploadPath (add_file self out (fst p) (snd p))
     = [archive_name self (pair_key p)].
Proof.
  unfold add_file.
  destruct (negb (snd p =? out) && negb (isExcluded self _));
    [right | left]; reflexivity.
Qed.

(** Picking at most one image per element keeps a list free of repeats. *)
Lemma NoDup_flat_map_pick {A B : Type} (k : A -> B) (h : A -> list B)
    (l : list A) :
  (forall a, h a = [] \/ h a = [k a]) ->
  NoDup (map k l) -> NoDup (flat_map h l).
Proof.
  intros Hh. induction l as [|a l IH]; intros Hnd; [constructor |].
  cbn [map] in Hnd. inversion Hnd as [|x xs Hfresh Hrest]; subst.
  cbn [flat_map]. destruct (Hh a) as [-> | ->]; [exact (IH Hrest) |].
  constructor; [| exact (IH Hrest)]. intros Hin. apply Hfresh.
  apply in_flat_map in Hin. destruct Hin as [a' [Ha' Hb]].
  destruct (Hh a') as [He | He]; rewrite He in Hb; [destruct Hb |].
  destruct Hb as [<- | []]. now apply in_map.
Qed.

Lemma valid_name_plain (s : string) :
  valid_name s = true -> s <> "" /\ has_char "/" s = false.
Proof.
  unfold valid_name. rewrite andb_true_iff, !negb_true_iff.
  intros [Hne Hno]. split.
  - intros ->. discriminate.
  - now rewrite <- contains_slash.
Qed.

Lemma has_char_join_tail (x : string) (rest : string) :
  has_char "/" (x ++ "/" ++ rest) = true.
Proof.
  rewrite TextFacts.has_char_app. apply orb_true_iff. right. reflexivity.
Qed.

(** Joining names that hold no separator loses nothing. *)
Lemma join_inj (l l' : list string) :
  Forall (fun s => valid_name s = true) l ->
  Forall (fun s => valid_name s = true) l' ->
  join "/" l = join "/" l' -> l = l'.
Proof.
  intros Hl. revert l'. induction Hl as [|x l Hx Hl IH]; intros l' Hl' H.
  - destruct Hl' as [|x' l' Hx' Hl']; [reflexivity |].
    destruct (valid_name_plain x' Hx') as [Hne _].
    destruct l' as [|y' r']; cbn [join] in H.
    + congruence.
    + destruct x'; [congruence | discriminate].
  - destruct (valid_name_plain x Hx) as [Hne Hpl].
    destruct Hl' as [|x' l' Hx' Hl'].
    + destruct l as [|y r]; cbn [join] in H.
      * congruence.
      * destruct x; [congruence | discriminate].
    + destruct (valid_name_plain x' Hx') as [Hne' Hpl'].
      destruct l as [|y r], l' as [|y' r']; cbn [join] in H.
      * congruence.
      * rewrite H in Hpl. rewrite has_char_join_tail in Hpl. discriminate.
      * rewrite <- H in Hpl'. rewrite has_char_join_tail in Hpl'. discriminate.
      * apply UrlExtra.split_at_slash in H; [| assumption | assumption].
        destruct H as [-> H]. f_equal. apply IH; assumption.
Qed.

Lemma archive_name_inj (self : t) (a b : string) :
  getUploadFilePath self a = getUploadFilePath self b -> a = b.
Proof.
  unfold getUploadFilePath. destruct (pathPrefix self =? ""); [auto |].
  intros H. apply UrlExtra.append_inj_l in H.
  now apply UrlExtra.append_inj_l in H.
Qed.

Lemma walk_keys_valid (top : string) (tree : list node) (key : list string) :
  valid_tree tree = true ->
  In key (walk_keys (walk top tree)) ->
  Forall (fun s => valid_name s = true) key.
Proof.
  intros Hv Hin. unfold walk_keys in Hin. apply in_flat_map in Hin.
  destruct Hin as [item [Hitem Hkey]]. apply in_map_iff in Hkey.
  destruct Hkey as [file [<- Hfile]].
  assert (Hl : listed (walk top tree) (root item) (below item) file)
    by (exists item; auto).
  apply walk_lists_tree_files in Hl. destruct Hl as [Hf _].
  destruct (tree_files_valid tree _ Hv Hf) as [Hd Hn].
  apply Forall_app. split; [exact Hd | constructor; [exact Hn | constructor]].
Qed.

(** X26: no two entries of the archive bear the same name.  In a tree
    whose names are file names (not empty, no separator) and differ within
    each directory, the names [prepareUpload] writes into the archive are
    pairwise distinct, whatever the exclusion patterns, the path prefix
    and the name of the output file: joining the relative path and
    prepending the prefix never makes two files collide.  Nor does the
    normal form under which [zipfile] stores them, when no name of the
    tree is [.] or [..] and the prefix holds no null byte and does not
    begin with the separator. *)
Theorem archive_names_distinct (E : env) (self : t)
    (sourceDir outputFile : string) (t0 : trace) :
  valid_tree (tree_of E sourceDir) = true ->
  unique_tree (tree_of E sourceDir) = true ->
  exists entries,
    written outputFile (snd (prepareUpload E self sourceDir outputFile t0))
    = Some entries
    /\ NoDup (map uploadPath entries)
    /\ (real_tree (tree_of E sourceDir) = true ->
        startswith_slash (pathPrefix self) = false ->
        has_char zero (pathPrefix self) = false ->
        NoDup (map (fun e => Zip.arcname (uploadPath e)) entries)).
Proof.
  intros Hv Hu. eexists. split; [apply PackerSpec.prepareUpload_written |].
  assert (Hall : NoDup (map uploadPath
                          (archive_entries self sourceDir (tree_of E sourceDir)
                             outputFile))).
  { unfold archive_entries. rewrite entries_by_pairs.
    apply (NoDup_flat_map_pick (fun p => archive_name self (pair_key p)));
      [apply add_file_name |].
    rewrite <- (map_map pair_key (archive_name self)), <- walk_keys_pairs.
    apply NoDup_map_NoDup_ForallPairs; [| now apply walk_keys_NoDup].
    intros a b Ha Hb Hab. unfold archive_name in Hab.
    apply archive_name_inj in Hab.
    apply join_inj in Hab; [exact Hab | |]; eapply walk_keys_valid; eassumption. }
  assert (Hfront : NoDup (map uploadPath
                            (fst (zip_writes E
                                    (archive_entries self sourceDir
                                       (tree_of E sourceDir) outputFile))))).
  { destruct (PackerSpec.zip_writes_front E
                (archive_entries self sourceDir (tree_of E sourceDir) outputFile))
      as [rest Hrest].
    rewrite Hrest, map_app in Hall. exact (NoDup_app_remove_r _ _ Hall). }
  split; [exact Hfront |].
  intros Hreal HP Hnul.
  rewrite <- (map_map uploadPath Zip.arcname).
  apply NoDup_map_NoDup_ForallPairs; [| exact Hfront].
  assert (Hname : forall a,
            In a (map uploadPath
                    (fst (zip_writes E
                            (archive_entries self sourceDir
                               (tree_of E sourceDir) outputFile)))) ->
            exists f,
              Forall (fun x => valid_name x = true) (dirs f ++ [fname f])
              /\ a = getUploadFilePath self (relative_path f)
              /\ Zip.arcname a
                 = Some (join "/" (kept_components (pathPrefix self)
                                     ++ dirs f ++ [fname f]))).
  { intros a Ha. apply in_map_iff in Ha. destruct Ha as [e [<- He]].
    apply PackerSpec.zip_writes_incl, archive_entries_iff in He.
    destruct He as [f [Hf [_ [_ ->]]]]. exists f.
    pose proof (NormFacts.tree_files_real _ f Hreal Hf) as Hnames.
    split; [| split; [reflexivity |]].
    - eapply Forall_impl; [| exact Hnames]. intros x Hx.
      now destruct (NormFacts.real_name_facts x Hx).
    - exact (NormFacts.arcname_nul_free (pathPrefix self) f HP Hnames Hnul). }
  intros a b Ha Hb Hab.
  destruct (Hname a Ha) as [f [Hvf [-> Hfa]]].
  destruct (Hname b Hb) as [g [Hvg [-> Hgb]]].
  rewrite Hfa, Hgb in Hab. injection Hab as Hab.
  apply join_inj in Hab;
    [| apply Forall_app; split; [apply NormFacts.kept_components_valid | exact Hvf]
     | apply Forall_app; split; [apply NormFacts.kept_components_valid | exact Hvg]].
  apply app_inv_head in Hab. unfold relative_path. now rewrite Hab.
Qed.

Lemma archive_names_distinct_witness :
  exists entries,
    written "upload.zip"
      (snd (prepareUpload (Samples.base Samples.net_poll 1)
              (init [] false "frontend") "/repo" "upload.zip" []))
    = Some entries
    /\ NoDup (map uploadPath entries)
    /\ NoDup (map (fun e => Zip.arcname (uploadPath e)) entries).
Proof.
  destruct (archive_names_distinct (Samples.base Samples.net_poll 1)
              (init [] false "frontend") "/repo" "upload.zip" []
              eq_refl eq_refl)
    as [entries [Hw [Hnames Hstored]]].
  exists entries. split; [exact Hw |]. split; [exact Hnames |].
  exact (Hstored eq_refl eq_refl eq_refl).
Defined.

End DistinctExtra.
